(** * BitFlow Python SDK: webhook handler and API client

    A shallow embedding of [sdk/python/bitflow] ([exceptions.py], [types.py],
    [webhook.py] and the request path of [client.py]) together with the
    properties of the webhook verification / dispatch routine and of the
    client's query and error mapping.

    Python text is a sequence of Unicode code points, bytes are numbers below
    256, exceptions are values of an error monad, and the callbacks a user
    registers are arbitrary functions acting on an abstract world. *)

From Stdlib Require Import NArith ZArith List String Ascii Lia.
From stdpp Require Import base option list gmap.

Open Scope N_scope.
Set Warnings "-register-all".

(** ** Python text and values *)

(** A [str] is a sequence of code points; a [bytes] object a sequence of
    octets. *)
Abbreviation pystr := (list N).
Abbreviation pybytes := (list N).

(** An ASCII string literal of the source, as code points. *)
Definition u (s : string) : pystr :=
  List.map N_of_ascii (list_ascii_of_string s).

(** The values that reach the SDK: text, and the other values that
    [json.loads] can build, which a caller may also pass where the
    annotations ask for a [str]. A [float] is kept as the literal it was read
    from. A [dict] keeps insertion order. *)
Inductive pyval : Type :=
  | PNone
  | PBool (b : bool)
  | PInt (z : Z)
  | PFloat (literal : pystr)
  | PStr (s : pystr)
  | PList (items : list pyval)
  | PDict (items : list (pystr * pyval)).

(** Truth value of text and of an integer ([if x:], [not x]). *)
Definition str_truthy (s : pystr) : bool :=
  match s with
  | [] => false
  | _ :: _ => true
  end.

Definition int_truthy (z : Z) : bool := negb (Z.eqb z 0).

Definition is_ascii (s : pystr) : bool := forallb (fun c => c <? 128) s.

Definition pystr_eqb (a b : pystr) : bool := bool_decide (a = b).

(** ** Exceptions *)

(** The exception classes that occur, with single inheritance. *)
Inductive exc_class : Type :=
  | BaseException | KeyboardInterrupt | SystemExit
  | Exception
  | AttributeError | TypeError | RuntimeError | RecursionError
  | LookupError | KeyError | IndexError
  | ValueError | UnicodeError | UnicodeEncodeError | JSONDecodeError
  | UnicodeDecodeError
  | OSError | RequestException
  | BitFlowError | AuthenticationError | ValidationError | NotFoundError
  | RateLimitError | NetworkError
  | HTTPException
  | UserDefined (name : string) (base : exc_class).

Global Instance exc_class_eq_dec : EqDecision exc_class.
Proof. solve_decision. Defined.

(** The class and its ancestors, most derived first. *)
Fixpoint mro (c : exc_class) : list exc_class :=
  c :: match c with
       | BaseException => []
       | KeyboardInterrupt | SystemExit | Exception => [BaseException]
       | AttributeError | TypeError | RuntimeError | LookupError
       | ValueError | OSError | BitFlowError | HTTPException =>
           [Exception; BaseException]
       | RecursionError => [RuntimeError; Exception; BaseException]
       | KeyError | IndexError => [LookupError; Exception; BaseException]
       | UnicodeError | JSONDecodeError => [ValueError; Exception; BaseException]
       | UnicodeEncodeError | UnicodeDecodeError =>
           [UnicodeError; ValueError; Exception; BaseException]
       | RequestException => [OSError; Exception; BaseException]
       | AuthenticationError | ValidationError | NotFoundError
       | RateLimitError | NetworkError =>
           [BitFlowError; Exception; BaseException]
       | UserDefined _ b => mro b
       end.

Definition issubclass (c d : exc_class) : bool :=
  existsb (fun x => bool_decide (x = d)) (mro c).

(** An exception object: its class, [args], and the attributes the SDK's
    classes and the web framework's set ([None] here: the attribute does not
    exist). *)
Record PyExc : Type := mkExc {
  exc_type : exc_class;
  exc_args : list pyval;
  message : option pyval;
  code : option pyval;
  status_code : option pyval;
  retry_after : option pyval;
  detail : option pyval
}.

Definition isinstance (e : PyExc) (c : exc_class) : bool :=
  issubclass (exc_type e) c.

(** An exception of a built-in class carrying one message. *)
Definition builtin_exc (c : exc_class) (msg : string) : PyExc :=
  mkExc c [PStr (u msg)] None None None None None.

(** ** Computations that may raise *)

Inductive exn (A : Type) : Type :=
  | Return (a : A)
  | Raise (e : PyExc).
Arguments Return {A} a.
Arguments Raise {A} e.

Global Instance exn_ret : MRet exn := fun A a => Return a.
Global Instance exn_bind : MBind exn := fun A B f m =>
  match m with
  | Return a => f a
  | Raise e => Raise e
  end.

Global Instance exn_fmap : FMap exn := fun A B f m =>
  match m with
  | Return a => Return (f a)
  | Raise e => Raise e
  end.

(** [try: body except <classes>: handler]. *)
Definition try_except {A} (body : exn A) (catches : PyExc -> bool)
    (handler : PyExc -> exn A) : exn A :=
  match body with
  | Return a => Return a
  | Raise e => if catches e then handler e else Raise e
  end.

(** ** Built-in operations used by the SDK *)

(** [str.encode('utf-8')] on text: surrogates cannot be encoded. The error
    names the run of surrogates that starts at the offending position. *)
Definition is_surrogate (c : N) : bool := (0xD800 <=? c) && (c <=? 0xDFFF).

Definition utf8_of_codepoint (c : N) : option pybytes :=
  if c <? 0x80 then Some [c]
  else if c <? 0x800 then Some [0xC0 + c / 64; 0x80 + c mod 64]
  else if c <? 0x10000 then
    if is_surrogate c then None
    else Some [0xE0 + c / 4096; 0x80 + (c / 64) mod 64; 0x80 + c mod 64]
  else if c <? 0x110000 then
    Some [0xF0 + c / 262144; 0x80 + (c / 4096) mod 64;
          0x80 + (c / 64) mod 64; 0x80 + c mod 64]
  else None.

Fixpoint surrogate_run (s : pystr) : nat :=
  match s with
  | c :: s' => if is_surrogate c then S (surrogate_run s') else O
  | [] => O
  end.

Fixpoint utf8_encode_from (pos : nat) (whole s : pystr) : exn pybytes :=
  match s with
  | [] => Return []
  | c :: s' =>
      match utf8_of_codepoint c with
      | Some bs =>
          match utf8_encode_from (S pos) whole s' with
          | Return rest => Return (bs ++ rest)
          | Raise e => Raise e
          end
      | None =>
          Raise (mkExc UnicodeEncodeError
                   [PStr (u "utf-8"); PStr whole; PInt (Z.of_nat pos);
                    PInt (Z.of_nat (pos + Nat.max 1 (surrogate_run s)));
                    PStr (u "surrogates not allowed")]
                   None None None None None)
      end
  end.

Definition utf8_encode (s : pystr) : exn pybytes := utf8_encode_from 0 s s.

Definition type_name (v : pyval) : string :=
  match v with
  | PNone => "NoneType"
  | PBool _ => "bool"
  | PInt _ => "int"
  | PFloat _ => "float"
  | PStr _ => "str"
  | PList _ => "list"
  | PDict _ => "dict"
  end.

(** [obj.encode('utf-8')]: only text has the method. *)
Definition encode_utf8 (obj : pyval) : exn pybytes :=
  match obj with
  | PStr s => utf8_encode s
  | _ => Raise (builtin_exc AttributeError
                  ("'" ++ type_name obj ++ "' object has no attribute 'encode'"))
  end.

(** ** [hashlib.sha256] (FIPS 180-4) on octets, and [hmac] (RFC 2104) *)

Module hashlib.

Definition word (x : N) : N := x mod 2 ^ 32.
Definition add32 (x y : N) : N := word (x + y).
Definition rotr (n x : N) : N :=
  word (N.lor (N.shiftr x n) (N.shiftl x (32 - n))).
Definition shr (n x : N) : N := N.shiftr x n.
Definition xor3 (x y z : N) : N := N.lxor (N.lxor x y) z.

Definition Ch (x y z : N) : N :=
  N.lxor (N.land x y) (N.land (N.lxor x (2 ^ 32 - 1)) z).
Definition Maj (x y z : N) : N :=
  xor3 (N.land x y) (N.land x z) (N.land y z).
Definition Sigma0 (x : N) : N := xor3 (rotr 2 x) (rotr 13 x) (rotr 22 x).
Definition Sigma1 (x : N) : N := xor3 (rotr 6 x) (rotr 11 x) (rotr 25 x).
Definition sigma0 (x : N) : N := xor3 (rotr 7 x) (rotr 18 x) (shr 3 x).
Definition sigma1 (x : N) : N := xor3 (rotr 17 x) (rotr 19 x) (shr 10 x).

(** The constants are the first 32 bits of the fractional parts of the
    square roots (initial state) and cube roots (round constants) of the
    first primes. *)
Definition primes64 : list N :=
  [2; 3; 5; 7; 11; 13; 17; 19; 23; 29; 31; 37; 41; 43; 47; 53;
   59; 61; 67; 71; 73; 79; 83; 89; 97; 101; 103; 107; 109; 113; 127; 131;
   137; 139; 149; 151; 157; 163; 167; 173; 179; 181; 191; 193; 197; 199;
   211; 223; 227; 229; 233; 239; 241; 251; 257; 263; 269; 271; 277; 281;
   283; 293; 307; 311].

(** Integer cube root of a number below [2 ^ 108], one bit at a time. *)
Fixpoint cbrt_bits (bits : nat) (n r : N) : N :=
  match bits with
  | O => r
  | S b =>
      let r' := r + 2 ^ N.of_nat b in
      cbrt_bits b n (if r' * r' * r' <=? n then r' else r)
  end.
Definition cbrt (n : N) : N := cbrt_bits 36 n 0.

Definition K : list N :=
  Eval vm_compute in List.map (fun p => word (cbrt (p * 2 ^ 96))) primes64.
Definition H0 : list N :=
  Eval vm_compute in
    List.map (fun p => word (N.sqrt (p * 2 ^ 64))) (firstn 8 primes64).

(** Big-endian octets of a number. *)
Fixpoint be_bytes (n : nat) (x : N) : pybytes :=
  match n with
  | O => []
  | S n' => (x / 256 ^ N.of_nat n') mod 256 :: be_bytes n' x
  end.
Definition be_word (bs : pybytes) : N :=
  fold_left (fun acc b => acc * 256 + b) bs 0.

Definition pad (msg : pybytes) : pybytes :=
  let len := length msg in
  let zeros := ((119 - len mod 64) mod 64)%nat in
  msg ++ [0x80] ++ repeat 0 zeros ++ be_bytes 8 (8 * N.of_nat len).

(** Cut into pieces of [n] items; [fuel] bounds the number of pieces. *)
Fixpoint chunks {A} (fuel n : nat) (l : list A) : list (list A) :=
  match fuel, l with
  | O, _ | _, [] => []
  | S fuel', _ => firstn n l :: chunks fuel' n (skipn n l)
  end.

Definition schedule (block : pybytes) : list N :=
  fold_left
    (fun w t =>
       w ++ [add32 (add32 (sigma1 (nth (t - 2) w 0)) (nth (t - 7) w 0))
                   (add32 (sigma0 (nth (t - 15) w 0)) (nth (t - 16) w 0))])
    (seq 16 48)
    (List.map be_word (chunks 16 4 block)).

Record state : Type := State {
  sa : N; sb : N; sc : N; sd : N; se : N; sf : N; sg : N; sh : N
}.

Definition round (s : state) (kw : N * N) : state :=
  let '(State a b c d e f g h) := s in
  let t1 :=
    add32 (add32 (add32 h (Sigma1 e)) (Ch e f g))
          (add32 (fst kw) (snd kw)) in
  let t2 := add32 (Sigma0 a) (Maj a b c) in
  State (add32 t1 t2) a b c (add32 d t1) e f g.

Definition compress (s : state) (block : pybytes) : state :=
  let '(State a b c d e f g h) :=
    fold_left round (combine K (schedule block)) s in
  State (add32 (sa s) a) (add32 (sb s) b) (add32 (sc s) c) (add32 (sd s) d)
        (add32 (se s) e) (add32 (sf s) f) (add32 (sg s) g) (add32 (sh s) h).

Definition initial : state :=
  match H0 with
  | [a; b; c; d; e; f; g; h] => State a b c d e f g h
  | _ => State 0 0 0 0 0 0 0 0
  end.

(** [hashlib.sha256(msg).digest()] *)
Definition sha256 (msg : pybytes) : pybytes :=
  let padded := pad msg in
  let '(State a b c d e f g h) :=
    fold_left compress (chunks (length padded) 64 padded) initial in
  flat_map (be_bytes 4) [a; b; c; d; e; f; g; h].

Definition block_size : nat := 64.

End hashlib.

Module hmac.

(** [hmac.new(key, msg, hashlib.sha256).digest()] *)
Definition digest (key msg : pybytes) : pybytes :=
  let key0 :=
    if (hashlib.block_size <? length key)%nat then hashlib.sha256 key
    else key in
  let key1 := key0 ++ repeat 0 (hashlib.block_size - length key0) in
  let inner := hashlib.sha256 (List.map (N.lxor 0x36) key1 ++ msg) in
  hashlib.sha256 (List.map (N.lxor 0x5C) key1 ++ inner).

Definition hex_digit (d : N) : N := if d <? 10 then 48 + d else 87 + d.

(** [.hexdigest()]: two lowercase hexadecimal digits per octet. *)
Definition hex (bs : pybytes) : pystr :=
  flat_map (fun b => [hex_digit ((b / 16) mod 16); hex_digit (b mod 16)]) bs.

Definition hexdigest (key msg : pybytes) : pystr := hex (digest key msg).

(** [hmac.compare_digest(a, b)]: two ASCII strings compared for equality;
    any other pair of arguments among the values modelled is a type
    error. *)
Definition compare_digest (a b : pyval) : exn bool :=
  match a, b with
  | PStr x, PStr y =>
      if is_ascii x && is_ascii y then Return (pystr_eqb x y)
      else Raise (builtin_exc TypeError
             "comparing strings with non-ASCII characters is not supported")
  | _, _ =>
      Raise (builtin_exc TypeError
               ("unsupported operand types(s) or combination of types: '"
                ++ type_name a ++ "' and '" ++ type_name b ++ "'"))
  end.

End hmac.

Example sha256_abc :
  hmac.hex (hashlib.sha256 (u "abc"))
  = u "ba7816bf8f01cfea414140de5dae2223b00361a396177a9cb410ff61f20015ad".
Proof. vm_compute. reflexivity. Qed.

Example sha256_two_blocks :
  hmac.hex (hashlib.sha256
              (u "abcdbcdecdefdefgefghfghighijhijkijkljklmklmnlmnomnopnopq"))
  = u "248d6a61d20638b8e5c026930c3e6039a33ce45964ff2167f6ecedd419db06c1".
Proof. vm_compute. reflexivity. Qed.

Example hmac_rfc4231_case2 :
  hmac.hexdigest (u "Jefe") (u "what do ya want for nothing?")
  = u "5bdcc146bf60754e6a042426089575c75a003f089d2739839dec58b964ec3843".
Proof. vm_compute. reflexivity. Qed.

(** The lowercase hexadecimal HMAC-SHA256 of the text [msg] under the text
    [key], both taken as UTF-8; there is none when either cannot be
    encoded. *)
Definition hmac_sha256_hex (key msg : pystr) : option pystr :=
  match utf8_encode key, utf8_encode msg with
  | Return k, Return m => Some (hmac.hexdigest k m)
  | _, _ => None
  end.

Definition is_lower_hex (c : N) : bool :=
  ((48 <=? c) && (c <=? 57)) || ((97 <=? c) && (c <=? 102)).

(** ** Subscripting and [dict.get] *)

Fixpoint dict_lookup (d : list (pystr * pyval)) (key : pystr) : option pyval :=
  match d with
  | [] => None
  | (k, v) :: d' => if pystr_eqb k key then Some v else dict_lookup d' key
  end.

(** [obj[key]] with a text key. *)
Definition getitem (obj : pyval) (key : pystr) : exn pyval :=
  match obj with
  | PDict d =>
      match dict_lookup d key with
      | Some v => Return v
      | None => Raise (mkExc KeyError [PStr key] None None None None None)
      end
  | PList _ =>
      Raise (builtin_exc TypeError
               "list indices must be integers or slices, not str")
  | PStr _ =>
      Raise (builtin_exc TypeError "string indices must be integers, not 'str'")
  | _ =>
      Raise (builtin_exc TypeError
               ("'" ++ type_name obj ++ "' object is not subscriptable"))
  end.

(** [obj.get(key, default)]: a method of [dict] only. *)
Definition dict_get (obj : pyval) (key : pystr) (dflt : pyval) : exn pyval :=
  match obj with
  | PDict d => Return (default dflt (dict_lookup d key))
  | _ => Raise (builtin_exc AttributeError
                  ("'" ++ type_name obj ++ "' object has no attribute 'get'"))
  end.

(** ** [exceptions.py] *)

Module exceptions.

(** [BitFlowError(message, code=None, status_code=None)] *)
Definition new_BitFlowError (msg code status : pyval) : PyExc :=
  mkExc BitFlowError [msg] (Some msg) (Some code) (Some status) None None.

(** A subclass passes its fixed code and status to the base initialiser. *)
Definition new_AuthenticationError (msg : pyval) : PyExc :=
  mkExc AuthenticationError [msg] (Some msg)
        (Some (PStr (u "AUTHENTICATION_ERROR"))) (Some (PInt 401)) None None.

Definition new_ValidationError (msg : pyval) : PyExc :=
  mkExc ValidationError [msg] (Some msg)
        (Some (PStr (u "VALIDATION_ERROR"))) (Some (PInt 400)) None None.

Definition new_NotFoundError (msg : pyval) : PyExc :=
  mkExc NotFoundError [msg] (Some msg)
        (Some (PStr (u "NOT_FOUND"))) (Some (PInt 404)) None None.

(** [RateLimitError(message, retry_after=None)] also stores [retry_after]. *)
Definition new_RateLimitError (msg retry : pyval) : PyExc :=
  mkExc RateLimitError [msg] (Some msg)
        (Some (PStr (u "RATE_LIMIT_EXCEEDED"))) (Some (PInt 429)) (Some retry) None.

Definition new_NetworkError (msg : pyval) : PyExc :=
  mkExc NetworkError [msg] (Some msg)
        (Some (PStr (u "NETWORK_ERROR"))) (Some PNone) None None.

End exceptions.

(** ** [types.py] *)

Module types.

Inductive WebhookEvent : Type :=
  | STREAM_CREATED
  | STREAM_CANCELLED
  | STREAM_COMPLETED
  | SUBSCRIPTION_CREATED
  | SUBSCRIPTION_CANCELLED
  | PAYMENT_RECEIVED.

(** [member.value] *)
Definition value (e : WebhookEvent) : pystr :=
  u match e with
    | STREAM_CREATED => "stream.created"
    | STREAM_CANCELLED => "stream.cancelled"
    | STREAM_COMPLETED => "stream.completed"
    | SUBSCRIPTION_CREATED => "subscription.created"
    | SUBSCRIPTION_CANCELLED => "subscription.cancelled"
    | PAYMENT_RECEIVED => "payment.received"
    end.

(** The members in definition order. *)
Definition members : list WebhookEvent :=
  [STREAM_CREATED; STREAM_CANCELLED; STREAM_COMPLETED;
   SUBSCRIPTION_CREATED; SUBSCRIPTION_CANCELLED; PAYMENT_RECEIVED].

Inductive StreamStatus : Type := ACTIVE | COMPLETED | CANCELLED.

Definition status_value (s : StreamStatus) : pystr :=
  u match s with
    | ACTIVE => "active"
    | COMPLETED => "completed"
    | CANCELLED => "cancelled"
    end.

(** The envelope of a webhook. The dataclass checks no field type: the three
    fields taken from the body hold whatever the body held. *)
Record WebhookPayload : Type := mkWebhookPayload {
  id : pyval;
  event : WebhookEvent;
  data : pyval;
  timestamp : pyval
}.

Record Stream : Type := mkStream {
  stream_id : pyval;
  sender : pyval;
  recipient : pyval;
  total_amount : pyval;
  rate_per_second : pyval;
  start_time : pyval;
  end_time : pyval;
  withdrawn_amount : pyval;
  is_active : pyval
}.

Record StreamsResponse : Type := mkStreamsResponse {
  streams : list Stream;
  pagination : pyval
}.

(** [StreamFilters(PaginationOptions)]: every field optional, default
    [None]. *)
Record StreamFilters : Type := mkStreamFilters {
  limit : option Z;
  offset : option Z;
  status : option StreamStatus
}.

End types.

(** ** Callbacks and their effects *)

(** What a callback receives: plain values and the envelope. *)
Inductive pyarg : Type :=
  | ArgVal (v : pyval)
  | ArgPayload (p : types.WebhookPayload).

(** ** The web framework and the HTTP transport, as the SDK sees them *)

(** A Flask request: the value of [request.headers.get('X-BitFlow-Signature')]
    (absent: [None]) and of [request.get_data(as_text=True)]. *)
Record FlaskRequest : Type := mkFlaskRequest {
  signature_header : option pystr;
  body_text : pystr
}.

(** A Django request: its method, [request.META.get(...)] of the signature
    header, and what [request.body.decode('utf-8')] does. *)
Record DjangoRequest : Type := mkDjangoRequest {
  django_method : pystr;
  meta_signature : option pystr;
  django_body_decoded : exn pystr
}.

(** A FastAPI request: [request.headers.get('x-bitflow-signature')], and
    what decoding the awaited body does. *)
Record FastAPIRequest : Type := mkFastAPIRequest {
  fastapi_signature : option pystr;
  fastapi_body_decoded : exn pystr
}.

(** A JSON answer: the object serialised, and the status. *)
Record JsonResponse : Type := mkJsonResponse {
  response_content : list (pystr * pyval);
  response_status : Z
}.

Inductive DjangoResponse : Type :=
  | DjangoJson (r : JsonResponse)
  | HttpResponseNotAllowed (permitted : list pystr).

(** [HTTPException(status_code=..., detail=...)] *)
Definition new_HTTPException (status : Z) (reason : pyval) : PyExc :=
  mkExc HTTPException [] None None (Some (PInt status)) None (Some reason).

(** The arguments of [session.request]. *)
Record Request : Type := mkRequest {
  req_method : pystr;
  req_url : pystr;
  req_json : option pyval;
  req_params : option (list (pystr * pyval));
  req_timeout : Z
}.

(** A [requests.Response]: status, headers, and what [.json()] does. *)
Record Response : Type := mkResponse {
  resp_status_code : Z;
  resp_headers : list (pystr * pystr);
  resp_json : exn pyval
}.

Definition ascii_lower (c : N) : N :=
  if (65 <=? c) && (c <=? 90) then c + 32 else c.

(** [response.headers.get(name)]: header names compare without case. *)
Fixpoint headers_get (headers : list (pystr * pystr)) (name : pystr)
    : option pystr :=
  match headers with
  | [] => None
  | (k, v) :: rest =>
      if pystr_eqb (List.map ascii_lower k) (List.map ascii_lower name)
      then Some v
      else headers_get rest name
  end.

(** Decimal digits of a number, most significant first. *)
Fixpoint decimal_digits (fuel : nat) (n : N) (acc : pystr) : pystr :=
  match fuel with
  | O => acc
  | S fuel' =>
      let acc' := (48 + n mod 10) :: acc in
      if n <? 10 then acc' else decimal_digits fuel' (n / 10) acc'
  end.

(** [str(n)] for an [int]. *)
Definition str_of_int (z : Z) : pystr :=
  let n := Z.abs_N z in
  let ds := decimal_digits (S (N.to_nat (N.log2 n))) n [] in
  if (z <? 0)%Z then 45 :: ds else ds.

(** White space as [int] strips it from text of code points below 256. *)
Definition is_space (c : N) : bool :=
  ((9 <=? c) && (c <=? 13)) || (c =? 32) || (c =? 0x85) || (c =? 0xA0).

Definition is_digit (c : N) : bool := (48 <=? c) && (c <=? 57).

Fixpoint lstrip (s : pystr) : pystr :=
  match s with
  | c :: s' => if is_space c then lstrip s' else s
  | [] => []
  end.

Definition strip (s : pystr) : pystr := rev (lstrip (rev (lstrip s))).

(** Digits with single underscores between them; [prev_digit] tells whether
    the previous character was a digit. Gives the value and the number of
    digits read. *)
Fixpoint int_digits (s : pystr) (prev_digit : bool) (acc : N) (count : nat)
    : option (N * nat) :=
  match s with
  | [] => if prev_digit then Some (acc, count) else None
  | c :: s' =>
      if is_digit c then int_digits s' true (acc * 10 + (c - 48)) (S count)
      else if (c =? 95) && prev_digit then int_digits s' false acc count
      else None
  end.

(** The error of reading an integer literal of more digits than the
    interpreter allows. *)
Definition digits_limit_error (limit count : nat) : PyExc :=
  mkExc ValueError
    [PStr (u "Exceeds the limit (" ++ str_of_int (Z.of_nat limit)
           ++ u " digits) for integer string conversion: value has "
           ++ str_of_int (Z.of_nat count)
           ++ u " digits; use sys.set_int_max_str_digits() to increase the limit")]
    None None None None None.

(** Iterating over a value ([for s in obj]). *)
Definition py_iter (obj : pyval) : exn (list pyval) :=
  match obj with
  | PList l => Return l
  | PDict d => Return (List.map (fun kv => PStr (fst kv)) d)
  | PStr s => Return (List.map (fun c => PStr [c]) s)
  | _ => Raise (builtin_exc TypeError
                  ("'" ++ type_name obj ++ "' object is not iterable"))
  end.

(** [urllib.parse.quote_plus]: letters, digits and [_.-~] stay, a space
    becomes [+], any other character is the percent-escaped octets of its
    UTF-8 encoding. *)
Definition is_unreserved (c : N) : bool :=
  ((65 <=? c) && (c <=? 90)) || ((97 <=? c) && (c <=? 122)) || is_digit c
  || (c =? 95) || (c =? 46) || (c =? 45) || (c =? 126).

Definition upper_hex_digit (d : N) : N := if d <? 10 then 48 + d else 55 + d.

Definition percent_escape (b : N) : pystr :=
  [37; upper_hex_digit ((b / 16) mod 16); upper_hex_digit (b mod 16)].

Definition quote_plus (s : pystr) : exn pystr :=
  bs ← utf8_encode s;
  Return (flat_map (fun b => if is_unreserved b then [b]
                             else if b =? 32 then [43]
                             else percent_escape b) bs).

(** The text of a query value. The client only ever sends text and
    integers; other values are outside this model ([None]). *)
Definition param_text (v : pyval) : option pystr :=
  match v with
  | PStr s => Some s
  | PInt z => Some (str_of_int z)
  | _ => None
  end.

(** The query string built from [params], [key=value] joined by [&], when
    every value is text or an integer and all text can be encoded. *)
Fixpoint urlencode (params : list (pystr * pyval)) : option pystr :=
  match params with
  | [] => Some []
  | (k, v) :: rest =>
      match quote_plus k, param_text v ≫= (fun text =>
              match quote_plus text with
              | Return val => Some val
              | Raise _ => None
              end), urlencode rest with
      | Return key, Some val, Some tail =>
          Some (key ++ [61] ++ val
                ++ match rest with [] => [] | _ => 38 :: tail end)
      | _, _, _ => None
      end
  end.

(** ** The interpreter *)

(** What the SDK takes from the interpreter and its standard library without
    defining it: [json.loads], [repr] of a value, [str] of an exception, and
    the limit on the digits of an integer literal (zero: no limit). *)
Class Interpreter : Type := {
  json_loads : pyval -> exn pyval;
  py_repr : pyval -> pystr;
  exc_str : PyExc -> pystr;
  int_max_str_digits : nat
}.

Section SDK.

(** Whatever the registered callbacks can read and change. *)
Context {World : Type}.
Context `{Interpreter}.

(** A registered callable: it runs on its arguments in the current world,
    and returns (its result is ignored) or raises. The registry of the
    handler is no part of the world: a callback does not register or remove
    callbacks while it runs. *)
Record Callback : Type := mkCallback {
  cb_name : nat;
  cb_call : list pyarg -> World -> option PyExc * World
}.

Record Invocation : Type := mkInvocation {
  inv_callback : Callback;
  inv_args : list pyarg
}.

(** The world together with the log of callback invocations so far. *)
Record Env : Type := mkEnv {
  world : World;
  invoked : list Invocation
}.

(** Computations that may raise and may invoke callbacks. *)
Definition eff (A : Type) : Type := Env -> exn A * Env.

Definition eff_ret {A} (a : A) : eff A := fun s => (Return a, s).
Definition eff_raise {A} (e : PyExc) : eff A := fun s => (Raise e, s).
Definition eff_bind {A B} (m : eff A) (f : A -> eff B) : eff B :=
  fun s =>
    match m s with
    | (Return a, s') => f a s'
    | (Raise e, s') => (Raise e, s')
    end.
Definition lift {A} (m : exn A) : eff A := fun s => (m, s).

Definition eff_try_except {A} (body : eff A) (catches : PyExc -> bool)
    (handler : PyExc -> eff A) : eff A :=
  fun s =>
    match body s with
    | (Return a, s') => (Return a, s')
    | (Raise e, s') => if catches e then handler e s' else (Raise e, s')
    end.

(** Calling [h] on [args]: the call is logged, whether it returns or raises. *)
Definition call (h : Callback) (args : list pyarg) : eff unit :=
  fun s =>
    let '(r, w) := cb_call h args (world s) in
    (match r with Some e => Raise e | None => Return tt end,
     mkEnv w (invoked s ++ [mkInvocation h args])).

Notation "x <- m ;; k" := (eff_bind m (fun x => k))
  (at level 100, m at next level, right associativity).

(** *** [types.WebhookEvent(value)]: the member with that value *)
Definition WebhookEvent_of (v : pyval) : exn types.WebhookEvent :=
  let not_valid :=
    Raise (mkExc ValueError
             [PStr (py_repr v ++ u " is not a valid WebhookEvent")]
             None None None None None) in
  match v with
  | PStr s =>
      match List.find (fun e => pystr_eqb (types.value e) s) types.members with
      | Some e => Return e
      | None => not_valid
      end
  | _ => not_valid
  end.

(** *** [webhook.py] *)

Record WebhookHandler : Type := mkWebhookHandler {
  secret : pyval;
  _event_handlers : gmap pystr Callback
}.

(** [WebhookHandler(secret)] *)
Definition new_WebhookHandler (secret : pyval) : WebhookHandler :=
  mkWebhookHandler secret ∅.

(** The [try] block of [verify_signature]. *)
Definition verify_signature_try (self : WebhookHandler)
    (payload signature : pyval) : exn bool :=
  key ← encode_utf8 (secret self);
  msg ← encode_utf8 payload;
  let expected_signature := hmac.hexdigest key msg in
  hmac.compare_digest signature (PStr expected_signature).

Definition verify_signature (self : WebhookHandler)
    (payload signature : pyval) : exn bool :=
  try_except (verify_signature_try self payload signature)
    (fun e => isinstance e Exception)
    (fun _ => Return false).

Definition invalid_signature : PyExc :=
  exceptions.new_BitFlowError (PStr (u "Invalid webhook signature"))
    (PStr (u "INVALID_SIGNATURE")) PNone.

Definition invalid_payload (e : PyExc) : PyExc :=
  exceptions.new_BitFlowError
    (PStr (u "Invalid webhook payload: " ++ exc_str e))
    (PStr (u "INVALID_PAYLOAD")) PNone.

(** [except (json.JSONDecodeError, KeyError, ValueError)] *)
Definition caught (e : PyExc) : bool :=
  isinstance e JSONDecodeError || isinstance e KeyError
  || isinstance e ValueError.

(** [WebhookPayload(id=webhook_data["id"], event=WebhookEvent(...), ...)]:
    the arguments are evaluated in order. *)
Definition WebhookPayload_of (webhook_data : pyval)
    : exn types.WebhookPayload :=
  id ← getitem webhook_data (u "id");
  event_value ← getitem webhook_data (u "event");
  event ← WebhookEvent_of event_value;
  data ← getitem webhook_data (u "data");
  timestamp ← getitem webhook_data (u "timestamp");
  Return (types.mkWebhookPayload id event data timestamp).

Definition process_webhook (self : WebhookHandler)
    (payload signature : pyval) : eff bool :=
  valid <- lift (verify_signature self payload signature) ;;
  if negb valid then eff_raise invalid_signature
  else
    eff_try_except
      (webhook_data <- lift (json_loads payload) ;;
       webhook_payload <- lift (WebhookPayload_of webhook_data) ;;
       (* Call specific event handler if registered *)
       _ <- match _event_handlers self
                  !! types.value (types.event webhook_payload) with
            | Some handler =>
                call handler [ArgVal (types.data webhook_payload);
                              ArgPayload webhook_payload]
            | None => eff_ret tt
            end ;;
       (* Call generic webhook handler if registered *)
       _ <- match _event_handlers self !! u "webhook" with
            | Some handler => call handler [ArgPayload webhook_payload]
            | None => eff_ret tt
            end ;;
       eff_ret true)
      caught
      (fun e => eff_raise (invalid_payload e)).

(** The two invocations of [process_webhook], by themselves. *)
Definition call_specific (self : WebhookHandler)
    (webhook_payload : types.WebhookPayload) : eff unit :=
  match _event_handlers self
        !! types.value (types.event webhook_payload) with
  | Some handler =>
      call handler [ArgVal (types.data webhook_payload);
                    ArgPayload webhook_payload]
  | None => eff_ret tt
  end.

Definition call_generic (self : WebhookHandler)
    (webhook_payload : types.WebhookPayload) : eff unit :=
  match _event_handlers self !! u "webhook" with
  | Some handler => call handler [ArgPayload webhook_payload]
  | None => eff_ret tt
  end.

Definition dispatch (self : WebhookHandler)
    (webhook_payload : types.WebhookPayload) : eff bool :=
  _ <- call_specific self webhook_payload ;;
  _ <- call_generic self webhook_payload ;;
  eff_ret true.

Definition on_event (self : WebhookHandler) (event : types.WebhookEvent)
    (handler : Callback) : WebhookHandler :=
  mkWebhookHandler (secret self)
    (<[types.value event := handler]> (_event_handlers self)).

Definition on_webhook (self : WebhookHandler) (handler : Callback)
    : WebhookHandler :=
  mkWebhookHandler (secret self)
    (<[u "webhook" := handler]> (_event_handlers self)).

Definition on_stream_created self handler :=
  on_event self types.STREAM_CREATED handler.
Definition on_stream_cancelled self handler :=
  on_event self types.STREAM_CANCELLED handler.
Definition on_stream_completed self handler :=
  on_event self types.STREAM_COMPLETED handler.
Definition on_subscription_created self handler :=
  on_event self types.SUBSCRIPTION_CREATED handler.
Definition on_subscription_cancelled self handler :=
  on_event self types.SUBSCRIPTION_CANCELLED handler.
Definition on_payment_received self handler :=
  on_event self types.PAYMENT_RECEIVED handler.

(** *** The framework adapters

    Each view is given with the answer of the branch taken on a false
    result of [process_webhook] left open; the adapter itself fixes it. *)

Definition error_response (msg : pyval) (status : Z) : JsonResponse :=
  mkJsonResponse [(u "error", msg)] status.

Definition received_response : JsonResponse :=
  mkJsonResponse [(u "received", PBool true)] 200.

(** [except BitFlowError as e: ... e.message ...] *)
Definition message_of (e : PyExc) : eff pyval :=
  match message e with
  | Some msg => eff_ret msg
  | None =>
      eff_raise (builtin_exc AttributeError
                   "object has no attribute 'message'")
  end.

Definition flask_handle_webhook (self : WebhookHandler)
    (failed : JsonResponse) (request : FlaskRequest) : eff JsonResponse :=
  match signature_header request with
  | Some signature =>
      if negb (str_truthy signature) then
        eff_ret (error_response (PStr (u "Missing signature header")) 400)
      else
        eff_try_except
          (let payload := body_text request in
           success <- process_webhook self (PStr payload) (PStr signature) ;;
           if success then eff_ret received_response else eff_ret failed)
          (fun e => isinstance e BitFlowError || isinstance e Exception)
          (fun e =>
             if isinstance e BitFlowError then
               msg <- message_of e ;;
               eff_ret (error_response msg 400)
             else
               eff_ret (error_response (PStr (u "Internal server error")) 500))
  | None => eff_ret (error_response (PStr (u "Missing signature header")) 400)
  end.

Definition flask_handler (self : WebhookHandler)
    : FlaskRequest -> eff JsonResponse :=
  flask_handle_webhook self
    (error_response (PStr (u "Webhook processing failed")) 400).

(** The Django view, under [require_http_methods(["POST"])]. *)
Definition django_webhook_view (self : WebhookHandler)
    (failed : JsonResponse) (request : DjangoRequest) : eff DjangoResponse :=
  if negb (pystr_eqb (django_method request) (u "POST")) then
    eff_ret (HttpResponseNotAllowed [u "POST"])
  else
    match meta_signature request with
    | Some signature =>
        if negb (str_truthy signature) then
          eff_ret (DjangoJson
                     (error_response (PStr (u "Missing signature header")) 400))
        else
          eff_try_except
            (payload <- lift (django_body_decoded request) ;;
             success <- process_webhook self (PStr payload) (PStr signature) ;;
             if success then eff_ret (DjangoJson received_response)
             else eff_ret (DjangoJson failed))
            (fun e => isinstance e BitFlowError || isinstance e Exception)
            (fun e =>
               if isinstance e BitFlowError then
                 msg <- message_of e ;;
                 eff_ret (DjangoJson (error_response msg 400))
               else
                 eff_ret (DjangoJson
                            (error_response
                               (PStr (u "Internal server error")) 500)))
    | None =>
        eff_ret (DjangoJson
                   (error_response (PStr (u "Missing signature header")) 400))
    end.

Definition django_handler (self : WebhookHandler)
    : DjangoRequest -> eff DjangoResponse :=
  django_webhook_view self
    (error_response (PStr (u "Webhook processing failed")) 400).

(** The FastAPI endpoint; its errors are raised as [HTTPException]. The
    one raised on a false result stands inside the [try] block. *)
Definition fastapi_handle_webhook (self : WebhookHandler)
    (failed : eff JsonResponse) (request : FastAPIRequest)
    : eff JsonResponse :=
  let missing :=
    eff_raise (new_HTTPException 400 (PStr (u "Missing signature header"))) in
  match fastapi_signature request with
  | Some signature =>
      if negb (str_truthy signature) then missing
      else
        eff_try_except
          (payload_str <- lift (fastapi_body_decoded request) ;;
           success <-
             process_webhook self (PStr payload_str) (PStr signature) ;;
           if success then eff_ret received_response else failed)
          (fun e => isinstance e BitFlowError || isinstance e Exception)
          (fun e =>
             if isinstance e BitFlowError then
               msg <- message_of e ;;
               eff_raise (new_HTTPException 400 msg)
             else
               eff_raise (new_HTTPException 500
                            (PStr (u "Internal server error"))))
  | None => missing
  end.

Definition fastapi_handler (self : WebhookHandler)
    : FastAPIRequest -> eff JsonResponse :=
  fastapi_handle_webhook self
    (eff_raise (new_HTTPException 400 (PStr (u "Webhook processing failed")))).

(** *** [client.py] *)

(** [int(s)] for text of code points below 256, as header values are. *)
Definition py_int (s : pystr) : exn Z :=
  let invalid :=
    Raise (mkExc ValueError
             [PStr (u "invalid literal for int() with base 10: "
                    ++ py_repr (PStr s))]
             None None None None None) in
  let body := strip s in
  let '(negative, digits) :=
    match body with
    | 45 :: rest => (true, rest)
    | 43 :: rest => (false, rest)
    | _ => (false, body)
    end in
  match int_digits digits false 0 0 with
  | Some (n, count) =>
      if negb (int_max_str_digits =? 0)%nat
         && (int_max_str_digits <? count)%nat
      then Raise (digits_limit_error int_max_str_digits count)
      else Return (if negative then - Z.of_N n else Z.of_N n)%Z
  | None => invalid
  end.

(** The client: its configuration and [self.session.request], the
    transport. *)
Record BitFlowClient : Type := mkBitFlowClient {
  api_key : pystr;
  base_url : pystr;
  timeout : Z;
  session_request : Request -> exn Response
}.

Definition _request (self : BitFlowClient) (method endpoint : pystr)
    (data : option pyval) (params : option (list (pystr * pyval)))
    : exn pyval :=
  let url := base_url self ++ endpoint in
  try_except (A := pyval)
    (response ← session_request self
                  (mkRequest method url data params (timeout self));
     let status := resp_status_code response in
     if (status =? 401)%Z then
       Raise (exceptions.new_AuthenticationError (PStr (u "Invalid API key")))
     else if (status =? 400)%Z then
       body ← resp_json response;
       error_data ← dict_get body (u "error") (PDict []);
       msg ← dict_get error_data (u "message") (PStr (u "Bad request"));
       Raise (exceptions.new_ValidationError msg)
     else if (status =? 404)%Z then
       body ← resp_json response;
       error_data ← dict_get body (u "error") (PDict []);
       msg ← dict_get error_data (u "message") (PStr (u "Not found"));
       Raise (exceptions.new_NotFoundError msg)
     else if (status =? 429)%Z then
       let retry_after := headers_get (resp_headers response) (u "Retry-After") in
       retry ← match retry_after with
               | Some text =>
                   if str_truthy text then PInt <$> py_int text
                   else Return PNone
               | None => Return PNone
               end;
       Raise (exceptions.new_RateLimitError
                (PStr (u "Rate limit exceeded")) retry)
     else if (400 <=? status)%Z then
       body ← resp_json response;
       error_data ← dict_get body (u "error") (PDict []);
       msg ← dict_get error_data (u "message") (PStr (u "API request failed"));
       code ← dict_get error_data (u "code") PNone;
       Raise (exceptions.new_BitFlowError msg code (PInt status))
     else resp_json response)
    (fun e => isinstance e RequestException)
    (fun e =>
       Raise (exceptions.new_NetworkError
                (PStr (u "Network request failed: " ++ exc_str e)))).

(** The [params] dictionary that [get_streams] builds. *)
Definition get_streams_params (filters : option types.StreamFilters)
    : list (pystr * pyval) :=
  match filters with
  | Some filters =>
      (match types.status filters with
       | Some status =>
           if str_truthy (types.status_value status)
           then [(u "status", PStr (types.status_value status))] else []
       | None => []
       end)
      ++ (match types.limit filters with
          | Some limit =>
              if int_truthy limit then [(u "limit", PInt limit)] else []
          | None => []
          end)
      ++ (match types.offset filters with
          | Some offset =>
              if int_truthy offset then [(u "offset", PInt offset)] else []
          | None => []
          end)
  | None => []
  end.

(** [Stream(id=s["id"], sender=s["sender"], ...)] *)
Definition Stream_of (s : pyval) : exn types.Stream :=
  id ← getitem s (u "id");
  sender ← getitem s (u "sender");
  recipient ← getitem s (u "recipient");
  total_amount ← getitem s (u "totalAmount");
  rate_per_second ← getitem s (u "ratePerSecond");
  start_time ← getitem s (u "startTime");
  end_time ← getitem s (u "endTime");
  withdrawn_amount ← getitem s (u "withdrawnAmount");
  is_active ← getitem s (u "isActive");
  Return (types.mkStream id sender recipient total_amount rate_per_second
            start_time end_time withdrawn_amount is_active).

Fixpoint Streams_of (items : list pyval) : exn (list types.Stream) :=
  match items with
  | [] => Return []
  | s :: rest =>
      stream ← Stream_of s;
      streams ← Streams_of rest;
      Return (stream :: streams)
  end.

Definition get_streams (self : BitFlowClient)
    (filters : option types.StreamFilters) : exn types.StreamsResponse :=
  let params := get_streams_params filters in
  response ← _request self (u "GET") (u "/api/streams") None (Some params);
  listed ← getitem response (u "streams");
  items ← py_iter listed;
  streams ← Streams_of items;
  pagination ← getitem response (u "pagination");
  Return (types.mkStreamsResponse streams pagination).

End SDK.

Arguments Callback World : clear implicits.
Arguments Invocation World : clear implicits.
Arguments Env World : clear implicits.
Arguments eff World A : clear implicits.
Arguments WebhookHandler World : clear implicits.

(** ** The rest of [types.py] and of [client.py] *)

(** The request dataclasses hold what their annotations say; the response
    dataclasses hold whatever the response held. *)

Module CreateStreamRequest.
Record t : Type := make {
  recipient : pystr;
  amount : pystr;
  rate : pystr;
  duration : Z
}.
End CreateStreamRequest.

Module CreateSubscriptionPlanRequest.
Record t : Type := make {
  name : pystr;
  description : option pystr;
  price : pystr;
  interval : Z;
  max_subscribers : option Z
}.
End CreateSubscriptionPlanRequest.

Module CreateSubscriptionRequest.
Record t : Type := make {
  plan_id : pystr;
  duration : Z;
  auto_renew : option bool
}.
End CreateSubscriptionRequest.

Module CreateWebhookRequest.
Record t : Type := make {
  url : pystr;
  events : list types.WebhookEvent;
  description : option pystr
}.
End CreateWebhookRequest.

Module SubscriptionPlan.
Record t : Type := make {
  id : pyval;
  provider : pyval;
  name : pyval;
  description : pyval;
  price : pyval;
  interval : pyval;
  max_subscribers : pyval
}.
End SubscriptionPlan.

Module Subscription.
Record t : Type := make {
  id : pyval;
  plan_id : pyval;
  subscriber : pyval;
  provider : pyval;
  stream_id : pyval;
  start_time : pyval;
  end_time : pyval;
  auto_renew : pyval;
  status : pyval
}.
End Subscription.

Module WebhookEndpoint.
Record t : Type := make {
  id : pyval;
  url : pyval;
  events : pyval;
  description : pyval;
  secret : pyval;
  is_active : pyval;
  created_at : pyval
}.
End WebhookEndpoint.

(** What a callback registered for the event of [w], and a generic one,
    are called with. *)
Definition specific_args (w : types.WebhookPayload) : list pyarg :=
  [ArgVal (types.data w); ArgPayload w].

Definition generic_args (w : types.WebhookPayload) : list pyarg := [ArgPayload w].

(** The keys that [Stream_of] reads, in the order it reads them. *)
Definition Stream_keys : list pystr :=
  [u "id"; u "sender"; u "recipient"; u "totalAmount"; u "ratePerSecond";
   u "startTime"; u "endTime"; u "withdrawnAmount"; u "isActive"].

(** [KeyError(key)] *)
Definition new_KeyError (key : pystr) : PyExc :=
  mkExc KeyError [PStr key] None None None None None.

(** [s.rstrip("/")] *)
Fixpoint lstrip_slash (s : pystr) : pystr :=
  match s with
  | 47 :: s' => lstrip_slash s'
  | _ => s
  end.

Definition rstrip_slash (s : pystr) : pystr := rev (lstrip_slash (rev s)).

(** [BitFlowClient(api_key, base_url, timeout, max_retries)]: the session
    it configures (retries, default headers) is the transport. *)
Definition new_BitFlowClient (api_key base_url : pystr) (timeout : Z)
    (session : Request -> exn Response) : BitFlowClient :=
  mkBitFlowClient api_key (rstrip_slash base_url) timeout session.

(** A list comprehension [[f(x) for x in items]]. *)
Fixpoint comprehension {A} (f : pyval -> exn A) (items : list pyval)
    : exn (list A) :=
  match items with
  | [] => Return []
  | x :: rest =>
      y ← f x;
      ys ← comprehension f rest;
      Return (y :: ys)
  end.

Section ClientOperations.

Context `{Interpreter}.

Definition create_stream_data (request : CreateStreamRequest.t) : pyval :=
  PDict [(u "recipient", PStr (CreateStreamRequest.recipient request));
         (u "amount", PStr (CreateStreamRequest.amount request));
         (u "rate", PStr (CreateStreamRequest.rate request));
         (u "duration", PInt (CreateStreamRequest.duration request))].

Definition create_stream (self : BitFlowClient)
    (request : CreateStreamRequest.t) : exn types.Stream :=
  let data := create_stream_data request in
  response ← _request self (u "POST") (u "/api/streams") (Some data) None;
  body ← getitem response (u "data");
  stream_data ← getitem body (u "stream");
  Stream_of stream_data.

Definition get_stream (self : BitFlowClient) (stream_id : pystr)
    : exn types.Stream :=
  response ← _request self (u "GET") (u "/api/streams/" ++ stream_id)
               None None;
  body ← getitem response (u "data");
  stream_data ← getitem body (u "stream");
  Stream_of stream_data.

Definition cancel_stream (self : BitFlowClient) (stream_id : pystr)
    : exn unit :=
  _ ← _request self (u "POST")
        (u "/api/streams/" ++ stream_id ++ u "/cancel") None None;
  Return tt.

Definition withdraw_from_stream (self : BitFlowClient) (stream_id : pystr)
    : exn pyval :=
  response ← _request self (u "POST")
               (u "/api/streams/" ++ stream_id ++ u "/withdraw") None None;
  body ← getitem response (u "data");
  getitem body (u "withdrawnAmount").

(** The [data] dictionary of [create_subscription_plan]. *)
Definition create_subscription_plan_data
    (request : CreateSubscriptionPlanRequest.t) : list (pystr * pyval) :=
  [(u "name", PStr (CreateSubscriptionPlanRequest.name request));
   (u "price", PStr (CreateSubscriptionPlanRequest.price request));
   (u "interval", PInt (CreateSubscriptionPlanRequest.interval request))]
  ++ match CreateSubscriptionPlanRequest.description request with
     | Some description =>
         if str_truthy description
         then [(u "description", PStr description)] else []
     | None => []
     end
  ++ match CreateSubscriptionPlanRequest.max_subscribers request with
     | Some max_subscribers =>
         if int_truthy max_subscribers
         then [(u "maxSubscribers", PInt max_subscribers)] else []
     | None => []
     end.

(** [SubscriptionPlan(id=p["id"], ..., description=p.get("description"),
    ...)] *)
Definition SubscriptionPlan_of (p : pyval) : exn SubscriptionPlan.t :=
  id ← getitem p (u "id");
  provider ← getitem p (u "provider");
  name ← getitem p (u "name");
  description ← dict_get p (u "description") PNone;
  price ← getitem p (u "price");
  interval ← getitem p (u "interval");
  max_subscribers ← getitem p (u "maxSubscribers");
  Return (SubscriptionPlan.make id provider name description price interval
            max_subscribers).

Definition create_subscription_plan (self : BitFlowClient)
    (request : CreateSubscriptionPlanRequest.t) : exn SubscriptionPlan.t :=
  let data := PDict (create_subscription_plan_data request) in
  response ← _request self (u "POST") (u "/api/subscriptions/plans")
               (Some data) None;
  body ← getitem response (u "data");
  plan_data ← getitem body (u "plan");
  SubscriptionPlan_of plan_data.

Definition get_subscription_plans_params (provider : option pystr)
    : list (pystr * pyval) :=
  match provider with
  | Some provider =>
      if str_truthy provider then [(u "provider", PStr provider)] else []
  | None => []
  end.

Definition get_subscription_plans (self : BitFlowClient)
    (provider : option pystr) : exn (list SubscriptionPlan.t) :=
  let params := get_subscription_plans_params provider in
  response ← _request self (u "GET") (u "/api/subscriptions/plans")
               None (Some params);
  body ← getitem response (u "data");
  plans ← getitem body (u "plans");
  items ← py_iter plans;
  comprehension SubscriptionPlan_of items.

(** The [data] dictionary of [subscribe]. *)
Definition subscribe_data (request : CreateSubscriptionRequest.t)
    : list (pystr * pyval) :=
  [(u "planId", PStr (CreateSubscriptionRequest.plan_id request));
   (u "duration", PInt (CreateSubscriptionRequest.duration request))]
  ++ match CreateSubscriptionRequest.auto_renew request with
     | Some auto_renew => [(u "autoRenew", PBool auto_renew)]
     | None => []
     end.

Definition subscribe (self : BitFlowClient)
    (request : CreateSubscriptionRequest.t) : exn pyval :=
  let data := PDict (subscribe_data request) in
  response ← _request self (u "POST") (u "/api/subscriptions")
               (Some data) None;
  body ← getitem response (u "data");
  getitem body (u "subscriptionId").

Definition Subscription_of (s : pyval) : exn Subscription.t :=
  id ← getitem s (u "id");
  plan_id ← getitem s (u "planId");
  subscriber ← getitem s (u "subscriber");
  provider ← getitem s (u "provider");
  stream_id ← getitem s (u "streamId");
  start_time ← getitem s (u "startTime");
  end_time ← getitem s (u "endTime");
  auto_renew ← getitem s (u "autoRenew");
  status ← getitem s (u "status");
  Return (Subscription.make id plan_id subscriber provider stream_id
            start_time end_time auto_renew status).

Definition get_subscriptions (self : BitFlowClient)
    : exn (list Subscription.t) :=
  response ← _request self (u "GET") (u "/api/subscriptions") None None;
  body ← getitem response (u "data");
  subscriptions ← getitem body (u "subscriptions");
  items ← py_iter subscriptions;
  comprehension Subscription_of items.

Definition cancel_subscription (self : BitFlowClient)
    (subscription_id : pystr) : exn unit :=
  _ ← _request self (u "POST")
        (u "/api/subscriptions/" ++ subscription_id ++ u "/cancel") None None;
  Return tt.

(** The [data] dictionary of [create_webhook]. *)
Definition create_webhook_data (request : CreateWebhookRequest.t)
    : list (pystr * pyval) :=
  [(u "url", PStr (CreateWebhookRequest.url request));
   (u "events",
    PList (List.map (fun event => PStr (types.value event))
             (CreateWebhookRequest.events request)))]
  ++ match CreateWebhookRequest.description request with
     | Some description =>
         if str_truthy description
         then [(u "description", PStr description)] else []
     | None => []
     end.

(** The endpoint as [create_webhook] reads it: [events] is copied item by
    item, [secret] is required. *)
Definition created_WebhookEndpoint_of (endpoint_data : pyval)
    : exn WebhookEndpoint.t :=
  id ← getitem endpoint_data (u "id");
  url ← getitem endpoint_data (u "url");
  listed ← getitem endpoint_data (u "events");
  events ← py_iter listed;
  description ← dict_get endpoint_data (u "description") PNone;
  secret ← getitem endpoint_data (u "secret");
  is_active ← getitem endpoint_data (u "isActive");
  created_at ← getitem endpoint_data (u "createdAt");
  Return (WebhookEndpoint.make id url (PList events) description secret
            is_active created_at).

(** The endpoint as [get_webhooks] and [update_webhook] read it: [events]
    as it is, [secret] empty when absent. *)
Definition WebhookEndpoint_of (e : pyval) : exn WebhookEndpoint.t :=
  id ← getitem e (u "id");
  url ← getitem e (u "url");
  events ← getitem e (u "events");
  description ← dict_get e (u "description") PNone;
  secret ← dict_get e (u "secret") (PStr []);
  is_active ← getitem e (u "isActive");
  created_at ← getitem e (u "createdAt");
  Return (WebhookEndpoint.make id url events description secret is_active
            created_at).

Definition create_webhook (self : BitFlowClient)
    (request : CreateWebhookRequest.t) : exn WebhookEndpoint.t :=
  let data := PDict (create_webhook_data request) in
  response ← _request self (u "POST") (u "/api/webhooks/endpoints")
               (Some data) None;
  body ← getitem response (u "data");
  endpoint_data ← getitem body (u "endpoint");
  created_WebhookEndpoint_of endpoint_data.

Definition get_webhooks (self : BitFlowClient) : exn (list WebhookEndpoint.t) :=
  response ← _request self (u "GET") (u "/api/webhooks/endpoints") None None;
  body ← getitem response (u "data");
  endpoints ← getitem body (u "endpoints");
  items ← py_iter endpoints;
  comprehension WebhookEndpoint_of items.

(** The [data] dictionary of [update_webhook]. *)
Definition update_webhook_data (url : option pystr)
    (events : option (list pystr)) (is_active : option bool)
    : list (pystr * pyval) :=
  match url with
  | Some url => if str_truthy url then [(u "url", PStr url)] else []
  | None => []
  end
  ++ match events with
     | Some ((_ :: _) as events) =>
         [(u "events", PList (List.map PStr events))]
     | _ => []
     end
  ++ match is_active with
     | Some is_active => [(u "isActive", PBool is_active)]
     | None => []
     end.

Definition update_webhook (self : BitFlowClient) (endpoint_id : pystr)
    (url : option pystr) (events : option (list pystr))
    (is_active : option bool) : exn WebhookEndpoint.t :=
  let data := PDict (update_webhook_data url events is_active) in
  response ← _request self (u "PUT")
               (u "/api/webhooks/endpoints/" ++ endpoint_id) (Some data) None;
  body ← getitem response (u "data");
  endpoint_data ← getitem body (u "endpoint");
  WebhookEndpoint_of endpoint_data.

Definition delete_webhook (self : BitFlowClient) (endpoint_id : pystr)
    : exn unit :=
  _ ← _request self (u "DELETE")
        (u "/api/webhooks/endpoints/" ++ endpoint_id) None None;
  Return tt.

Definition test_webhook (self : BitFlowClient) (endpoint_id : pystr)
    : exn pyval :=
  let data := PDict [(u "endpointId", PStr endpoint_id)] in
  response ← _request self (u "POST") (u "/api/webhooks/test")
               (Some data) None;
  body ← getitem response (u "data");
  getitem body (u "result").

(** The request that [_request] hands to the transport. *)
Definition request_of (self : BitFlowClient) (method endpoint : pystr)
    (data : option pyval) (params : option (list (pystr * pyval)))
    : Request :=
  mkRequest method (base_url self ++ endpoint) data params (timeout self).

(** The [try] block of [_request] once the response is there. *)
Definition on_response (response : Response) : exn pyval :=
  let status := resp_status_code response in
  if (status =? 401)%Z then
    Raise (exceptions.new_AuthenticationError (PStr (u "Invalid API key")))
  else if (status =? 400)%Z then
    body ← resp_json response;
    error_data ← dict_get body (u "error") (PDict []);
    msg ← dict_get error_data (u "message") (PStr (u "Bad request"));
    Raise (exceptions.new_ValidationError msg)
  else if (status =? 404)%Z then
    body ← resp_json response;
    error_data ← dict_get body (u "error") (PDict []);
    msg ← dict_get error_data (u "message") (PStr (u "Not found"));
    Raise (exceptions.new_NotFoundError msg)
  else if (status =? 429)%Z then
    retry ← match headers_get (resp_headers response) (u "Retry-After") with
            | Some text =>
                if str_truthy text then PInt <$> py_int text
                else Return PNone
            | None => Return PNone
            end;
    Raise (exceptions.new_RateLimitError (PStr (u "Rate limit exceeded")) retry)
  else if (400 <=? status)%Z then
    body ← resp_json response;
    error_data ← dict_get body (u "error") (PDict []);
    msg ← dict_get error_data (u "message") (PStr (u "API request failed"));
    code ← dict_get error_data (u "code") PNone;
    Raise (exceptions.new_BitFlowError msg code (PInt status))
  else resp_json response.

(** The message an error response carries: [error.message] of the body, or
    the default when the body has no [error] or the error no [message]. *)
Definition error_message (d : list (pystr * pyval)) (dflt : string) : pyval :=
  match dict_lookup d (u "error") with
  | Some (PDict error_data) =>
      default (PStr (u dflt)) (dict_lookup error_data (u "message"))
  | _ => PStr (u dflt)
  end.

(** [except requests.exceptions.RequestException as e] of [_request]. *)
Definition wrap_network (r : exn pyval) : exn pyval :=
  try_except r (fun e => isinstance e RequestException)
    (fun e => Raise (exceptions.new_NetworkError
                       (PStr (u "Network request failed: " ++ exc_str e)))).

End ClientOperations.

(** ** [bytes.decode('utf-8', errors)]

    The well-formed sequences are those of RFC 3629. On an ill-formed one,
    [strict] raises [UnicodeDecodeError] and [replace] writes U+FFFD for the
    longest prefix of it that begins a well-formed sequence (one byte at
    least) and goes on behind it. The bytes object among the arguments of
    the exception is given as the list of its values. *)

Inductive decode_errors : Type := Strict | Replace.

Definition is_continuation (b : N) : bool := (0x80 <=? b) && (b <=? 0xBF).

(** For a lead byte: the number of continuation bytes, and the range of the
    first of them. *)
Definition lead_byte (b : N) : option (nat * (N * N)) :=
  if (0xC2 <=? b) && (b <=? 0xDF) then Some (1%nat, (0x80, 0xBF))
  else if b =? 0xE0 then Some (2%nat, (0xA0, 0xBF))
  else if b =? 0xED then Some (2%nat, (0x80, 0x9F))
  else if (0xE1 <=? b) && (b <=? 0xEF) then Some (2%nat, (0x80, 0xBF))
  else if b =? 0xF0 then Some (3%nat, (0x90, 0xBF))
  else if b =? 0xF4 then Some (3%nat, (0x80, 0x8F))
  else if (0xF1 <=? b) && (b <=? 0xF3) then Some (3%nat, (0x80, 0xBF))
  else None.

Definition new_UnicodeDecodeError (whole : pybytes) (start stop : nat)
    (reason : string) : PyExc :=
  mkExc UnicodeDecodeError
    [PStr (u "utf-8"); PList (List.map (fun b => PInt (Z.of_N b)) whole);
     PInt (Z.of_nat start); PInt (Z.of_nat stop); PStr (u reason)]
    None None None None None.

Definition decoded (c : N) (rest : exn pystr) : exn pystr :=
  s ← rest; Return (c :: s).

Fixpoint utf8_decode_from (errors : decode_errors) (pos : nat)
    (whole bs : pybytes) {struct bs} : exn pystr :=
  match bs with
  | [] => Return []
  | b :: rest =>
      if b <? 0x80 then
        decoded b (utf8_decode_from errors (1 + pos) whole rest)
      else
        match lead_byte b with
        | None =>
            match errors with
            | Strict =>
                Raise (new_UnicodeDecodeError whole pos (1 + pos)
                         "invalid start byte")
            | Replace =>
                decoded 0xFFFD (utf8_decode_from errors (1 + pos) whole rest)
            end
        | Some (n, (lo, hi)) =>
            match rest with
            | [] =>
                match errors with
                | Strict =>
                    Raise (new_UnicodeDecodeError whole pos (1 + pos)
                             "unexpected end of data")
                | Replace => Return [0xFFFD]
                end
            | c1 :: rest1 =>
                if negb ((lo <=? c1) && (c1 <=? hi)) then
                  match errors with
                  | Strict =>
                      Raise (new_UnicodeDecodeError whole pos (1 + pos)
                               "invalid continuation byte")
                  | Replace =>
                      decoded 0xFFFD
                        (utf8_decode_from errors (1 + pos) whole rest)
                  end
                else
                  match n with
                  | 1%nat =>
                      decoded ((b - 0xC0) * 64 + (c1 - 0x80))
                        (utf8_decode_from errors (2 + pos) whole rest1)
                  | _ =>
                      match rest1 with
                      | [] =>
                          match errors with
                          | Strict =>
                              Raise (new_UnicodeDecodeError whole pos
                                       (2 + pos) "unexpected end of data")
                          | Replace => Return [0xFFFD]
                          end
                      | c2 :: rest2 =>
                          if negb (is_continuation c2) then
                            match errors with
                            | Strict =>
                                Raise (new_UnicodeDecodeError whole pos
                                         (2 + pos)
                                         "invalid continuation byte")
                            | Replace =>
                                decoded 0xFFFD
                                  (utf8_decode_from errors (2 + pos) whole
                                     rest1)
                            end
                          else
                            match n with
                            | 2%nat =>
                                decoded ((b - 0xE0) * 4096
                                         + (c1 - 0x80) * 64 + (c2 - 0x80))
                                  (utf8_decode_from errors (3 + pos) whole
                                     rest2)
                            | _ =>
                                match rest2 with
                                | [] =>
                                    match errors with
                                    | Strict =>
                                        Raise (new_UnicodeDecodeError whole
                                                 pos (3 + pos)
                                                 "unexpected end of data")
                                    | Replace => Return [0xFFFD]
                                    end
                                | c3 :: rest3 =>
                                    if negb (is_continuation c3) then
                                      match errors with
                                      | Strict =>
                                          Raise (new_UnicodeDecodeError
                                                   whole pos (3 + pos)
                                                   "invalid continuation byte")
                                      | Replace =>
                                          decoded 0xFFFD
                                            (utf8_decode_from errors
                                               (3 + pos) whole rest2)
                                      end
                                    else
                                      decoded ((b - 0xF0) * 262144
                                               + (c1 - 0x80) * 4096
                                               + (c2 - 0x80) * 64
                                               + (c3 - 0x80))
                                        (utf8_decode_from errors (4 + pos)
                                           whole rest3)
                                end
                            end
                      end
                  end
            end
        end
  end.


(** [raw.decode(errors="replace")], which is how Werkzeug renders
    [get_data(as_text=True)]; it never raises. *)
Definition get_data_as_text (raw : pybytes) : pystr :=
  match utf8_decode_from Replace 0 raw raw with
  | Return s => s
  | Raise _ => []
  end.




(** ** A reference interpreter

    The properties below hold for every interpreter. To run the model on
    concrete requests, this one reads JSON (RFC 8259, with the [NaN] and
    [Infinity] literals Python also accepts, and the messages of CPython
    3.11), renders [repr] of integers, constants, containers and ASCII text
    (a float is shown as its literal), and renders [str] of the built-in
    exceptions from their [args]. *)

Module json.

Inductive failure : Type :=
  | Syntax (msg : string) (rest : pystr)
  | TooDeep
  | TooManyDigits (limit count : nat).

Definition is_ws (c : N) : bool :=
  (c =? 32) || (c =? 9) || (c =? 10) || (c =? 13).

Fixpoint skip_ws (s : pystr) : pystr :=
  match s with
  | c :: s' => if is_ws c then skip_ws s' else s
  | [] => []
  end.

Definition hex_value (c : N) : option N :=
  if is_digit c then Some (c - 48)
  else if (97 <=? c) && (c <=? 102) then Some (c - 87)
  else if (65 <=? c) && (c <=? 70) then Some (c - 55)
  else None.

Definition hex4 (s : pystr) : option (N * pystr) :=
  match s with
  | a :: b :: c :: d :: rest =>
      match hex_value a, hex_value b, hex_value c, hex_value d with
      | Some a, Some b, Some c, Some d =>
          Some (((a * 16 + b) * 16 + c) * 16 + d, rest)
      | _, _, _, _ => None
      end
  | _ => None
  end.

Definition simple_escape (c : N) : option N :=
  if c =? 34 then Some 34 else if c =? 92 then Some 92
  else if c =? 47 then Some 47 else if c =? 98 then Some 8
  else if c =? 102 then Some 12 else if c =? 110 then Some 10
  else if c =? 114 then Some 13 else if c =? 116 then Some 9
  else None.

(** The rest of a string after its opening quote; [start] is the text from
    that quote on, where an unterminated string is reported. *)
Fixpoint scan_string (fuel : nat) (start s acc : pystr)
    : failure + pystr * pystr :=
  match fuel, s with
  | O, _ | _, [] => inl (Syntax "Unterminated string starting at" start)
  | S fuel', 34 :: rest => inr (rev acc, rest)
  | S fuel', 92 :: ((117 :: rest) as escape) =>
      match hex4 rest with
      | None => inl (Syntax "Invalid \uXXXX escape" escape)
      | Some (hi, rest1) =>
          match rest1 with
          | 92 :: 117 :: rest2 =>
              match hex4 rest2 with
              | Some (lo, rest3) =>
                  if (0xD800 <=? hi) && (hi <=? 0xDBFF)
                     && (0xDC00 <=? lo) && (lo <=? 0xDFFF)
                  then scan_string fuel' start rest3
                         (0x10000 + (hi - 0xD800) * 0x400 + (lo - 0xDC00)
                          :: acc)
                  else scan_string fuel' start rest1 (hi :: acc)
              | None => scan_string fuel' start rest1 (hi :: acc)
              end
          | _ => scan_string fuel' start rest1 (hi :: acc)
          end
      end
  | S fuel', 92 :: c :: rest =>
      match simple_escape c with
      | Some x => scan_string fuel' start rest (x :: acc)
      | None => inl (Syntax "Invalid \escape" s)
      end
  | S fuel', [92] => inl (Syntax "Unterminated string starting at" start)
  | S fuel', c :: rest =>
      if c <? 32 then inl (Syntax "Invalid control character at" s)
      else scan_string fuel' start rest (c :: acc)
  end.

Fixpoint span_digits (s : pystr) : pystr * pystr :=
  match s with
  | c :: s' =>
      if is_digit c then let '(ds, rest) := span_digits s' in (c :: ds, rest)
      else ([], s)
  | [] => ([], [])
  end.

Definition digits_value (ds : pystr) : N :=
  fold_left (fun acc c => acc * 10 + (c - 48)) ds 0.

(** A number at the head of [s]: sign, integer part, and the optional
    fraction and exponent that make it a float. *)
Definition match_number (s : pystr) : option (pyval * nat * pystr) :=
  let '(negative, s1) :=
    match s with 45 :: r => (true, r) | _ => (false, s) end in
  let '(int_part, s2) :=
    match s1 with
    | 48 :: r => ([48], r)
    | _ => span_digits s1
    end in
  match int_part with
  | [] => None
  | _ =>
      let '(frac, s3) :=
        match s2 with
        | 46 :: r =>
            match span_digits r with
            | ([], _) => ([], s2)
            | (ds, r') => (46 :: ds, r')
            end
        | _ => ([], s2)
        end in
      let '(expo, s4) :=
        match s3 with
        | e :: r =>
            if (e =? 101) || (e =? 69) then
              let '(sign, r1) :=
                match r with
                | 43 :: r' => ([43], r')
                | 45 :: r' => ([45], r')
                | _ => ([], r)
                end in
              match span_digits r1 with
              | ([], _) => ([], s3)
              | (ds, r') => (e :: sign ++ ds, r')
              end
            else ([], s3)
        | [] => ([], s3)
        end in
      let sign := if negative then [45] else [] in
      match frac, expo with
      | [], [] =>
          let n := Z.of_N (digits_value int_part) in
          Some (PInt (if negative then - n else n)%Z, length int_part, s4)
      | _, _ => Some (PFloat (sign ++ int_part ++ frac ++ expo), O, s4)
      end
  end.

(** [s] starts with the literal [lit]: what follows it. *)
Fixpoint after_literal (lit s : pystr) : option pystr :=
  match lit, s with
  | [], _ => Some s
  | a :: lit', b :: s' => if a =? b then after_literal lit' s' else None
  | _ :: _, [] => None
  end.

(** A later value for a key replaces the earlier one, in its place. *)
Fixpoint dict_set (d : list (pystr * pyval)) (k : pystr) (v : pyval)
    : list (pystr * pyval) :=
  match d with
  | [] => [(k, v)]
  | (k', v') :: d' =>
      if pystr_eqb k' k then (k, v) :: d' else (k', v') :: dict_set d' k v
  end.

Definition constants : list (string * pyval) :=
  [("null"%string, PNone); ("true"%string, PBool true);
   ("false"%string, PBool false); ("NaN"%string, PFloat (u "NaN"));
   ("Infinity"%string, PFloat (u "Infinity"));
   ("-Infinity"%string, PFloat (u "-Infinity"))].

Fixpoint match_constant (cs : list (string * pyval)) (s : pystr)
    : option (pyval * pystr) :=
  match cs with
  | [] => None
  | (lit, v) :: cs' =>
      match after_literal (u lit) s with
      | Some rest => Some (v, rest)
      | None => match_constant cs' s
      end
  end.

(** One value at the head of [s] (no leading white space). [depth] bounds
    the nesting, [max_digits] the integer literals (zero: no bound). *)
Fixpoint scan_once (max_digits depth : nat) (s : pystr)
    : failure + pyval * pystr :=
  match depth with
  | O => inl TooDeep
  | S depth' =>
      let elements :=
        fix elements (fuel : nat) (s : pystr) (acc : list pyval)
            : failure + pyval * pystr :=
          match fuel with
          | O => inl (Syntax "Expecting value" s)
          | S fuel' =>
              match scan_once max_digits depth' s with
              | inl f => inl f
              | inr (v, rest) =>
                  match skip_ws rest with
                  | 44 :: rest' => elements fuel' (skip_ws rest') (v :: acc)
                  | 93 :: rest' => inr (PList (rev (v :: acc)), rest')
                  | rest' => inl (Syntax "Expecting ',' delimiter" rest')
                  end
              end
          end in
      let pairs :=
        fix pairs (fuel : nat) (s : pystr) (acc : list (pystr * pyval))
            : failure + pyval * pystr :=
          match fuel, s with
          | S fuel', 34 :: s1 =>
              match scan_string (length s1) s s1 [] with
              | inl f => inl f
              | inr (key, s2) =>
                  match skip_ws s2 with
                  | 58 :: s3 =>
                      match scan_once max_digits depth' (skip_ws s3) with
                      | inl f => inl f
                      | inr (v, s4) =>
                          let acc' := dict_set acc key v in
                          match skip_ws s4 with
                          | 44 :: s5 => pairs fuel' (skip_ws s5) acc'
                          | 125 :: s5 => inr (PDict acc', s5)
                          | s5 => inl (Syntax "Expecting ',' delimiter" s5)
                          end
                      end
                  | s3 => inl (Syntax "Expecting ':' delimiter" s3)
                  end
              end
          | _, _ =>
              inl (Syntax
                     "Expecting property name enclosed in double quotes" s)
          end in
      match s with
      | 34 :: rest =>
          match scan_string (length rest) s rest [] with
          | inl f => inl f
          | inr (text, rest') => inr (PStr text, rest')
          end
      | 123 :: rest =>
          match skip_ws rest with
          | 125 :: rest' => inr (PDict [], rest')
          | rest' => pairs (length rest') rest' []
          end
      | 91 :: rest =>
          match skip_ws rest with
          | 93 :: rest' => inr (PList [], rest')
          | rest' => elements (length rest') rest' []
          end
      | _ =>
          match match_constant constants s with
          | Some r => inr r
          | None =>
              match match_number s with
              | Some (v, count, rest) =>
                  if negb (max_digits =? 0)%nat && (max_digits <? count)%nat
                  then inl (TooManyDigits max_digits count)
                  else inr (v, rest)
              | None => inl (Syntax "Expecting value" s)
              end
          end
      end
  end.

(** Position of the error in the document, as the message gives it. *)
Definition position (doc rest : pystr) : pystr :=
  let pos := (length doc - length rest)%nat in
  let before := firstn pos doc in
  let line := S (length (List.filter (fun c => c =? 10) before)) in
  let column :=
    S (length (fst (span_digits
         (List.map (fun c => if c =? 10 then 0 else 48) (rev before))))) in
  u ": line " ++ str_of_int (Z.of_nat line)
  ++ u " column " ++ str_of_int (Z.of_nat column)
  ++ u " (char " ++ str_of_int (Z.of_nat pos) ++ u ")".

Definition raise_failure {A} (doc : pystr) (f : failure) : exn A :=
  match f with
  | Syntax msg rest =>
      Raise (mkExc JSONDecodeError [PStr (u msg ++ position doc rest)]
               None None None None None)
  | TooDeep =>
      Raise (builtin_exc RecursionError
               "maximum recursion depth exceeded while decoding a JSON document")
  | TooManyDigits limit count => Raise (digits_limit_error limit count)
  end.

(** [json.loads(s)] *)
Definition loads (max_digits depth : nat) (s : pyval) : exn pyval :=
  match s with
  | PStr doc =>
      match doc with
      | 0xFEFF :: _ =>
          raise_failure doc
            (Syntax "Unexpected UTF-8 BOM (decode using utf-8-sig)" doc)
      | _ =>
          match scan_once max_digits depth (skip_ws doc) with
          | inl f => raise_failure doc f
          | inr (v, rest) =>
              match skip_ws rest with
              | [] => Return v
              | extra => raise_failure doc (Syntax "Extra data" extra)
              end
          end
      end
  | _ =>
      Raise (builtin_exc TypeError
               ("the JSON object must be str, bytes or bytearray, not "
                ++ type_name s))
  end.

End json.

Module reference.

(** [repr] of text: single quotes unless the text holds one and no double
    quote; backslash, the quote and control characters escaped. *)
Definition repr_char (quote c : N) : pystr :=
  if (c =? 92) || (c =? quote) then [92; c]
  else if c =? 10 then u "\n"
  else if c =? 13 then u "\r"
  else if c =? 9 then u "\t"
  else if (c <? 32) || (c =? 127) then
    u "\x" ++ [hmac.hex_digit (c / 16); hmac.hex_digit (c mod 16)]
  else [c].

Definition repr_str (s : pystr) : pystr :=
  let has c := existsb (N.eqb c) s in
  let quote := if has 39 && negb (has 34) then 34 else 39 in
  [quote] ++ flat_map (repr_char quote) s ++ [quote].

Fixpoint join (sep : pystr) (parts : list pystr) : pystr :=
  match parts with
  | [] => []
  | [p] => p
  | p :: rest => p ++ sep ++ join sep rest
  end.

Fixpoint repr (v : pyval) : pystr :=
  match v with
  | PNone => u "None"
  | PBool b => if b then u "True" else u "False"
  | PInt z => str_of_int z
  | PFloat literal => literal
  | PStr s => repr_str s
  | PList items => u "[" ++ join (u ", ") (List.map repr items) ++ u "]"
  | PDict items =>
      u "{"
      ++ join (u ", ")
           (List.map (fun kv => repr_str (fst kv) ++ u ": " ++ repr (snd kv))
              items)
      ++ u "}"
  end.

(** [str(v)]: text is itself, anything else its [repr]. *)
Definition str (v : pyval) : pystr :=
  match v with
  | PStr s => s
  | _ => repr v
  end.

(** [str(e)]: no argument, the empty text; one argument, its [str] (for a
    [KeyError], its [repr]); several, the [repr] of the tuple. *)
Definition str_exc (e : PyExc) : pystr :=
  match exc_args e with
  | [] => []
  | [a] => if isinstance e KeyError then repr a else str a
  | args => u "(" ++ join (u ", ") (List.map repr args) ++ u ")"
  end.

(** CPython's defaults: 4300 digits, and a recursion limit of 1000. *)
Definition interpreter : Interpreter := {|
  json_loads := json.loads 4300 1000;
  py_repr := repr;
  exc_str := str_exc;
  int_max_str_digits := 4300
|}.

(** A literal in which an apostrophe stands for the double quote. *)
Definition dq (s : string) : pystr :=
  List.map (fun c => if c =? 39 then 34 else c) (u s).

(** [hmac.new(secret, body, sha256).hexdigest()] of two texts, as the
    sender of a webhook computes the signature header. *)
Definition sign (secret body : pystr) : pyval :=
  match utf8_encode secret, utf8_encode body with
  | Return key, Return msg => PStr (hmac.hexdigest key msg)
  | _, _ => PNone
  end.

End reference.

(** ** Sample requests

    The fixtures of the SDK's tests: the secret, a [stream.created] body
    and its signature; callbacks that count their invocations in the world
    and return, or raise. *)

Module sample.

Definition secret : pystr := u "test-secret".

Definition body : pystr :=
  reference.dq
    "{'id': 'webhook_123', 'event': 'stream.created', 'data': {'streamId': 'stream_456', 'sender': '0x123', 'recipient': '0x456'}, 'timestamp': '2023-12-01T10:00:00.000Z'}".

Definition signature : pyval := reference.sign secret body.

(** The envelope of [body]. *)
Definition envelope : types.WebhookPayload :=
  types.mkWebhookPayload
    (PStr (u "webhook_123"))
    types.STREAM_CREATED
    (PDict [(u "streamId", PStr (u "stream_456"));
            (u "sender", PStr (u "0x123"));
            (u "recipient", PStr (u "0x456"))])
    (PStr (u "2023-12-01T10:00:00.000Z")).

(** The body as [json.loads] gives it. *)
Definition parsed : pyval :=
  PDict [(u "id", types.id envelope);
         (u "event", PStr (u "stream.created"));
         (u "data", types.data envelope);
         (u "timestamp", types.timestamp envelope)].

Definition returns (name : nat) : Callback nat :=
  mkCallback name (fun _ count => (None, S count)).

Definition raises (name : nat) (e : PyExc) : Callback nat :=
  mkCallback name (fun _ count => (Some e, S count)).

(** [data["amount"]] on a body without that field. *)
Definition key_error : PyExc :=
  mkExc KeyError [PStr (u "amount")] None None None None None.

Definition runtime_error : PyExc := builtin_exc RuntimeError "database is down".

Definition handler : WebhookHandler nat := new_WebhookHandler (PStr secret).

(** A handler with callback 1 for [stream.created] and the generic
    callback 2. *)
Definition registered (specific generic : Callback nat) : WebhookHandler nat :=
  on_webhook (on_stream_created handler specific) generic.

Definition start : Env nat := mkEnv 0%nat [].

(** A transport that answers every request with the same response. *)
Definition client (response : Response) : BitFlowClient :=
  mkBitFlowClient (u "test-api-key") (u "https://api.test.com") 30
    (fun _ => Return response).

Definition too_many_requests (headers : list (pystr * pystr)) : Response :=
  mkResponse 429 headers (Return (PDict [])).

(** A transport that answers with an empty page whose [pagination] is the
    query parameters it was sent. *)
Definition echo_client : BitFlowClient :=
  mkBitFlowClient (u "test-api-key") (u "https://api.test.com") 30
    (fun request =>
       Return (mkResponse 200 []
                 (Return (PDict [(u "streams", PList []);
                                 (u "pagination",
                                  PDict (default [] (req_params request)))])))).

End sample.

(** ** Sample responses of the API *)

Module fixture.

(** The stream of the tests of the client. *)
Definition stream_data : pyval :=
  PDict [(u "id", PStr (u "stream_123"));
         (u "sender", PStr (u "0x123"));
         (u "recipient", PStr (u "0x456"));
         (u "totalAmount", PStr (u "1000000"));
         (u "ratePerSecond", PStr (u "100"));
         (u "startTime", PInt 1640995200);
         (u "endTime", PInt 1641081600);
         (u "withdrawnAmount", PStr (u "360000"));
         (u "isActive", PBool true)].

Definition stream : types.Stream :=
  types.mkStream (PStr (u "stream_123")) (PStr (u "0x123")) (PStr (u "0x456"))
    (PStr (u "1000000")) (PStr (u "100")) (PInt 1640995200) (PInt 1641081600)
    (PStr (u "360000")) (PBool true).

(** A stream whose [endTime] the server left out. *)
Definition running_stream_data : pyval :=
  PDict [(u "id", PStr (u "stream_124"));
         (u "sender", PStr (u "0x123"));
         (u "recipient", PStr (u "0x456"));
         (u "totalAmount", PStr (u "1000000"));
         (u "ratePerSecond", PStr (u "100"));
         (u "startTime", PInt 1640995200);
         (u "withdrawnAmount", PStr (u "0"));
         (u "isActive", PBool true)].

Definition pagination : pyval :=
  PDict [(u "limit", PInt 20); (u "offset", PInt 0); (u "total", PInt 1)].

Definition page (items : list pyval) : list (pystr * pyval) :=
  [(u "streams", PList items); (u "pagination", pagination)].

Definition ok (body : pyval) : Response := mkResponse 200 [] (Return body).

Definition not_found : Response :=
  mkResponse 404 []
    (Return (PDict [(u "error",
                     PDict [(u "message", PStr (u "Stream not found"));
                            (u "code", PStr (u "NOT_FOUND"))])])).

(** What [response.json()] raises on a body that is no JSON. *)
Definition not_json : PyExc :=
  mkExc RequestException
    [PStr (u "Expecting value: line 1 column 1 (char 0)")]
    None None None None None.

Definition bad_gateway : Response := mkResponse 502 [] (Raise not_json).

Definition no_content : Response := mkResponse 204 [] (Raise not_json).

(** An error response whose [error] is a text. *)
Definition error_text : Response :=
  mkResponse 500 []
    (Return (PDict [(u "error", PStr (u "Internal Server Error"))])).

Definition connection_error : PyExc :=
  mkExc RequestException [PStr (u "Connection refused")]
    None None None None None.

(** A transport that reaches no server. *)
Definition offline : BitFlowClient :=
  mkBitFlowClient (u "test-api-key") (u "https://api.test.com") 30
    (fun _ => Raise connection_error).

(** An endpoint as a listing shows it, without its secret. *)
Definition endpoint_data : list (pystr * pyval) :=
  [(u "id", PStr (u "endpoint_1"));
   (u "url", PStr (u "https://example.com/webhooks"));
   (u "events", PList [PStr (u "stream.created")]);
   (u "isActive", PBool true);
   (u "createdAt", PStr (u "2023-12-01T10:00:00.000Z"))].

Definition endpoint : WebhookEndpoint.t :=
  WebhookEndpoint.make (PStr (u "endpoint_1"))
    (PStr (u "https://example.com/webhooks"))
    (PList [PStr (u "stream.created")]) PNone (PStr [])
    (PBool true) (PStr (u "2023-12-01T10:00:00.000Z")).

Definition endpoints : list (pystr * pyval) :=
  [(u "data", PDict [(u "endpoints", PList [PDict endpoint_data])])].

(** What [bytes.decode('utf-8')] raises on a body that is no UTF-8. *)
Definition decode_error : PyExc :=
  builtin_exc UnicodeDecodeError
    "'utf-8' codec can't decode byte 0xff in position 0: invalid start byte".

(** The signature of [sample.body] under [sample.secret], as the header
    carries it. *)
Definition signature_text : pystr :=
  u "4bcb9140751c2639f906223bc7ac3604602458e1f64dccf51b375fc942ea254f".

End fixture.

(** * Properties *)

(** ** Exceptions and their classes *)

Lemma issubclass_user (name : string) (base d : exc_class) :
  issubclass (UserDefined name base) d
  = bool_decide (UserDefined name base = d) || issubclass base d.
Proof. reflexivity. Qed.

(** A [JSONDecodeError] is a [ValueError], for derived classes too. *)
Lemma issubclass_JSONDecodeError_ValueError (c : exc_class) :
  issubclass c JSONDecodeError = true -> issubclass c ValueError = true.
Proof.
  induction c; try (vm_compute; congruence).
  rewrite !issubclass_user. intros Hj.
  apply orb_true_iff in Hj as [Hj | Hj].
  - apply bool_decide_eq_true in Hj. discriminate.
  - apply orb_true_iff. right. auto.
Qed.

(** The UTF-8 encoder raises nothing but [UnicodeEncodeError]. *)
Lemma utf8_encode_from_raises (pos : nat) (whole s : pystr) (e : PyExc) :
  utf8_encode_from pos whole s = Raise e -> exc_type e = UnicodeEncodeError.
Proof.
  revert pos. induction s as [| c s IH]; intros pos; simpl; [discriminate |].
  destruct (utf8_of_codepoint c).
  - destruct (utf8_encode_from (S pos) whole s) eqn:Hrest; [discriminate |].
    intros [= <-]. eauto.
  - intros [= <-]. reflexivity.
Qed.

Lemma encode_utf8_raises (obj : pyval) (e : PyExc) :
  encode_utf8 obj = Raise e -> isinstance e Exception = true.
Proof.
  destruct obj; simpl; try (intros [= <-]; reflexivity).
  intros Hr. apply utf8_encode_from_raises in Hr.
  unfold isinstance. rewrite Hr. reflexivity.
Qed.

Lemma compare_digest_raises (a b : pyval) (e : PyExc) :
  hmac.compare_digest a b = Raise e -> exc_type e = TypeError.
Proof.
  unfold hmac.compare_digest.
  destruct a, b; try (intros [= <-]; reflexivity).
  destruct (is_ascii s && is_ascii s0); [discriminate |].
  intros [= <-]. reflexivity.
Qed.

(** ** The digest is lowercase hexadecimal *)

Lemma hex_digit_lower (d : N) : d < 16 -> is_lower_hex (hmac.hex_digit d) = true.
Proof.
  intros Hd. unfold hmac.hex_digit, is_lower_hex.
  destruct (N.ltb_spec d 10).
  - apply orb_true_iff. left. apply andb_true_iff. split; apply N.leb_le; lia.
  - apply orb_true_iff. right. apply andb_true_iff. split; apply N.leb_le; lia.
Qed.

Lemma hex_lower (bs : pybytes) : forallb is_lower_hex (hmac.hex bs) = true.
Proof.
  unfold hmac.hex. induction bs as [| b bs IH]; [reflexivity |].
  cbn [flat_map app forallb]. rewrite IH.
  rewrite !hex_digit_lower; [reflexivity | |]; apply N.mod_lt; lia.
Qed.

Lemma lower_hex_is_ascii (s : pystr) :
  forallb is_lower_hex s = true -> is_ascii s = true.
Proof.
  unfold is_ascii. induction s as [| c s IH]; [reflexivity |].
  cbn [forallb]. intros Hc. apply andb_true_iff in Hc as [Hc Hs].
  rewrite IH by assumption. rewrite andb_true_r.
  unfold is_lower_hex in Hc. apply N.ltb_lt.
  apply orb_true_iff in Hc as [Hc | Hc];
    apply andb_true_iff in Hc as [_ Hc]; apply N.leb_le in Hc; lia.
Qed.

Lemma hexdigest_is_ascii (key msg : pybytes) :
  is_ascii (hmac.hexdigest key msg) = true.
Proof. apply lower_hex_is_ascii, hex_lower. Qed.

Lemma be_bytes_length (n : nat) (x : N) : length (hashlib.be_bytes n x) = n.
Proof. induction n; simpl; congruence. Qed.

Lemma sha256_length (msg : pybytes) : length (hashlib.sha256 msg) = 32%nat.
Proof.
  unfold hashlib.sha256.
  destruct (fold_left _ _ _). cbn [flat_map].
  rewrite !length_app, !be_bytes_length. reflexivity.
Qed.

Lemma hex_length (bs : pybytes) : length (hmac.hex bs) = (2 * length bs)%nat.
Proof.
  unfold hmac.hex. induction bs as [| b bs IH]; [reflexivity |].
  cbn [flat_map app length]. rewrite IH. lia.
Qed.

Lemma hexdigest_length (key msg : pybytes) :
  length (hmac.hexdigest key msg) = 64%nat.
Proof.
  unfold hmac.hexdigest, hmac.digest. rewrite hex_length, sha256_length.
  reflexivity.
Qed.

Section Properties.

Context {World : Type}.
Context `{Interpreter}.

Implicit Types (self : WebhookHandler World) (s : Env World).
Implicit Types (payload signature : pyval) (e : PyExc).
Implicit Types (handlers : gmap pystr (Callback World)).

(** ** [verify_signature] *)

Lemma verify_signature_try_raises self payload signature e :
  verify_signature_try self payload signature = Raise e ->
  isinstance e Exception = true.
Proof.
  unfold verify_signature_try.
  destruct (encode_utf8 (secret self)) as [key | e1] eqn:Hkey; simpl.
  2: { intros [= <-]. eapply encode_utf8_raises; eauto. }
  destruct (encode_utf8 payload) as [msg | e2] eqn:Hmsg; simpl.
  2: { intros [= <-]. eapply encode_utf8_raises; eauto. }
  intros Hr. apply compare_digest_raises in Hr.
  unfold isinstance. rewrite Hr. reflexivity.
Qed.

Lemma verify_signature_of_raise self payload signature e :
  verify_signature_try self payload signature = Raise e ->
  verify_signature self payload signature = Return false.
Proof.
  intros Htry. unfold verify_signature, try_except. rewrite Htry.
  rewrite (verify_signature_try_raises _ _ _ _ Htry). reflexivity.
Qed.

Lemma verify_signature_returns self payload signature :
  verify_signature self payload signature = Return true
  \/ verify_signature self payload signature = Return false.
Proof.
  destruct (verify_signature_try self payload signature) as [b | e] eqn:Htry.
  - unfold verify_signature, try_except. rewrite Htry. destruct b; auto.
  - right. eapply verify_signature_of_raise; eauto.
Qed.

(** C8. Whatever the secret, the payload and the signature are (text or
    not, encodable or not), [verify_signature] returns a boolean: it never
    raises, and when anything raises inside its [try] block the result is
    [False]. *)
Theorem verify_signature_fails_closed self payload signature :
  (exists b : bool, verify_signature self payload signature = Return b)
  /\ (forall e, verify_signature_try self payload signature = Raise e ->
                verify_signature self payload signature = Return false).
Proof.
  split.
  - destruct (verify_signature_returns self payload signature); eauto.
  - apply verify_signature_of_raise.
Qed.

(** With both texts encoded, verification is the comparison of the given
    signature with the digest. *)
Lemma verify_signature_encoded handlers (key msg : pystr) (k m : pybytes)
    signature :
  utf8_encode key = Return k -> utf8_encode msg = Return m ->
  verify_signature (mkWebhookHandler (PStr key) handlers) (PStr msg) signature
  = Return match signature with
           | PStr x => pystr_eqb x (hmac.hexdigest k m)
           | _ => false
           end.
Proof.
  intros Hk Hm.
  unfold verify_signature, verify_signature_try. cbn [secret encode_utf8].
  rewrite Hk, Hm. cbn [mbind exn_bind].
  pose proof (hexdigest_is_ascii k m) as Hascii.
  generalize dependent (hmac.hexdigest k m). intros h Hascii.
  unfold hmac.compare_digest.
  destruct signature as [| b | z | f | x | l | d]; try reflexivity.
  rewrite Hascii, andb_true_r.
  destruct (is_ascii x) eqn:Hx; [reflexivity |].
  unfold pystr_eqb. rewrite bool_decide_eq_false_2; [reflexivity |].
  intros ->. congruence.
Qed.

(** Text that cannot be encoded verifies against nothing. *)
Lemma verify_signature_unencodable handlers (key msg : pystr) signature :
  hmac_sha256_hex key msg = None ->
  verify_signature (mkWebhookHandler (PStr key) handlers) (PStr msg) signature
  = Return false.
Proof.
  unfold hmac_sha256_hex. intros Hnone.
  pose proof (verify_signature_of_raise
                (mkWebhookHandler (PStr key) handlers) (PStr msg) signature)
    as Hclosed.
  unfold verify_signature_try in Hclosed. cbn [secret encode_utf8] in Hclosed.
  destruct (utf8_encode key) as [k | e1]; [| eapply Hclosed; reflexivity].
  destruct (utf8_encode msg) as [m | e2]; [discriminate |].
  eapply Hclosed. reflexivity.
Qed.

(** C2. For a handler whose secret is the text [key] and a payload text
    [msg], [verify_signature] is true exactly when the signature is the
    lowercase hexadecimal HMAC-SHA256 of the payload under the secret: that
    value (64 lowercase hexadecimal digits) verifies, and every signature
    that differs from it does not. *)
Theorem verify_signature_iff_hmac handlers (key msg : pystr) signature :
  (verify_signature (mkWebhookHandler (PStr key) handlers) (PStr msg) signature
   = Return true
   <-> exists h, hmac_sha256_hex key msg = Some h /\ signature = PStr h)
  /\ (forall h, hmac_sha256_hex key msg = Some h ->
        forallb is_lower_hex h = true /\ length h = 64%nat
        /\ verify_signature (mkWebhookHandler (PStr key) handlers)
             (PStr msg) (PStr h) = Return true
        /\ forall other, other <> PStr h ->
             verify_signature (mkWebhookHandler (PStr key) handlers)
               (PStr msg) other = Return false).
Proof.
  destruct (hmac_sha256_hex key msg) as [h0 |] eqn:Hhex.
  - pose proof Hhex as Hhex'. unfold hmac_sha256_hex in Hhex'.
    destruct (utf8_encode key) as [k | ] eqn:Hk; [| discriminate].
    destruct (utf8_encode msg) as [m | ] eqn:Hm; [| discriminate].
    injection Hhex' as <-.
    pose proof (fun sg => verify_signature_encoded handlers key msg k m sg
                            Hk Hm) as Hv.
    split.
    + rewrite Hv. split.
      * destruct signature as [| b | z | f | x | l | d]; try discriminate.
        intros [= Heq]. apply bool_decide_eq_true in Heq. subst x. eauto.
      * intros (h & [= <-] & ->). unfold pystr_eqb.
        rewrite bool_decide_eq_true_2; reflexivity.
    + intros h [= <-]. split; [apply hex_lower |].
      split; [apply hexdigest_length |]. split.
      * rewrite Hv. unfold pystr_eqb.
        rewrite bool_decide_eq_true_2; reflexivity.
      * intros other Hother. rewrite Hv.
        destruct other as [| b | z | f | x | l | d]; try reflexivity.
        unfold pystr_eqb. rewrite bool_decide_eq_false_2; [reflexivity |].
        intros ->. contradiction.
  - split; [| discriminate].
    rewrite verify_signature_unencodable by assumption.
    split; [discriminate | intros (h & Hsome & _); discriminate].
Qed.

(** ** [process_webhook] *)

Lemma caught_ValueError e :
  caught e = isinstance e KeyError || isinstance e ValueError.
Proof.
  unfold caught, isinstance.
  destruct (issubclass (exc_type e) JSONDecodeError) eqn:Hj; [| reflexivity].
  rewrite (issubclass_JSONDecodeError_ValueError _ Hj).
  rewrite !orb_true_r. reflexivity.
Qed.

(** C1. When [verify_signature] returns false, [process_webhook] raises the
    error with code [INVALID_SIGNATURE], and nothing else happens: the world
    and the log of invocations are as they were, so no callback, specific or
    generic, was invoked. *)
Theorem process_webhook_invalid_signature self payload signature s :
  verify_signature self payload signature = Return false ->
  process_webhook self payload signature s = (Raise invalid_signature, s)
  /\ exc_type invalid_signature = BitFlowError
  /\ code invalid_signature = Some (PStr (u "INVALID_SIGNATURE"))
  /\ invoked (snd (process_webhook self payload signature s)) = invoked s.
Proof.
  intros Hv. unfold process_webhook, eff_bind, lift. rewrite Hv.
  repeat split.
Qed.

(** After a valid signature, a parsed body and a built envelope, what
    remains is the dispatch inside the [try] block. *)
Lemma process_webhook_dispatch self payload signature s webhook_data w :
  verify_signature self payload signature = Return true ->
  json_loads payload = Return webhook_data ->
  WebhookPayload_of webhook_data = Return w ->
  process_webhook self payload signature s
  = match dispatch self w s with
    | (Return b, s') => (Return b, s')
    | (Raise e, s') =>
        if caught e then (Raise (invalid_payload e), s') else (Raise e, s')
    end.
Proof.
  intros Hv Hj Hw.
  unfold process_webhook, eff_bind, lift, eff_try_except. rewrite Hv, Hj, Hw.
  reflexivity.
Qed.

(** The dispatch, step by step. *)
Lemma dispatch_steps self w s :
  dispatch self w s
  = match call_specific self w s with
    | (Return _, s1) =>
        match call_generic self w s1 with
        | (Return _, s2) => (Return true, s2)
        | (Raise e, s2) => (Raise e, s2)
        end
    | (Raise e, s1) => (Raise e, s1)
    end.
Proof.
  unfold dispatch, eff_bind, eff_ret.
  destruct (call_specific self w s) as [[[] | e] s1]; [| reflexivity].
  destruct (call_generic self w s1) as [[[] | e] s2]; reflexivity.
Qed.

Lemma dispatch_returns_true self w s b s' :
  dispatch self w s = (Return b, s') -> b = true.
Proof.
  rewrite dispatch_steps.
  destruct (call_specific self w s) as [[[] | e] s1]; [| discriminate].
  destruct (call_generic self w s1) as [[[] | e] s2]; [| discriminate].
  congruence.
Qed.

(** C10. Whenever [process_webhook] returns, it returns [True]; so the
    Flask, Django and FastAPI adapters never take the branch for a false
    result: whatever that branch does, each view does the same. *)
Theorem process_webhook_returns_true self :
  (forall payload signature s b s',
      process_webhook self payload signature s = (Return b, s') -> b = true)
  /\ (forall failed request s,
        flask_handle_webhook self failed request s
        = flask_handler self request s)
  /\ (forall failed request s,
        django_webhook_view self failed request s
        = django_handler self request s)
  /\ (forall failed request s,
        fastapi_handle_webhook self failed request s
        = fastapi_handler self request s).
Proof.
  assert (Hret : forall payload signature s b s',
      process_webhook self payload signature s = (Return b, s') -> b = true).
  { intros payload signature s b s'.
    unfold process_webhook, eff_bind, lift, eff_try_except, eff_raise.
    destruct (verify_signature_returns self payload signature) as [-> | ->];
      [| discriminate].
    cbn [negb].
    destruct (json_loads payload) as [d | e1].
    2: { destruct (caught e1); discriminate. }
    destruct (WebhookPayload_of d) as [w | e2].
    2: { destruct (caught e2); discriminate. }
    fold (call_specific self w). fold (call_generic self w).
    change (match dispatch self w s with
            | (Return a, s'0) => (Return a, s'0)
            | (Raise e, s'0) =>
                if caught e then (Raise (invalid_payload e), s'0)
                else (Raise e, s'0)
            end = (Return b, s') -> b = true).
    destruct (dispatch self w s) as [[b0 | e] s0] eqn:Hd.
    - intros [= <- <-]. eapply dispatch_returns_true; eauto.
    - destruct (caught e); discriminate. }
  split; [exact Hret |]. split; [| split].
  - intros failed request s. unfold flask_handler, flask_handle_webhook.
    destruct (signature_header request) as [sg |]; [| reflexivity].
    destruct (negb (str_truthy sg)); [reflexivity |].
    unfold eff_try_except, eff_bind.
    destruct (process_webhook self (PStr (body_text request)) (PStr sg) s)
      as [[b | e] s1] eqn:Hp; [| reflexivity].
    rewrite (Hret _ _ _ _ _ Hp). reflexivity.
  - intros failed request s. unfold django_handler, django_webhook_view.
    destruct (negb _); [reflexivity |].
    destruct (meta_signature request) as [sg |]; [| reflexivity].
    destruct (negb (str_truthy sg)); [reflexivity |].
    unfold eff_try_except, eff_bind, lift.
    destruct (django_body_decoded request) as [payload | e0];
      [| reflexivity].
    destruct (process_webhook self (PStr payload) (PStr sg) s)
      as [[b | e] s1] eqn:Hp; [| reflexivity].
    rewrite (Hret _ _ _ _ _ Hp). reflexivity.
  - intros failed request s. unfold fastapi_handler, fastapi_handle_webhook.
    destruct (fastapi_signature request) as [sg |]; [| reflexivity].
    destruct (negb (str_truthy sg)); [reflexivity |].
    unfold eff_try_except, eff_bind, lift.
    destruct (fastapi_body_decoded request) as [payload | e0];
      [| reflexivity].
    destruct (process_webhook self (PStr payload) (PStr sg) s)
      as [[b | e] s1] eqn:Hp; [| reflexivity].
    rewrite (Hret _ _ _ _ _ Hp). reflexivity.
Qed.

(** ** Dispatch *)

Lemma call_eq (h : Callback World) (args : list pyarg) s :
  call h args s
  = (match fst (cb_call h args (world s)) with
     | Some e => Raise e
     | None => Return tt
     end,
     mkEnv (snd (cb_call h args (world s)))
           (invoked s ++ [mkInvocation h args])).
Proof. unfold call. destruct (cb_call h args (world s)); reflexivity. Qed.

(** An exception leaves the dispatch only if a registered callback raised
    it: the specific one, or the generic one after the specific call
    returned. *)
Lemma dispatch_raise_inv self w s e s' :
  dispatch self w s = (Raise e, s') ->
  (exists h, _event_handlers self !! types.value (types.event w) = Some h
             /\ fst (cb_call h [ArgVal (types.data w); ArgPayload w] (world s))
                = Some e)
  \/ (exists g s1, call_specific self w s = (Return tt, s1)
                   /\ _event_handlers self !! u "webhook" = Some g
                   /\ fst (cb_call g [ArgPayload w] (world s1)) = Some e).
Proof.
  rewrite dispatch_steps.
  destruct (call_specific self w s) as [[[] | e1] s1] eqn:Hspec.
  - destruct (call_generic self w s1) as [[[] | e2] s2] eqn:Hgen;
      [discriminate |].
    intros [= <- <-]. right.
    unfold call_generic in Hgen.
    destruct (_event_handlers self !! u "webhook") as [g |] eqn:Hg;
      [| discriminate].
    rewrite call_eq in Hgen. exists g, s1. repeat split.
    destruct (fst (cb_call g [ArgPayload w] (world s1)));
      [congruence | discriminate].
  - intros [= <- <-]. left.
    unfold call_specific in Hspec.
    destruct (_event_handlers self !! types.value (types.event w))
      as [h |] eqn:Hh; [| discriminate].
    rewrite call_eq in Hspec. exists h. split; [reflexivity |].
    destruct (fst (cb_call h _ (world s))); [congruence | discriminate].
Qed.

(** What does propagate. After a valid signature and a parsed envelope, an
    exception raised by an invoked callback, specific or generic, that is
    neither a [KeyError] nor a [ValueError] leaves [process_webhook]
    unchanged. *)
Theorem callback_exception_propagates self payload signature s d w e s' :
  verify_signature self payload signature = Return true ->
  json_loads payload = Return d ->
  WebhookPayload_of d = Return w ->
  dispatch self w s = (Raise e, s') ->
  isinstance e KeyError = false ->
  isinstance e ValueError = false ->
  process_webhook self payload signature s = (Raise e, s')
  /\ ((exists h,
         _event_handlers self !! types.value (types.event w) = Some h
         /\ fst (cb_call h [ArgVal (types.data w); ArgPayload w] (world s))
            = Some e)
      \/ (exists g s1,
            call_specific self w s = (Return tt, s1)
            /\ _event_handlers self !! u "webhook" = Some g
            /\ fst (cb_call g [ArgPayload w] (world s1)) = Some e)).
Proof.
  intros Hv Hj Hw Hd Hk Hval. split; [| eapply dispatch_raise_inv; eauto].
  rewrite (process_webhook_dispatch _ _ _ _ _ _ Hv Hj Hw), Hd.
  rewrite caught_ValueError, Hk, Hval. reflexivity.
Qed.

(** C6, as the code has it. After a valid signature and a parsed envelope,
    a registered generic callback is invoked with the envelope whenever the
    specific call, if there is one, returns: whether or not a callback is
    registered for the event, the invocation of the generic callback is the
    one logged after it. *)
Theorem generic_callback_invoked self payload signature s d w g s1 :
  verify_signature self payload signature = Return true ->
  json_loads payload = Return d ->
  WebhookPayload_of d = Return w ->
  _event_handlers self !! u "webhook" = Some g ->
  call_specific self w s = (Return tt, s1) ->
  invoked (snd (process_webhook self payload signature s))
  = invoked s1 ++ [mkInvocation g [ArgPayload w]]
  /\ (invoked s1 = invoked s
      \/ exists h,
           _event_handlers self !! types.value (types.event w) = Some h
           /\ invoked s1
              = invoked s
                ++ [mkInvocation h [ArgVal (types.data w); ArgPayload w]]).
Proof.
  intros Hv Hj Hw Hg Hspec. split.
  - rewrite (process_webhook_dispatch _ _ _ _ _ _ Hv Hj Hw).
    rewrite dispatch_steps, Hspec.
    unfold call_generic. rewrite Hg, call_eq.
    destruct (fst (cb_call g [ArgPayload w] (world s1))) as [e |];
      [destruct (caught e) |]; reflexivity.
  - unfold call_specific in Hspec.
    destruct (_event_handlers self !! types.value (types.event w))
      as [h |] eqn:Hh.
    + rewrite call_eq in Hspec. right. exists h. split; [reflexivity |].
      injection Hspec as _ <-. reflexivity.
    + injection Hspec as <-. left. reflexivity.
Qed.

(** ** Registration *)

Lemma event_value_not_reserved (event : types.WebhookEvent) :
  types.value event <> u "webhook".
Proof. destruct event; vm_compute; discriminate. Qed.

Lemma on_event_secret self event (h : Callback World) :
  secret (on_event self event h) = secret self.
Proof. reflexivity. Qed.

(** C7. Registering a callback for an event replaces the one registered
    before: the handler is the same as if only the second had been
    registered, the slot holds the second, and on a validly signed payload
    of that event the invocations are the second callback, followed by the
    generic one when the second returned and a generic one is registered.
    Registering for an event leaves the generic slot as it was, and
    registering the generic callback leaves every event's slot as it was. *)
Theorem on_event_last_registration_wins self event (h1 h2 g : Callback World) :
  on_event (on_event self event h1) event h2 = on_event self event h2
  /\ _event_handlers (on_event self event h2) !! types.value event = Some h2
  /\ _event_handlers (on_event self event h1) !! u "webhook"
     = _event_handlers self !! u "webhook"
  /\ (forall event',
        _event_handlers (on_webhook self g) !! types.value event'
        = _event_handlers self !! types.value event')
  /\ (forall payload signature s d w,
        verify_signature self payload signature = Return true ->
        json_loads payload = Return d ->
        WebhookPayload_of d = Return w ->
        types.event w = event ->
        invoked (snd (process_webhook
                        (on_event (on_event self event h1) event h2)
                        payload signature s))
        = invoked s
          ++ mkInvocation h2 [ArgVal (types.data w); ArgPayload w]
             :: match fst (cb_call h2 [ArgVal (types.data w); ArgPayload w]
                             (world s)),
                      _event_handlers self !! u "webhook" with
                | None, Some generic => [mkInvocation generic [ArgPayload w]]
                | _, _ => []
                end).
Proof.
  assert (Htwice : on_event (on_event self event h1) event h2
                   = on_event self event h2).
  { unfold on_event. cbn [secret _event_handlers].
    rewrite insert_insert_eq. reflexivity. }
  split; [exact Htwice |]. split.
  { unfold on_event. cbn [_event_handlers]. apply lookup_insert_eq. }
  split.
  { unfold on_event. cbn [_event_handlers].
    apply lookup_insert_ne, event_value_not_reserved. }
  split.
  { intros event'. unfold on_webhook. cbn [_event_handlers].
    apply lookup_insert_ne. intros Heq.
    eapply event_value_not_reserved. symmetry. exact Heq. }
  intros payload signature s d w Hv Hj Hw Hev. rewrite Htwice.
  assert (Hv' : verify_signature (on_event self event h2) payload signature
                = Return true) by exact Hv.
  rewrite (process_webhook_dispatch _ _ _ _ _ _ Hv' Hj Hw).
  rewrite dispatch_steps. unfold call_specific, call_generic, on_event.
  cbn [_event_handlers]. rewrite Hev, lookup_insert_eq.
  rewrite lookup_insert_ne by apply event_value_not_reserved.
  rewrite call_eq.
  destruct (fst (cb_call h2 _ (world s))) as [e |].
  - destruct (caught e); cbn [snd invoked];
      destruct (_event_handlers self !! u "webhook"); reflexivity.
  - destruct (_event_handlers self !! u "webhook") as [generic |].
    + rewrite call_eq. cbn [invoked world].
      destruct (fst (cb_call generic _ _)) as [e |];
        [destruct (caught e) |]; cbn [snd invoked];
        rewrite <- app_assoc; reflexivity.
    + reflexivity.
Qed.

(** ** Malformed bodies *)

Lemma getitem_dict_raises (d : list (pystr * pyval)) (key : pystr) e :
  getitem (PDict d) key = Raise e -> dict_lookup d key = None /\ caught e = true.
Proof.
  cbn [getitem]. destruct (dict_lookup d key); [discriminate |].
  intros [= <-]. split; reflexivity.
Qed.

Lemma WebhookEvent_of_raises (v : pyval) e :
  WebhookEvent_of v = Raise e -> caught e = true.
Proof.
  unfold WebhookEvent_of.
  destruct v; try (intros [= <-]; reflexivity).
  destruct (List.find _ _); [discriminate |]. intros [= <-]. reflexivity.
Qed.

Lemma WebhookEvent_of_returns (v : pyval) (event : types.WebhookEvent) :
  WebhookEvent_of v = Return event -> v = PStr (types.value event).
Proof.
  unfold WebhookEvent_of. destruct v; try discriminate.
  destruct (List.find _ _) as [found |] eqn:Hfind; [| discriminate].
  intros [= <-]. apply List.find_some in Hfind as [_ Heq].
  apply bool_decide_eq_true in Heq. congruence.
Qed.

(** A body that is a JSON object either yields an envelope or fails with an
    exception that the [except] clause catches. *)
Lemma WebhookPayload_of_dict_raises (d : list (pystr * pyval)) e :
  WebhookPayload_of (PDict d) = Raise e -> caught e = true.
Proof.
  unfold WebhookPayload_of.
  destruct (getitem (PDict d) (u "id")) eqn:H1; cbn [mbind exn_bind].
  2: { intros [= <-]. eapply getitem_dict_raises; eauto. }
  destruct (getitem (PDict d) (u "event")) eqn:H2; cbn [mbind exn_bind].
  2: { intros [= <-]. eapply getitem_dict_raises; eauto. }
  destruct (WebhookEvent_of a0) eqn:H3; cbn [mbind exn_bind].
  2: { intros [= <-]. eapply WebhookEvent_of_raises; eauto. }
  destruct (getitem (PDict d) (u "data")) eqn:H4; cbn [mbind exn_bind].
  2: { intros [= <-]. eapply getitem_dict_raises; eauto. }
  destruct (getitem (PDict d) (u "timestamp")) eqn:H5; cbn [mbind exn_bind].
  2: { intros [= <-]. eapply getitem_dict_raises; eauto. }
  discriminate.
Qed.

(** An object lacking one of the four fields, or whose [event] is not the
    value of a member, yields no envelope. *)
Lemma WebhookPayload_of_incomplete (d : list (pystr * pyval)) :
  dict_lookup d (u "id") = None \/ dict_lookup d (u "event") = None
  \/ dict_lookup d (u "data") = None \/ dict_lookup d (u "timestamp") = None
  \/ (exists v, dict_lookup d (u "event") = Some v
                /\ forall event, v <> PStr (types.value event)) ->
  exists e, WebhookPayload_of (PDict d) = Raise e.
Proof.
  intros Hbad.
  destruct (WebhookPayload_of (PDict d)) as [w | e] eqn:Hw; [| eauto].
  exfalso. unfold WebhookPayload_of in Hw. cbn [getitem] in Hw.
  destruct (dict_lookup d (u "id")) as [v1 |] eqn:H1; [| discriminate].
  destruct (dict_lookup d (u "event")) as [v2 |] eqn:H2; [| discriminate].
  cbn [mbind exn_bind] in Hw.
  destruct (WebhookEvent_of v2) as [event |] eqn:H3; [| discriminate].
  cbn [mbind exn_bind] in Hw.
  destruct (dict_lookup d (u "data")) as [v4 |] eqn:H4; [| discriminate].
  destruct (dict_lookup d (u "timestamp")) as [v5 |] eqn:H5; [| discriminate].
  destruct Hbad as [? | [? | [? | [? | (v & [= <-] & Hnot)]]]];
    try discriminate.
  apply WebhookEvent_of_returns in H3. eapply Hnot; eauto.
Qed.

(** A validly signed body that does not parse, or that parses to an object
    without an envelope in it, is refused with code [INVALID_PAYLOAD] and
    no callback is invoked. *)
Theorem process_webhook_invalid_payload self payload signature s :
  verify_signature self payload signature = Return true ->
  (exists e, json_loads payload = Raise e
             /\ isinstance e JSONDecodeError = true)
  \/ (exists d, json_loads payload = Return (PDict d)
        /\ (dict_lookup d (u "id") = None
            \/ dict_lookup d (u "event") = None
            \/ dict_lookup d (u "data") = None
            \/ dict_lookup d (u "timestamp") = None
            \/ exists v, dict_lookup d (u "event") = Some v
                         /\ forall event, v <> PStr (types.value event))) ->
  exists e,
    process_webhook self payload signature s = (Raise (invalid_payload e), s)
    /\ exc_type (invalid_payload e) = BitFlowError
    /\ code (invalid_payload e) = Some (PStr (u "INVALID_PAYLOAD")).
Proof.
  intros Hv Hbad.
  unfold process_webhook, eff_bind, lift, eff_try_except, eff_raise.
  rewrite Hv. cbn [negb].
  destruct Hbad as [(e & -> & He) | (d & -> & Hd)].
  - exists e. unfold caught. rewrite He. repeat split.
  - apply WebhookPayload_of_incomplete in Hd as [e He].
    exists e. rewrite He, (WebhookPayload_of_dict_raises _ _ He).
    repeat split.
Qed.

(** ** The client *)

Lemma py_int_raises (text : pystr) e :
  py_int text = Raise e -> exc_type e = ValueError.
Proof.
  unfold py_int.
  destruct (match strip text with
            | 45 :: rest => (true, rest)
            | 43 :: rest => (false, rest)
            | _ => (false, strip text)
            end) as [negative digits].
  destruct (int_digits digits false 0 0) as [[n count] |].
  - destruct (_ && _); [| discriminate]. intros [= <-]. reflexivity.
  - intros [= <-]. reflexivity.
Qed.

(** What [_request] does with a response of status 429. *)
Lemma request_429 (self : BitFlowClient) (method endpoint : pystr)
    (data : option pyval) (params : option (list (pystr * pyval)))
    (response : Response) :
  session_request self
    (mkRequest method (base_url self ++ endpoint) data params (timeout self))
  = Return response ->
  resp_status_code response = 429%Z ->
  _request self method endpoint data params
  = match headers_get (resp_headers response) (u "Retry-After") with
    | Some text =>
        if str_truthy text then
          match py_int text with
          | Return n =>
              Raise (exceptions.new_RateLimitError
                       (PStr (u "Rate limit exceeded")) (PInt n))
          | Raise e => Raise e
          end
        else Raise (exceptions.new_RateLimitError
                      (PStr (u "Rate limit exceeded")) PNone)
    | None => Raise (exceptions.new_RateLimitError
                       (PStr (u "Rate limit exceeded")) PNone)
    end.
Proof.
  intros Hsend Hstatus. unfold _request. rewrite Hsend.
  cbn [mbind exn_bind]. rewrite Hstatus. cbn [Z.eqb Pos.eqb].
  destruct (headers_get (resp_headers response) (u "Retry-After"))
    as [text |]; [| reflexivity].
  destruct (str_truthy text); [| reflexivity].
  destruct (py_int text) as [n | e] eqn:Hint; [reflexivity |].
  cbn [fmap exn_fmap mbind exn_bind try_except].
  unfold isinstance. rewrite (py_int_raises _ _ Hint). reflexivity.
Qed.

(** A response of status 429 whose [Retry-After] header is absent or empty,
    or holds an integer literal, raises a [RateLimitError]; its
    [retry_after] is [None], or the integer. *)
Theorem request_429_rate_limit (self : BitFlowClient) (method endpoint : pystr)
    (data : option pyval) (params : option (list (pystr * pyval)))
    (response : Response) :
  session_request self
    (mkRequest method (base_url self ++ endpoint) data params (timeout self))
  = Return response ->
  resp_status_code response = 429%Z ->
  (forall text n,
      headers_get (resp_headers response) (u "Retry-After") = Some text ->
      text <> [] ->
      py_int text = Return n ->
      exists e, _request self method endpoint data params = Raise e
                /\ exc_type e = RateLimitError
                /\ retry_after e = Some (PInt n))
  /\ (headers_get (resp_headers response) (u "Retry-After") = None
      \/ headers_get (resp_headers response) (u "Retry-After") = Some [] ->
      exists e, _request self method endpoint data params = Raise e
                /\ exc_type e = RateLimitError
                /\ retry_after e = Some PNone).
Proof.
  intros Hsend Hstatus.
  rewrite (request_429 _ _ _ _ _ _ Hsend Hstatus). split.
  - intros text n -> Htext Hint. rewrite Hint.
    destruct text; [contradiction |]. eexists. repeat split.
  - intros [-> | ->]; eexists; repeat split.
Qed.

(** A filter that is unset is not among the parameters, and one set to a
    number other than zero is. *)
Theorem get_streams_params_unset (filters : types.StreamFilters) :
  (types.status filters = None ->
   dict_lookup (get_streams_params (Some filters)) (u "status") = None)
  /\ (types.limit filters = None ->
      dict_lookup (get_streams_params (Some filters)) (u "limit") = None)
  /\ (types.offset filters = None ->
      dict_lookup (get_streams_params (Some filters)) (u "offset") = None)
  /\ (forall n, types.limit filters = Some n -> n <> 0%Z ->
      dict_lookup (get_streams_params (Some filters)) (u "limit")
      = Some (PInt n))
  /\ (forall n, types.offset filters = Some n -> n <> 0%Z ->
      dict_lookup (get_streams_params (Some filters)) (u "offset")
      = Some (PInt n))
  /\ get_streams_params None = [].
Proof.
  destruct filters as [limit offset status]. cbn [types.status types.limit
    types.offset get_streams_params].
  assert (Hnz : forall n, n <> 0%Z -> int_truthy n = true).
  { intros n Hn. apply negb_true_iff, Z.eqb_neq, Hn. }
  repeat split.
  - intros ->. destruct limit as [l |], offset as [o |];
      try destruct (int_truthy l); try destruct (int_truthy o);
      reflexivity.
  - intros ->. destruct status as [[] |], offset as [o |];
      try destruct (int_truthy o); reflexivity.
  - intros ->. destruct status as [[] |], limit as [l |];
      try destruct (int_truthy l); reflexivity.
  - intros n -> Hn. rewrite (Hnz n Hn).
    destruct status as [[] |]; reflexivity.
  - intros n -> Hn. rewrite (Hnz n Hn).
    destruct status as [[] |], limit as [l |];
      try destruct (int_truthy l); reflexivity.
Qed.

End Properties.

(** * Properties of the client's operations and of the adapters *)

Section RequestProperties.

Context `{Interpreter}.

Implicit Types (self : BitFlowClient) (method endpoint : pystr).
Implicit Types (data : option pyval) (params : option (list (pystr * pyval))).
Implicit Types (response : Response) (e : PyExc).

(** ** [_request] *)

Lemma request_eq self method endpoint data params :
  _request self method endpoint data params
  = wrap_network
      (session_request self (request_of self method endpoint data params)
       ≫= on_response).
Proof. reflexivity. Qed.

Lemma wrap_network_return (r : exn pyval) v :
  wrap_network r = Return v -> r = Return v.
Proof.
  unfold wrap_network, try_except. destruct r as [v0 | e]; [auto |].
  destruct (isinstance e RequestException); discriminate.
Qed.

Lemma on_response_return response v :
  on_response response = Return v ->
  (resp_status_code response < 400)%Z /\ resp_json response = Return v.
Proof.
  unfold on_response.
  destruct (resp_status_code response =? 401)%Z eqn:H401; [discriminate |].
  destruct (resp_status_code response =? 400)%Z eqn:H400.
  { destruct (resp_json response) as [body | ?]; [| discriminate].
    cbn [mbind exn_bind].
    destruct (dict_get body (u "error") (PDict [])) as [ed | ?];
      [| discriminate].
    cbn [mbind exn_bind].
    destruct (dict_get ed (u "message") _); discriminate. }
  destruct (resp_status_code response =? 404)%Z eqn:H404.
  { destruct (resp_json response) as [body | ?]; [| discriminate].
    cbn [mbind exn_bind].
    destruct (dict_get body (u "error") (PDict [])) as [ed | ?];
      [| discriminate].
    cbn [mbind exn_bind].
    destruct (dict_get ed (u "message") _); discriminate. }
  destruct (resp_status_code response =? 429)%Z eqn:H429.
  { destruct (match headers_get _ _ with Some _ => _ | None => _ end);
      discriminate. }
  destruct (400 <=? resp_status_code response)%Z eqn:Hge.
  { destruct (resp_json response) as [body | ?]; [| discriminate].
    cbn [mbind exn_bind].
    destruct (dict_get body (u "error") (PDict [])) as [ed | ?];
      [| discriminate].
    cbn [mbind exn_bind].
    destruct (dict_get ed (u "message") _); [| discriminate].
    cbn [mbind exn_bind].
    destruct (dict_get ed (u "code") _); discriminate. }
  intros Hjson. split; [| exact Hjson]. apply Z.leb_gt in Hge. exact Hge.
Qed.

Lemma request_returns self method endpoint data params v :
  _request self method endpoint data params = Return v ->
  exists response,
    session_request self (request_of self method endpoint data params)
    = Return response
    /\ (resp_status_code response < 400)%Z
    /\ resp_json response = Return v.
Proof.
  rewrite request_eq. intros Hr. apply wrap_network_return in Hr.
  destruct (session_request self _) as [response | e0] eqn:Hsend;
    [| discriminate].
  exists response. split; [reflexivity |].
  apply on_response_return. exact Hr.
Qed.

Lemma request_of_response self method endpoint data params response :
  session_request self (request_of self method endpoint data params)
  = Return response ->
  _request self method endpoint data params
  = wrap_network (on_response response).
Proof. intros Hsend. rewrite request_eq, Hsend. reflexivity. Qed.

Lemma request_below_400 self method endpoint data params response :
  session_request self (request_of self method endpoint data params)
  = Return response ->
  (resp_status_code response < 400)%Z ->
  _request self method endpoint data params
  = wrap_network (resp_json response).
Proof.
  intros Hsend Hlt. rewrite (request_of_response _ _ _ _ _ _ Hsend).
  unfold on_response.
  destruct (Z.eqb_spec (resp_status_code response) 401); [lia |].
  destruct (Z.eqb_spec (resp_status_code response) 400); [lia |].
  destruct (Z.eqb_spec (resp_status_code response) 404); [lia |].
  destruct (Z.eqb_spec (resp_status_code response) 429); [lia |].
  destruct (Z.leb_spec 400 (resp_status_code response)); [lia |].
  reflexivity.
Qed.

(** [_request] returns a value exactly when the transport returned a
    response of status below 400 whose body reads as JSON, and the value is
    that body: a response of status 400 or more never yields a value. *)
Theorem request_returns_iff self method endpoint data params v :
  _request self method endpoint data params = Return v
  <-> exists response,
        session_request self (request_of self method endpoint data params)
        = Return response
        /\ (resp_status_code response < 400)%Z
        /\ resp_json response = Return v.
Proof.
  split; [apply request_returns |].
  intros [response [Hsend [Hlt Hjson]]].
  rewrite (request_below_400 _ _ _ _ _ _ Hsend Hlt), Hjson. reflexivity.
Qed.

(** Nothing that leaves [_request] is a [RequestException]: one raised by
    the transport (or by [response.json()]) becomes a [NetworkError] with
    code [NETWORK_ERROR] and no status; any other exception of the
    transport passes unchanged. *)
Theorem request_wraps_transport_errors self method endpoint data params :
  (forall e, _request self method endpoint data params = Raise e ->
             isinstance e RequestException = false)
  /\ (forall e0,
        session_request self (request_of self method endpoint data params)
        = Raise e0 ->
        _request self method endpoint data params
        = if isinstance e0 RequestException
          then Raise (exceptions.new_NetworkError
                        (PStr (u "Network request failed: " ++ exc_str e0)))
          else Raise e0)
  /\ (forall msg,
        exc_type (exceptions.new_NetworkError msg) = NetworkError
        /\ code (exceptions.new_NetworkError msg)
           = Some (PStr (u "NETWORK_ERROR"))
        /\ status_code (exceptions.new_NetworkError msg) = Some PNone).
Proof.
  split; [| split].
  - intros e. rewrite request_eq. unfold wrap_network, try_except.
    destruct (_ ≫= on_response) as [v | e0]; [discriminate |].
    destruct (isinstance e0 RequestException) eqn:Hreq.
    + intros [= <-]. reflexivity.
    + intros [= <-]. exact Hreq.
  - intros e0 Hsend. rewrite request_eq, Hsend. reflexivity.
  - intros msg. repeat split.
Qed.
Lemma wrap_network_other e :
  isinstance e RequestException = false ->
  wrap_network (Raise e) = Raise e.
Proof. intros He. unfold wrap_network, try_except. rewrite He. reflexivity. Qed.

Lemma error_data_message (d : list (pystr * pyval)) (dflt : string) :
  (dict_lookup d (u "error") = None
   \/ exists error_data, dict_lookup d (u "error") = Some (PDict error_data)) ->
  (error_data ← dict_get (PDict d) (u "error") (PDict []);
   dict_get error_data (u "message") (PStr (u dflt)))
  = Return (error_message d dflt).
Proof.
  unfold error_message, dict_get.
  intros [Hnone | [error_data Hsome]].
  - rewrite Hnone. reflexivity.
  - rewrite Hsome. reflexivity.
Qed.

(** On a response of status 400 or more, other than 429, whose body is a
    JSON object with no [error] or with an object as [error] (for 401 the
    body is not read at all), [_request] raises a [BitFlowError] whose
    [status_code] is the status of the response: an [AuthenticationError]
    for 401, a [ValidationError] for 400, a [NotFoundError] for 404, a plain
    [BitFlowError] otherwise; its message is [error.message] of the body or
    the default of that status. *)
Theorem request_error_of_status self method endpoint data params response :
  session_request self (request_of self method endpoint data params)
  = Return response ->
  (400 <= resp_status_code response)%Z ->
  resp_status_code response <> 429%Z ->
  resp_status_code response = 401%Z
  \/ (exists d, resp_json response = Return (PDict d)
        /\ (dict_lookup d (u "error") = None
            \/ exists error_data,
                 dict_lookup d (u "error") = Some (PDict error_data))) ->
  exists e,
    _request self method endpoint data params = Raise e
    /\ isinstance e BitFlowError = true
    /\ status_code e = Some (PInt (resp_status_code response))
    /\ exc_type e
       = (if (resp_status_code response =? 401)%Z then AuthenticationError
          else if (resp_status_code response =? 400)%Z then ValidationError
          else if (resp_status_code response =? 404)%Z then NotFoundError
          else BitFlowError)
    /\ (resp_status_code response = 401%Z ->
        message e = Some (PStr (u "Invalid API key")))
    /\ (forall d, resp_status_code response <> 401%Z ->
          resp_json response = Return (PDict d) ->
          message e
          = Some (error_message d
                    (if (resp_status_code response =? 400)%Z then "Bad request"
                     else if (resp_status_code response =? 404)%Z
                          then "Not found"
                          else "API request failed"))).
Proof.
  intros Hsend Hge H429 Hbody.
  rewrite (request_of_response _ _ _ _ _ _ Hsend).
  unfold on_response.
  destruct (resp_status_code response =? 401)%Z eqn:H401.
  { apply Z.eqb_eq in H401.
    eexists. split; [apply wrap_network_other; reflexivity |].
    rewrite H401. repeat split; try reflexivity. intros d Hne. contradiction. }
  pose proof H401 as H401b. apply Z.eqb_neq in H401.
  destruct Hbody as [? | [d [Hjson Herror]]]; [contradiction |].
  rewrite Hjson. cbn [mbind exn_bind].
  destruct (resp_status_code response =? 400)%Z eqn:H400.
  { apply Z.eqb_eq in H400.
    pose proof (error_data_message d "Bad request" Herror) as Hmsg.
    cbn [mbind exn_bind] in Hmsg.
    destruct (dict_get (PDict d) (u "error") (PDict [])) as [ed | ?];
      [| discriminate].
    cbn [mbind exn_bind] in Hmsg |- *. rewrite Hmsg. cbn [mbind exn_bind].
    eexists. split; [apply wrap_network_other; reflexivity |].
    rewrite H400. repeat split; try reflexivity; [discriminate |].
    intros d' _ [= <-]. reflexivity. }
  destruct (resp_status_code response =? 404)%Z eqn:H404.
  { apply Z.eqb_eq in H404.
    pose proof (error_data_message d "Not found" Herror) as Hmsg.
    cbn [mbind exn_bind] in Hmsg.
    destruct (dict_get (PDict d) (u "error") (PDict [])) as [ed | ?];
      [| discriminate].
    cbn [mbind exn_bind] in Hmsg |- *. rewrite Hmsg. cbn [mbind exn_bind].
    eexists. split; [apply wrap_network_other; reflexivity |].
    rewrite H404. repeat split; try reflexivity; [discriminate |].
    intros d' _ [= <-]. reflexivity. }
  destruct (resp_status_code response =? 429)%Z eqn:H429';
    [apply Z.eqb_eq in H429'; contradiction |].
  apply Z.leb_le in Hge. rewrite Hge.
  pose proof (error_data_message d "API request failed" Herror) as Hmsg.
  cbn [mbind exn_bind] in Hmsg.
  destruct (dict_get (PDict d) (u "error") (PDict [])) as [ed | ?] eqn:Hed;
    [| discriminate].
  cbn [mbind exn_bind] in Hmsg |- *. rewrite Hmsg. cbn [mbind exn_bind].
  assert (exists c, dict_get ed (u "code") PNone = Return c) as [c Hc].
  { unfold dict_get in Hed.
    destruct Herror as [Hnone | [error_data Hsome]].
    - rewrite Hnone in Hed. injection Hed as <-. eexists. reflexivity.
    - rewrite Hsome in Hed. injection Hed as <-. eexists. reflexivity. }
  rewrite Hc. cbn [mbind exn_bind].
  eexists. split; [apply wrap_network_other; reflexivity |].
  repeat split; try reflexivity; [contradiction |].
  intros d' _ [= <-]. reflexivity.
Qed.

(** When the body of a response is not what [_request] expects. With a
    status other than 401 and 429: if [response.json()] raises, a
    [RequestException] becomes a [NetworkError] (the status of the response
    is lost) and anything else leaves as it is. With a status of 400 or
    more, other than 401 and 429: a body that is no JSON object, or whose
    [error] is no object, makes the [.get] call fail, and what leaves
    [_request] is an [AttributeError], not a [BitFlowError]. *)
Theorem request_unexpected_body self method endpoint data params response :
  session_request self (request_of self method endpoint data params)
  = Return response ->
  resp_status_code response <> 401%Z ->
  resp_status_code response <> 429%Z ->
  (forall e0, resp_json response = Raise e0 ->
     _request self method endpoint data params
     = if isinstance e0 RequestException
       then Raise (exceptions.new_NetworkError
                     (PStr (u "Network request failed: " ++ exc_str e0)))
       else Raise e0)
  /\ (forall body,
        (400 <= resp_status_code response)%Z ->
        resp_json response = Return body ->
        (forall d, body <> PDict d)
        \/ (exists d v, body = PDict d /\ dict_lookup d (u "error") = Some v
                        /\ forall error_data, v <> PDict error_data) ->
        exists e, _request self method endpoint data params = Raise e
                  /\ exc_type e = AttributeError
                  /\ isinstance e BitFlowError = false).
Proof.
  intros Hsend H401 H429.
  rewrite (request_of_response _ _ _ _ _ _ Hsend).
  unfold on_response.
  apply Z.eqb_neq in H401. apply Z.eqb_neq in H429. rewrite H401, H429.
  split.
  - intros e0 Hjson. rewrite Hjson. cbn [mbind exn_bind].
    destruct (resp_status_code response =? 400)%Z;
      [reflexivity |].
    destruct (resp_status_code response =? 404)%Z; [reflexivity |].
    destruct (400 <=? resp_status_code response)%Z; reflexivity.
  - intros body Hge Hjson Hbad. rewrite Hjson. cbn [mbind exn_bind].
    apply Z.leb_le in Hge. rewrite Hge.
    assert (forall dflt : pyval,
               exists e,
                 (error_data ← dict_get body (u "error") (PDict []);
                  dict_get error_data (u "message") dflt) = Raise e
                 /\ exc_type e = AttributeError) as Hget.
    { intros dflt. destruct Hbad as [Hnot | [d [v [-> [Hv Hnot]]]]].
      - destruct body; try (eexists; split; reflexivity).
        exfalso. eapply Hnot. reflexivity.
      - unfold dict_get. rewrite Hv. cbn [default mbind exn_bind].
        destruct v; try (eexists; split; reflexivity).
        exfalso. eapply Hnot. reflexivity. }
    assert (forall (dflt : pyval) (k : pyval -> pyval -> exn pyval),
               exists e,
                 wrap_network
                   (error_data ← dict_get body (u "error") (PDict []);
                    msg ← dict_get error_data (u "message") dflt;
                    k error_data msg) = Raise e
                 /\ exc_type e = AttributeError
                 /\ isinstance e BitFlowError = false) as Hraise.
    { intros dflt k. destruct (Hget dflt) as [e [He Htype]].
      exists e.
      assert (isinstance e BitFlowError = false) as Hnb
        by (unfold isinstance; rewrite Htype; reflexivity).
      assert (isinstance e RequestException = false) as Hnr
        by (unfold isinstance; rewrite Htype; reflexivity).
      split; [| split; assumption].
      destruct (dict_get body (u "error") (PDict [])) as [ed | e1].
      + cbn [mbind exn_bind] in He |- *. rewrite He. cbn [mbind exn_bind].
        apply wrap_network_other. exact Hnr.
      + cbn [mbind exn_bind] in He |- *. injection He as ->.
        apply wrap_network_other. exact Hnr. }
    destruct (resp_status_code response =? 400)%Z;
      [apply (Hraise _ (fun _ msg => Raise (exceptions.new_ValidationError msg)))
      |].
    destruct (resp_status_code response =? 404)%Z;
      [apply (Hraise _ (fun _ msg => Raise (exceptions.new_NotFoundError msg)))
      |].
    apply (Hraise _ (fun error_data msg =>
                       code ← dict_get error_data (u "code") PNone;
                       Raise (exceptions.new_BitFlowError msg code
                                (PInt (resp_status_code response))))).
Qed.

End RequestProperties.

(** ** [__init__] and the request bodies *)

Lemma lstrip_slash_cons (c : N) (s : pystr) :
  lstrip_slash (c :: s) = if c =? 47 then lstrip_slash s else c :: s.
Proof.
  destruct c as [| p]; [reflexivity |].
  repeat (destruct p as [p | p |]; try reflexivity).
Qed.

Lemma lstrip_slash_spec (s : pystr) :
  exists n, s = repeat 47 n ++ lstrip_slash s
            /\ head (lstrip_slash s) <> Some 47.
Proof.
  induction s as [| c s [n [IH1 IH2]]].
  - exists 0%nat. split; [reflexivity | discriminate].
  - rewrite lstrip_slash_cons. destruct (N.eqb_spec c 47) as [-> | Hc].
    + exists (S n). split; [cbn [repeat app]; congruence | exact IH2].
    + exists 0%nat. split; [reflexivity |]. cbn. congruence.
Qed.

Lemma rstrip_slash_spec (s : pystr) :
  exists n, s = rstrip_slash s ++ repeat 47 n
            /\ last (rstrip_slash s) <> Some 47.
Proof.
  unfold rstrip_slash.
  destruct (lstrip_slash_spec (rev s)) as [n [Hs Hhead]].
  exists n. split.
  - rewrite <- (rev_involutive s) at 1. rewrite Hs at 1.
    rewrite rev_app_distr. f_equal.
    clear. induction n as [| n IH]; [reflexivity |].
    cbn [repeat rev]. rewrite IH. clear.
    induction n as [| n IH]; [reflexivity |]. cbn [repeat app]. congruence.
  - destruct (lstrip_slash (rev s)) as [| c t]; [discriminate |].
    cbn [rev]. rewrite last_snoc. exact Hhead.
Qed.

Lemma rstrip_slash_id (s : pystr) :
  last s <> Some 47 -> rstrip_slash s = s.
Proof.
  intros Hlast. unfold rstrip_slash.
  rewrite <- (rev_involutive s) at 2. f_equal.
  destruct (rev s) as [| c t] eqn:Hrev; [reflexivity |].
  rewrite lstrip_slash_cons. destruct (N.eqb_spec c 47) as [-> | Hc];
    [| reflexivity].
  exfalso. apply Hlast. rewrite <- (rev_involutive s), Hrev.
  cbn [rev]. apply last_snoc.
Qed.

(** [BitFlowClient(api_key, base_url, timeout)] keeps the key and the
    timeout, and keeps of [base_url] all but its trailing slashes: what is
    removed is a run of [/], the result does not end in [/], a URL that does
    not end in [/] is kept as it is, and building a client from the
    [base_url] of a client changes nothing. *)
Theorem new_BitFlowClient_base_url (key url : pystr) (seconds : Z)
    (session : Request -> exn Response) :
  let client := new_BitFlowClient key url seconds session in
  api_key client = key
  /\ timeout client = seconds
  /\ (exists n, url = base_url client ++ repeat 47 n)
  /\ last (base_url client) <> Some 47
  /\ (last url <> Some 47 -> base_url client = url)
  /\ new_BitFlowClient key (base_url client) seconds session = client.
Proof.
  cbn zeta. unfold new_BitFlowClient. cbn [api_key timeout base_url].
  destruct (rstrip_slash_spec url) as [n [Hurl Hlast]].
  split; [reflexivity |]. split; [reflexivity |].
  split; [exists n; exact Hurl |]. split; [exact Hlast |].
  split; [apply rstrip_slash_id |].
  rewrite (rstrip_slash_id _ Hlast). reflexivity.
Qed.

(** [create_subscription_plan] always sends [name], [price] and [interval];
    it sends [description] only when it is a non-empty text and
    [maxSubscribers] only when it is a non-zero number: an empty description
    and a limit of 0 subscribers are dropped like [None]. *)
Theorem create_subscription_plan_data_optional
    (request : CreateSubscriptionPlanRequest.t) :
  let data := create_subscription_plan_data request in
  dict_lookup data (u "name")
  = Some (PStr (CreateSubscriptionPlanRequest.name request))
  /\ dict_lookup data (u "price")
     = Some (PStr (CreateSubscriptionPlanRequest.price request))
  /\ dict_lookup data (u "interval")
     = Some (PInt (CreateSubscriptionPlanRequest.interval request))
  /\ dict_lookup data (u "description")
     = match CreateSubscriptionPlanRequest.description request with
       | Some (c :: text) => Some (PStr (c :: text))
       | _ => None
       end
  /\ dict_lookup data (u "maxSubscribers")
     = match CreateSubscriptionPlanRequest.max_subscribers request with
       | Some 0%Z | None => None
       | Some n => Some (PInt n)
       end.
Proof.
  destruct request as [name description price interval max_subscribers].
  cbn zeta. unfold create_subscription_plan_data.
  cbn [CreateSubscriptionPlanRequest.name
       CreateSubscriptionPlanRequest.description
       CreateSubscriptionPlanRequest.price
       CreateSubscriptionPlanRequest.interval
       CreateSubscriptionPlanRequest.max_subscribers].
  destruct description as [[| c text] |];
    destruct max_subscribers as [[| p | p] |];
    (split; [vm_compute; reflexivity |]);
    (split; [vm_compute; reflexivity |]);
    (split; [vm_compute; reflexivity |]);
    (split; vm_compute; reflexivity).
Qed.

(** [subscribe] sends [autoRenew] whenever it is set, also when it is
    [False]; [update_webhook] likewise sends [isActive] whenever it is set,
    but sends [url] and [events] only when they are non-empty, so that an
    empty list of events cannot be sent. *)
Theorem update_webhook_data_optional (url : option pystr)
    (events : option (list pystr)) (is_active : option bool)
    (request : CreateSubscriptionRequest.t) :
  dict_lookup (subscribe_data request) (u "autoRenew")
  = PBool <$> CreateSubscriptionRequest.auto_renew request
  /\ dict_lookup (update_webhook_data url events is_active) (u "isActive")
     = PBool <$> is_active
  /\ dict_lookup (update_webhook_data url events is_active) (u "url")
     = match url with
       | Some (c :: text) => Some (PStr (c :: text))
       | _ => None
       end
  /\ dict_lookup (update_webhook_data url events is_active) (u "events")
     = match events with
       | Some (event :: rest) => Some (PList (List.map PStr (event :: rest)))
       | _ => None
       end.
Proof.
  destruct request as [plan_id duration auto_renew].
  unfold subscribe_data, update_webhook_data.
  cbn [CreateSubscriptionRequest.plan_id CreateSubscriptionRequest.duration
       CreateSubscriptionRequest.auto_renew].
  destruct auto_renew as [b |]; destruct url as [[| c text] |];
    destruct events as [[| event rest] |]; destruct is_active as [a |];
    (split; [vm_compute; reflexivity |]);
    (split; [vm_compute; reflexivity |]);
    (split; vm_compute; reflexivity).
Qed.

(** ** Reading the responses *)

Lemma lookup_some_ne (d : list (pystr * pyval)) (k : pystr) (v : pyval) :
  dict_lookup d k = Some v -> dict_lookup d k <> None.
Proof. congruence. Qed.

Ltac present :=
  repeat first
    [ apply List.Forall_nil
    | apply List.Forall_cons; [eapply lookup_some_ne; eassumption |] ].

Ltac missing i :=
  exists (firstn i Stream_keys), (nth i Stream_keys []),
         (skipn (S i) Stream_keys);
  split; [reflexivity |]; split; [present |];
  split; [assumption | reflexivity].

Ltac read_key d key i :=
  destruct (dict_lookup d key) eqn:?; cbn [mbind exn_bind];
  [| missing i].

Lemma Stream_of_cases (d : list (pystr * pyval)) :
  match Stream_of (PDict d) with
  | Return _ => Forall (fun k => dict_lookup d k <> None) Stream_keys
  | Raise e =>
      exists before k after,
        Stream_keys = before ++ k :: after
        /\ Forall (fun k => dict_lookup d k <> None) before
        /\ dict_lookup d k = None
        /\ e = new_KeyError k
  end.
Proof.
  unfold Stream_of, getitem.
  read_key d (u "id") 0%nat. read_key d (u "sender") 1%nat.
  read_key d (u "recipient") 2%nat. read_key d (u "totalAmount") 3%nat.
  read_key d (u "ratePerSecond") 4%nat. read_key d (u "startTime") 5%nat.
  read_key d (u "endTime") 6%nat. read_key d (u "withdrawnAmount") 7%nat.
  read_key d (u "isActive") 8%nat.
  present.
Qed.

Lemma Stream_of_local (d d' : list (pystr * pyval)) :
  Forall (fun k => dict_lookup d' k = dict_lookup d k) Stream_keys ->
  Stream_of (PDict d') = Stream_of (PDict d).
Proof.
  intros HF. unfold Stream_keys in HF.
  repeat (apply Forall_cons in HF as [? HF]).
  unfold Stream_of, getitem.
  repeat match goal with
         | Hk : dict_lookup d' _ = dict_lookup d _ |- _ =>
             rewrite Hk; clear Hk
         end.
  reflexivity.
Qed.

(** [Stream_of] on a JSON object: it returns exactly when the object has
    all nine keys; otherwise it raises [KeyError] for the first key, in the
    order the constructor call names them, that the object lacks; it looks
    at nothing but these nine keys; and on a value that is no object it
    raises [TypeError]. *)
Theorem Stream_of_keys (d : list (pystr * pyval)) :
  ((exists stream, Stream_of (PDict d) = Return stream)
   <-> Forall (fun k => dict_lookup d k <> None) Stream_keys)
  /\ (forall e, Stream_of (PDict d) = Raise e ->
        exists before k after,
          Stream_keys = before ++ k :: after
          /\ Forall (fun k => dict_lookup d k <> None) before
          /\ dict_lookup d k = None
          /\ e = new_KeyError k)
  /\ (forall d',
        Forall (fun k => dict_lookup d' k = dict_lookup d k) Stream_keys ->
        Stream_of (PDict d') = Stream_of (PDict d))
  /\ (forall v, (forall d0, v <> PDict d0) ->
        exists e, Stream_of v = Raise e /\ exc_type e = TypeError).
Proof.
  pose proof (Stream_of_cases d) as Hcases.
  split; [| split; [| split]].
  - split.
    + intros [stream Hs]. rewrite Hs in Hcases. exact Hcases.
    + intros Hall. destruct (Stream_of (PDict d)) as [stream | e];
        [exists stream; reflexivity |].
      destruct Hcases as [before [k [after [Hkeys [_ [Hnone _]]]]]].
      exfalso. rewrite Hkeys in Hall.
      apply Forall_app in Hall as [_ Hall].
      apply Forall_cons in Hall as [Hk _]. exact (Hk Hnone).
  - intros e He. rewrite He in Hcases. exact Hcases.
  - apply Stream_of_local.
  - intros v Hv.
    destruct v; try (eexists; split; reflexivity).
    exfalso. eapply Hv. reflexivity.
Qed.

(** *** List comprehensions *)

Lemma comprehension_returns {A} (f : pyval -> exn A) (items : list pyval)
    (ys : list A) :
  comprehension f items = Return ys
  <-> Forall2 (fun x y => f x = Return y) items ys.
Proof.
  revert ys. induction items as [| x rest IH]; intros ys; cbn [comprehension].
  - split.
    + intros [= <-]. constructor.
    + intros Hf. inversion Hf. reflexivity.
  - destruct (f x) as [y | e] eqn:Hx; cbn [mbind exn_bind].
    + destruct (comprehension f rest) as [ys' | e] eqn:Hrest;
        cbn [mbind exn_bind].
      * split.
        -- intros [= <-]. constructor; [exact Hx |]. apply IH. reflexivity.
        -- intros Hf. inversion Hf as [| ? y0 ? ys0 Hy Hrest0]; subst.
           apply IH in Hrest0. congruence.
      * split; [discriminate |].
        intros Hf. inversion Hf as [| ? y0 ? ys0 Hy Hrest0]; subst.
        apply IH in Hrest0. discriminate.
    + split; [discriminate |].
      intros Hf. inversion Hf as [| ? y0 ? ys0 Hy Hrest0]; subst. congruence.
Qed.

Lemma comprehension_raises {A} (f : pyval -> exn A) (items : list pyval)
    (e : PyExc) :
  comprehension f items = Raise e
  <-> exists good x rest,
        items = good ++ x :: rest
        /\ Forall (fun x => exists y, f x = Return y) good
        /\ f x = Raise e.
Proof.
  induction items as [| x rest IH]; cbn [comprehension].
  - split; [discriminate |].
    intros [good [x [rest [Hitems _]]]]. destruct good; discriminate.
  - destruct (f x) as [y | e0] eqn:Hx; cbn [mbind exn_bind].
    + destruct (comprehension f rest) as [ys' | e1] eqn:Hrest;
        cbn [mbind exn_bind].
      * split; [discriminate |].
        intros [good [x0 [rest0 [Hitems [Hgood Hbad]]]]].
        destruct good as [| g good]; cbn [app] in Hitems;
          injection Hitems as <- Hr; [congruence |].
        apply Forall_cons in Hgood as [_ Hgood].
        assert (Return ys' = Raise e) as Heq; [| discriminate].
        apply IH. exists good, x0, rest0. auto.
      * split.
        -- intros [= ->]. destruct (proj1 IH eq_refl)
             as [good [x0 [rest0 [Hr [Hgood Hbad]]]]].
           exists (x :: good), x0, rest0.
           split; [rewrite Hr; reflexivity |]. split; [| exact Hbad].
           constructor; [exists y; exact Hx | exact Hgood].
        -- intros [good [x0 [rest0 [Hitems [Hgood Hbad]]]]].
           destruct good as [| g good]; cbn [app] in Hitems;
             injection Hitems as <- Hr; [congruence |].
           apply Forall_cons in Hgood as [_ Hgood].
           apply IH. exists good, x0, rest0. auto.
    + split.
      * intros [= ->]. exists [], x, rest.
        split; [reflexivity |]. split; [constructor | exact Hx].
      * intros [good [x0 [rest0 [Hitems [Hgood Hbad]]]]].
        destruct good as [| g good]; cbn [app] in Hitems;
          injection Hitems as <- Hr; [congruence |].
        apply Forall_cons in Hgood as [[y Hy] _]. congruence.
Qed.

Lemma Streams_of_comprehension (items : list pyval) :
  Streams_of items = comprehension Stream_of items.
Proof.
  induction items as [| x rest IH]; [reflexivity |].
  cbn [Streams_of comprehension]. rewrite IH. reflexivity.
Qed.

Section Listings.

Context `{Interpreter}.

Implicit Types (self : BitFlowClient).

(** [get_streams] on a response whose [streams] is a list: it returns
    exactly when every item of the list is read as a stream and the
    response has a [pagination]; the streams returned are the items read,
    one for one and in the order of the response; and when an item cannot
    be read, the error of the first such item leaves [get_streams] and no
    stream is returned, whatever the other items are. *)
Theorem get_streams_all_or_nothing self filters
    (r : list (pystr * pyval)) (items : list pyval) :
  _request self (u "GET") (u "/api/streams") None
    (Some (get_streams_params filters)) = Return (PDict r) ->
  dict_lookup r (u "streams") = Some (PList items) ->
  (forall streams pagination,
     get_streams self filters
     = Return (types.mkStreamsResponse streams pagination)
     <-> Forall2 (fun item stream => Stream_of item = Return stream)
           items streams
         /\ dict_lookup r (u "pagination") = Some pagination)
  /\ (forall good item rest e,
        items = good ++ item :: rest ->
        Forall (fun x => exists stream, Stream_of x = Return stream) good ->
        Stream_of item = Raise e ->
        get_streams self filters = Raise e).
Proof.
  intros Hreq Hstreams. unfold get_streams. rewrite Hreq.
  cbn [mbind exn_bind getitem]. rewrite Hstreams.
  cbn [mbind exn_bind py_iter]. rewrite Streams_of_comprehension.
  split.
  - intros streams pagination.
    destruct (comprehension Stream_of items) as [streams' | e] eqn:Hc;
      cbn [mbind exn_bind].
    + apply comprehension_returns in Hc.
      destruct (dict_lookup r (u "pagination")) as [p |];
        cbn [mbind exn_bind].
      * split.
        -- intros [= <- <-]. split; [exact Hc | reflexivity].
        -- intros [Hf [= <-]].
           apply comprehension_returns in Hc, Hf. congruence.
      * split; [discriminate |]. intros [_ Hp]. discriminate.
    + split; [discriminate |]. intros [Hf _].
      apply comprehension_returns in Hf. congruence.
  - intros good item rest e Hitems Hgood Hbad.
    assert (comprehension Stream_of items = Raise e) as ->; [| reflexivity].
    apply comprehension_raises. exists good, item, rest. auto.
Qed.

(** The three other listings, [get_subscription_plans], [get_subscriptions]
    and [get_webhooks], on a response whose [data] holds a list: each
    returns exactly the items read, one for one and in order, and raises
    exactly the error of the first item that cannot be read. *)
Theorem listings_all_or_nothing self (provider : option pystr)
    (r b : list (pystr * pyval)) (items : list pyval) :
  dict_lookup r (u "data") = Some (PDict b) ->
  (_request self (u "GET") (u "/api/subscriptions/plans") None
     (Some (get_subscription_plans_params provider)) = Return (PDict r) ->
   dict_lookup b (u "plans") = Some (PList items) ->
   (forall plans,
      get_subscription_plans self provider = Return plans
      <-> Forall2 (fun item plan => SubscriptionPlan_of item = Return plan)
            items plans)
   /\ (forall e,
         get_subscription_plans self provider = Raise e
         <-> exists good item rest,
               items = good ++ item :: rest
               /\ Forall (fun x => exists y, SubscriptionPlan_of x = Return y)
                    good
               /\ SubscriptionPlan_of item = Raise e))
  /\ (_request self (u "GET") (u "/api/subscriptions") None None
      = Return (PDict r) ->
      dict_lookup b (u "subscriptions") = Some (PList items) ->
      (forall subscriptions,
         get_subscriptions self = Return subscriptions
         <-> Forall2 (fun item s => Subscription_of item = Return s)
               items subscriptions)
      /\ (forall e,
            get_subscriptions self = Raise e
            <-> exists good item rest,
                  items = good ++ item :: rest
                  /\ Forall (fun x => exists y, Subscription_of x = Return y)
                       good
                  /\ Subscription_of item = Raise e))
  /\ (_request self (u "GET") (u "/api/webhooks/endpoints") None None
      = Return (PDict r) ->
      dict_lookup b (u "endpoints") = Some (PList items) ->
      (forall endpoints,
         get_webhooks self = Return endpoints
         <-> Forall2 (fun item w => WebhookEndpoint_of item = Return w)
               items endpoints)
      /\ (forall e,
            get_webhooks self = Raise e
            <-> exists good item rest,
                  items = good ++ item :: rest
                  /\ Forall (fun x => exists y, WebhookEndpoint_of x = Return y)
                       good
                  /\ WebhookEndpoint_of item = Raise e)).
Proof.
  intros Hdata. split; [| split]; intros Hreq Hitems.
  - unfold get_subscription_plans. rewrite Hreq.
    cbn [mbind exn_bind getitem]. rewrite Hdata.
    cbn [mbind exn_bind getitem]. rewrite Hitems.
    cbn [mbind exn_bind py_iter].
    split; [intros plans; apply comprehension_returns
           | intros e; apply comprehension_raises].
  - unfold get_subscriptions. rewrite Hreq.
    cbn [mbind exn_bind getitem]. rewrite Hdata.
    cbn [mbind exn_bind getitem]. rewrite Hitems.
    cbn [mbind exn_bind py_iter].
    split; [intros subscriptions; apply comprehension_returns
           | intros e; apply comprehension_raises].
  - unfold get_webhooks. rewrite Hreq.
    cbn [mbind exn_bind getitem]. rewrite Hdata.
    cbn [mbind exn_bind getitem]. rewrite Hitems.
    cbn [mbind exn_bind py_iter].
    split; [intros endpoints; apply comprehension_returns
           | intros e; apply comprehension_raises].
Qed.

End Listings.

Section Endpoints.

Context `{Interpreter}.

Implicit Types (self : BitFlowClient).

(** The two readings of a webhook endpoint. [get_webhooks] and
    [update_webhook] accept an endpoint without [secret] and then report an
    empty secret; [create_webhook] requires [secret]: on an endpoint without
    it that the other reading accepts, it raises ([KeyError] for [secret],
    or [TypeError] when [events] cannot be iterated). Whatever
    [create_webhook] reads, the other reading accepts as well, with the same
    fields, [events] apart, which [create_webhook] copies item by item. *)
Theorem WebhookEndpoint_of_secret (d : list (pystr * pyval)) :
  (forall w, WebhookEndpoint_of (PDict d) = Return w ->
     WebhookEndpoint.secret w
     = default (PStr []) (dict_lookup d (u "secret"))
     /\ WebhookEndpoint.description w
        = default PNone (dict_lookup d (u "description"))
     /\ dict_lookup d (u "events") = Some (WebhookEndpoint.events w)
     /\ (dict_lookup d (u "secret") = None ->
         exists e, created_WebhookEndpoint_of (PDict d) = Raise e
                   /\ (e = new_KeyError (u "secret")
                       \/ exc_type e = TypeError)))
  /\ (forall w, created_WebhookEndpoint_of (PDict d) = Return w ->
        dict_lookup d (u "secret") = Some (WebhookEndpoint.secret w)
        /\ exists events items,
             dict_lookup d (u "events") = Some events
             /\ py_iter events = Return items
             /\ WebhookEndpoint.events w = PList items
             /\ WebhookEndpoint_of (PDict d)
                = Return (WebhookEndpoint.make
                            (WebhookEndpoint.id w) (WebhookEndpoint.url w)
                            events (WebhookEndpoint.description w)
                            (WebhookEndpoint.secret w)
                            (WebhookEndpoint.is_active w)
                            (WebhookEndpoint.created_at w))).
Proof.
  unfold WebhookEndpoint_of, created_WebhookEndpoint_of, getitem, dict_get.
  destruct (dict_lookup d (u "id")) as [id |]; cbn [mbind exn_bind];
    [| split; intros w; discriminate].
  destruct (dict_lookup d (u "url")) as [url |]; cbn [mbind exn_bind];
    [| split; intros w; discriminate].
  destruct (dict_lookup d (u "events")) as [events |]; cbn [mbind exn_bind];
    [| split; intros w; discriminate].
  destruct (dict_lookup d (u "isActive")) as [is_active |] eqn:Hactive;
    cbn [mbind exn_bind].
  2: { split; intros w; [discriminate |].
       destruct (py_iter events); cbn [mbind exn_bind]; [| discriminate].
       destruct (dict_lookup d (u "secret")); cbn [mbind exn_bind];
         discriminate. }
  destruct (dict_lookup d (u "createdAt")) as [created_at |] eqn:Hcreated;
    cbn [mbind exn_bind].
  2: { split; intros w; [discriminate |].
       destruct (py_iter events); cbn [mbind exn_bind]; [| discriminate].
       destruct (dict_lookup d (u "secret")); cbn [mbind exn_bind];
         discriminate. }
  split; intros w.
  - intros [= <-]. cbn [WebhookEndpoint.secret WebhookEndpoint.description
                        WebhookEndpoint.events].
    split; [reflexivity |]. split; [reflexivity |]. split; [reflexivity |].
    intros ->. cbn [mbind exn_bind].
    destruct events; cbn [py_iter mbind exn_bind];
      eexists; (split; [reflexivity |]);
      solve [left; reflexivity | right; reflexivity].
  - destruct (py_iter events) as [items |] eqn:Hiter; cbn [mbind exn_bind];
      [| discriminate].
    destruct (dict_lookup d (u "secret")) as [secret |]; cbn [mbind exn_bind];
      [| discriminate].
    intros [= <-]. split; [reflexivity |].
    exists events, items. repeat split; try reflexivity. exact Hiter.
Qed.

(** The operations that return nothing, [cancel_stream],
    [cancel_subscription] and [delete_webhook], still read the body of the
    response as JSON: each returns only on a response of status below 400
    whose body is JSON, and on a response of status below 400 whose body is
    not ([response.json()] raises a [RequestException]) each raises a
    [NetworkError]. *)
Theorem no_content_operations self (id : pystr) :
  let returns (op : exn unit) (method endpoint : pystr) :=
    (op = Return tt ->
     exists response v,
       session_request self (request_of self method endpoint None None)
       = Return response
       /\ (resp_status_code response < 400)%Z
       /\ resp_json response = Return v)
    /\ (forall response e0,
          session_request self (request_of self method endpoint None None)
          = Return response ->
          (resp_status_code response < 400)%Z ->
          resp_json response = Raise e0 ->
          isinstance e0 RequestException = true ->
          op = Raise (exceptions.new_NetworkError
                        (PStr (u "Network request failed: " ++ exc_str e0))))
  in
  returns (cancel_stream self id) (u "POST")
    (u "/api/streams/" ++ id ++ u "/cancel")
  /\ returns (cancel_subscription self id) (u "POST")
       (u "/api/subscriptions/" ++ id ++ u "/cancel")
  /\ returns (delete_webhook self id) (u "DELETE")
       (u "/api/webhooks/endpoints/" ++ id).
Proof.
  assert (forall method endpoint,
             ((_ ← _request self method endpoint None None; Return tt)
              = Return tt ->
              exists response v,
                session_request self (request_of self method endpoint None None)
                = Return response
                /\ (resp_status_code response < 400)%Z
                /\ resp_json response = Return v)
             /\ (forall response e0,
                   session_request self
                     (request_of self method endpoint None None)
                   = Return response ->
                   (resp_status_code response < 400)%Z ->
                   resp_json response = Raise e0 ->
                   isinstance e0 RequestException = true ->
                   (_ ← _request self method endpoint None None; Return tt)
                   = Raise (exceptions.new_NetworkError
                              (PStr (u "Network request failed: "
                                     ++ exc_str e0))))) as Hop.
  { intros method endpoint. split.
    - destruct (_request self method endpoint None None) as [v | e] eqn:Hr;
        [| discriminate].
      intros _. destruct (request_returns _ _ _ _ _ _ Hr)
        as [response [Hsend [Hlt Hjson]]].
      exists response, v. auto.
    - intros response e0 Hsend Hlt Hjson He0.
      rewrite (request_below_400 _ _ _ _ _ _ Hsend Hlt), Hjson.
      unfold wrap_network, try_except. rewrite He0. reflexivity. }
  cbn zeta. split; [apply Hop |]. split; apply Hop.
Qed.

End Endpoints.

Section StreamOperations.

Context `{Interpreter}.

Implicit Types (self : BitFlowClient).

Lemma read_stream_iff (r : exn pyval) (stream : types.Stream) :
  (response ← r;
   body ← getitem response (u "data");
   stream_data ← getitem body (u "stream");
   Stream_of stream_data) = Return stream
  <-> exists top body d,
        r = Return (PDict top)
        /\ dict_lookup top (u "data") = Some (PDict body)
        /\ dict_lookup body (u "stream") = Some (PDict d)
        /\ Stream_of (PDict d) = Return stream.
Proof.
  split.
  - destruct r as [response |]; [| discriminate]. cbn [mbind exn_bind].
    destruct response as [| | | | | | top];
      try (cbn [getitem mbind exn_bind]; discriminate).
    cbn [getitem].
    destruct (dict_lookup top (u "data")) as [body |] eqn:Hdata;
      [| discriminate].
    cbn [mbind exn_bind].
    destruct body as [| | | | | | body];
      try (cbn [getitem mbind exn_bind]; discriminate).
    cbn [getitem].
    destruct (dict_lookup body (u "stream")) as [stream_data |] eqn:Hstream;
      [| discriminate].
    cbn [mbind exn_bind].
    destruct stream_data as [| | | | | | d];
      try (unfold Stream_of; cbn [getitem mbind exn_bind]; discriminate).
    intros Hs. exists top, body, d. auto.
  - intros [top [body [d [-> [Hdata [Hstream Hs]]]]]].
    cbn [mbind exn_bind getitem]. rewrite Hdata.
    cbn [mbind exn_bind getitem]. rewrite Hstream.
    cbn [mbind exn_bind]. exact Hs.
Qed.

(** [get_stream] and [create_stream] end to end. Each returns a stream
    exactly when the transport answered its request (a GET on
    [/api/streams/] followed by the id as it is, a POST of the four fields
    on [/api/streams]) with a status below 400 and a JSON object whose
    [data.stream] is an object that [Stream_of] reads, and the stream is
    what [Stream_of] read. *)
Theorem stream_operations_return_iff self (id : pystr)
    (request : CreateStreamRequest.t) (stream : types.Stream) :
  let reads (response : Response) :=
    (resp_status_code response < 400)%Z
    /\ exists top body d,
         resp_json response = Return (PDict top)
         /\ dict_lookup top (u "data") = Some (PDict body)
         /\ dict_lookup body (u "stream") = Some (PDict d)
         /\ Stream_of (PDict d) = Return stream in
  (get_stream self id = Return stream
   <-> exists response,
         session_request self
           (mkRequest (u "GET") (base_url self ++ u "/api/streams/" ++ id)
              None None (timeout self))
         = Return response
         /\ reads response)
  /\ (create_stream self request = Return stream
      <-> exists response,
            session_request self
              (mkRequest (u "POST") (base_url self ++ u "/api/streams")
                 (Some (PDict
                          [(u "recipient",
                            PStr (CreateStreamRequest.recipient request));
                           (u "amount",
                            PStr (CreateStreamRequest.amount request));
                           (u "rate", PStr (CreateStreamRequest.rate request));
                           (u "duration",
                            PInt (CreateStreamRequest.duration request))]))
                 None (timeout self))
            = Return response
            /\ reads response).
Proof.
  assert (forall method endpoint data,
             (response ← _request self method endpoint data None;
              body ← getitem response (u "data");
              stream_data ← getitem body (u "stream");
              Stream_of stream_data) = Return stream
             <-> exists response,
                   session_request self
                     (request_of self method endpoint data None)
                   = Return response
                   /\ (resp_status_code response < 400)%Z
                   /\ exists top body d,
                        resp_json response = Return (PDict top)
                        /\ dict_lookup top (u "data") = Some (PDict body)
                        /\ dict_lookup body (u "stream") = Some (PDict d)
                        /\ Stream_of (PDict d) = Return stream) as Hop.
  { intros method endpoint data. rewrite read_stream_iff. split.
    - intros [top [body [d [Hr Hrest]]]].
      destruct (request_returns _ _ _ _ _ _ Hr)
        as [response [Hsend [Hlt Hjson]]].
      exists response. split; [exact Hsend |]. split; [exact Hlt |].
      exists top, body, d. auto.
    - intros [response [Hsend [Hlt [top [body [d [Hjson Hrest]]]]]]].
      exists top, body, d. split; [| exact Hrest].
      rewrite (request_below_400 _ _ _ _ _ _ Hsend Hlt), Hjson. reflexivity. }
  cbn zeta. split; apply Hop.
Qed.

Lemma read_field_iff (r : exn pyval) (key : pystr) (v : pyval) :
  (response ← r;
   body ← getitem response (u "data");
   getitem body key) = Return v
  <-> exists top body,
        r = Return (PDict top)
        /\ dict_lookup top (u "data") = Some (PDict body)
        /\ dict_lookup body key = Some v.
Proof.
  split.
  - destruct r as [response |]; [| discriminate]. cbn [mbind exn_bind].
    destruct response as [| | | | | | top];
      try (cbn [getitem mbind exn_bind]; discriminate).
    cbn [getitem].
    destruct (dict_lookup top (u "data")) as [body |] eqn:Hdata;
      [| discriminate].
    cbn [mbind exn_bind].
    destruct body as [| | | | | | body];
      try (cbn [getitem mbind exn_bind]; discriminate).
    cbn [getitem].
    destruct (dict_lookup body key) as [v0 |] eqn:Hkey; [| discriminate].
    intros [= <-]. exists top, body. auto.
  - intros [top [body [-> [Hdata Hkey]]]].
    cbn [mbind exn_bind getitem]. rewrite Hdata.
    cbn [mbind exn_bind getitem]. rewrite Hkey. reflexivity.
Qed.

(** [withdraw_from_stream], [subscribe] and [test_webhook] end to end.
    Each returns a value exactly when the transport answered its request
    with a status below 400 and a JSON object whose [data] is an object
    that has the field the operation reads ([withdrawnAmount],
    [subscriptionId], [result]); the value is that field as it is, of
    whatever type. *)
Theorem field_operations_return_iff self (id : pystr)
    (request : CreateSubscriptionRequest.t) (v : pyval) :
  let reads (key : pystr) (response : Response) :=
    (resp_status_code response < 400)%Z
    /\ exists top body,
         resp_json response = Return (PDict top)
         /\ dict_lookup top (u "data") = Some (PDict body)
         /\ dict_lookup body key = Some v in
  (withdraw_from_stream self id = Return v
   <-> exists response,
         session_request self
           (mkRequest (u "POST")
              (base_url self ++ u "/api/streams/" ++ id ++ u "/withdraw")
              None None (timeout self))
         = Return response
         /\ reads (u "withdrawnAmount") response)
  /\ (subscribe self request = Return v
      <-> exists response,
            session_request self
              (mkRequest (u "POST") (base_url self ++ u "/api/subscriptions")
                 (Some (PDict (subscribe_data request))) None (timeout self))
            = Return response
            /\ reads (u "subscriptionId") response)
  /\ (test_webhook self id = Return v
      <-> exists response,
            session_request self
              (mkRequest (u "POST") (base_url self ++ u "/api/webhooks/test")
                 (Some (PDict [(u "endpointId", PStr id)])) None
                 (timeout self))
            = Return response
            /\ reads (u "result") response).
Proof.
  assert (forall method endpoint data key,
             (response ← _request self method endpoint data None;
              body ← getitem response (u "data");
              getitem body key) = Return v
             <-> exists response,
                   session_request self
                     (request_of self method endpoint data None)
                   = Return response
                   /\ (resp_status_code response < 400)%Z
                   /\ exists top body,
                        resp_json response = Return (PDict top)
                        /\ dict_lookup top (u "data") = Some (PDict body)
                        /\ dict_lookup body key = Some v) as Hop.
  { intros method endpoint data key. rewrite read_field_iff. split.
    - intros [top [body [Hr Hrest]]].
      destruct (request_returns _ _ _ _ _ _ Hr)
        as [response [Hsend [Hlt Hjson]]].
      exists response. split; [exact Hsend |]. split; [exact Hlt |].
      exists top, body. auto.
    - intros [response [Hsend [Hlt [top [body [Hjson Hrest]]]]]].
      exists top, body. split; [| exact Hrest].
      rewrite (request_below_400 _ _ _ _ _ _ Hsend Hlt), Hjson. reflexivity. }
  cbn zeta. split; [apply Hop |]. split; apply Hop.
Qed.

End StreamOperations.

(** ** The webhook handler as a whole *)

Lemma value_inj (e1 e2 : types.WebhookEvent) :
  types.value e1 = types.value e2 -> e1 = e2.
Proof.
  destruct e1, e2; try reflexivity; vm_compute; discriminate.
Qed.

Section HandlerProperties.

Context {World : Type}.
Context `{Interpreter}.

Implicit Types (self : WebhookHandler World) (s : Env World).
Implicit Types (payload signature : pyval) (w : types.WebhookPayload).

Lemma process_webhook_before_dispatch self payload signature s :
  verify_signature self payload signature = Return false
  \/ (exists e, json_loads payload = Raise e)
  \/ (exists d e, json_loads payload = Return d
                   /\ WebhookPayload_of d = Raise e) ->
  snd (process_webhook self payload signature s) = s.
Proof.
  unfold process_webhook, eff_bind, lift, eff_try_except, eff_raise.
  intros [Hv | [[e Hj] | [d [e [Hj Hw]]]]].
  - rewrite Hv. reflexivity.
  - destruct (verify_signature_returns self payload signature) as [-> | ->];
      [| reflexivity].
    cbn [negb]. rewrite Hj. destruct (caught e); reflexivity.
  - destruct (verify_signature_returns self payload signature) as [-> | ->];
      [| reflexivity].
    cbn [negb]. rewrite Hj, Hw. destruct (caught e); reflexivity.
Qed.

Lemma dispatch_invoked self w s :
  exists l,
    invoked (snd (dispatch self w s)) = invoked s ++ l
    /\ (length l <= 2)%nat
    /\ (_event_handlers self = ∅ -> snd (dispatch self w s) = s)
    /\ (l = [] -> snd (dispatch self w s) = s)
    /\ Forall (fun i =>
                 (_event_handlers self !! types.value (types.event w)
                  = Some (inv_callback i)
                  /\ inv_args i = specific_args w)
                 \/ (_event_handlers self !! u "webhook"
                     = Some (inv_callback i)
                     /\ inv_args i = generic_args w)) l.
Proof.
  rewrite dispatch_steps. unfold call_specific, call_generic.
  destruct (_event_handlers self !! types.value (types.event w))
    as [h |] eqn:Hh.
  - rewrite call_eq.
    destruct (fst (cb_call h _ (world s))) as [e |].
    + exists [mkInvocation h (specific_args w)]. cbn [snd invoked length].
      split; [reflexivity |]. split; [lia |].
      split; [intros Hempty; rewrite Hempty, lookup_empty in Hh;
              discriminate |].
      split; [discriminate |].
      constructor; [| constructor]. left. split; [first [exact Hh | reflexivity] | reflexivity].
    + destruct (_event_handlers self !! u "webhook") as [g |] eqn:Hg.
      * rewrite call_eq. cbn [world invoked].
        exists [mkInvocation h (specific_args w);
                mkInvocation g (generic_args w)].
        split.
        { destruct (fst (cb_call g _ _)); cbn [snd invoked];
            rewrite <- app_assoc; reflexivity. }
        cbn [length]. split; [lia |].
        split; [intros Hempty; rewrite Hempty, lookup_empty in Hh;
                discriminate |].
        split; [discriminate |].
        constructor; [left; split; [first [exact Hh | reflexivity] | reflexivity] |].
        constructor; [right; split; [first [exact Hg | reflexivity] | reflexivity] |].
        constructor.
      * exists [mkInvocation h (specific_args w)]. cbn [snd invoked length].
        split; [reflexivity |]. split; [lia |].
        split; [intros Hempty; rewrite Hempty, lookup_empty in Hh;
                discriminate |].
        split; [discriminate |].
        constructor; [| constructor]. left. split; [first [exact Hh | reflexivity] | reflexivity].
  - unfold eff_ret.
    destruct (_event_handlers self !! u "webhook") as [g |] eqn:Hg.
    + rewrite call_eq.
      exists [mkInvocation g (generic_args w)].
      split; [destruct (fst (cb_call g _ _)); reflexivity |].
      cbn [length]. split; [lia |].
      split; [intros Hempty; rewrite Hempty, lookup_empty in Hg;
              discriminate |].
      split; [discriminate |].
      constructor; [| constructor]. right. split; [first [exact Hg | reflexivity] | reflexivity].
    + exists []. cbn [snd]. rewrite app_nil_r.
      split; [reflexivity |]. cbn [length]. split; [lia |].
      split; [reflexivity |]. split; [reflexivity |]. constructor.
Qed.

Lemma process_webhook_snd_dispatch self payload signature s d w :
  verify_signature self payload signature = Return true ->
  json_loads payload = Return d ->
  WebhookPayload_of d = Return w ->
  snd (process_webhook self payload signature s) = snd (dispatch self w s).
Proof.
  intros Hv Hj Hw. rewrite (process_webhook_dispatch _ _ _ _ _ _ Hv Hj Hw).
  destruct (dispatch self w s) as [[b | e] s']; [reflexivity |].
  destruct (caught e); reflexivity.
Qed.

(** What [process_webhook] does to the world. It invokes at most two
    callbacks, appending them to the invocations made before; when it
    invokes none, the world is as it was; it invokes one only after the
    signature was verified, the body parsed and the envelope read, and then
    only a callback registered for the event of the envelope, on the data
    and the envelope, or the generic callback, on the envelope; a handler
    with no callback registered changes nothing. *)
Theorem process_webhook_invocations self payload signature s :
  exists l,
    invoked (snd (process_webhook self payload signature s)) = invoked s ++ l
    /\ (length l <= 2)%nat
    /\ (l = [] -> snd (process_webhook self payload signature s) = s)
    /\ (_event_handlers self = ∅ ->
        snd (process_webhook self payload signature s) = s)
    /\ (l <> [] ->
        exists d w,
          verify_signature self payload signature = Return true
          /\ json_loads payload = Return d
          /\ WebhookPayload_of d = Return w
          /\ Forall (fun i =>
                       (_event_handlers self !! types.value (types.event w)
                        = Some (inv_callback i)
                        /\ inv_args i = specific_args w)
                       \/ (_event_handlers self !! u "webhook"
                           = Some (inv_callback i)
                           /\ inv_args i = generic_args w)) l).
Proof.
  assert (snd (process_webhook self payload signature s) = s ->
          exists l,
            invoked (snd (process_webhook self payload signature s))
            = invoked s ++ l
            /\ (length l <= 2)%nat
            /\ (l = [] -> snd (process_webhook self payload signature s) = s)
            /\ (_event_handlers self = ∅ ->
                snd (process_webhook self payload signature s) = s)
            /\ (l <> [] ->
                exists d w,
                  verify_signature self payload signature = Return true
                  /\ json_loads payload = Return d
                  /\ WebhookPayload_of d = Return w
                  /\ Forall (fun i =>
                               (_event_handlers self
                                  !! types.value (types.event w)
                                = Some (inv_callback i)
                                /\ inv_args i = specific_args w)
                               \/ (_event_handlers self !! u "webhook"
                                   = Some (inv_callback i)
                                   /\ inv_args i = generic_args w)) l))
    as Hsame.
  { intros Hs. exists []. rewrite Hs, app_nil_r.
    split; [reflexivity |]. split; [cbn; lia |].
    split; [reflexivity |]. split; [reflexivity |].
    intros Hne. contradiction. }
  destruct (verify_signature_returns self payload signature) as [Hv | Hv].
  2: { apply Hsame, process_webhook_before_dispatch. auto. }
  destruct (json_loads payload) as [d | e] eqn:Hj.
  2: { apply Hsame, process_webhook_before_dispatch. right. left. eauto. }
  destruct (WebhookPayload_of d) as [w | e] eqn:Hw.
  2: { apply Hsame, process_webhook_before_dispatch. right. right. eauto. }
  rewrite (process_webhook_snd_dispatch _ _ _ _ _ _ Hv Hj Hw).
  destruct (dispatch_invoked self w s)
    as [l [Hl [Hlen [Hempty [Hnil Hall]]]]].
  exists l. split; [exact Hl |]. split; [exact Hlen |].
  split; [exact Hnil |]. split; [exact Hempty |].
  intros _. exists d, w. auto.
Qed.



(** Registrations for different events, and the generic registration, do
    not depend on the order in which they are made; and of two generic
    registrations the last one counts. *)
Theorem on_event_commutes self (e1 e2 : types.WebhookEvent)
    (h1 h2 g g' : Callback World) :
  e1 <> e2 ->
  on_event (on_event self e1 h1) e2 h2 = on_event (on_event self e2 h2) e1 h1
  /\ on_webhook (on_event self e1 h1) g = on_event (on_webhook self g) e1 h1
  /\ on_webhook (on_webhook self g) g' = on_webhook self g'.
Proof.
  intros Hne. unfold on_event, on_webhook. cbn [secret _event_handlers].
  split; [| split].
  - f_equal. apply insert_insert_ne.
    intros Heq. apply Hne. apply value_inj. congruence.
  - f_equal. apply insert_insert_ne.
    intros Heq. eapply event_value_not_reserved. symmetry. exact Heq.
  - f_equal. apply insert_insert_eq.
Qed.

(** The values of the events and [WebhookEvent(value)] are inverse to each
    other: the constructor returns an event exactly on the value of that
    event, distinct events have distinct values, no value is the key of the
    generic callback, and the values that [create_webhook] sends read back
    as the events of the request. *)
Theorem WebhookEvent_of_value (v : pyval) (event : types.WebhookEvent)
    (request : CreateWebhookRequest.t) :
  (WebhookEvent_of v = Return event <-> v = PStr (types.value event))
  /\ (forall event', types.value event = types.value event' ->
                     event = event')
  /\ types.value event <> u "webhook"
  /\ (exists sent,
        dict_lookup (create_webhook_data request) (u "events")
        = Some (PList sent)
        /\ comprehension WebhookEvent_of sent
           = Return (CreateWebhookRequest.events request)).
Proof.
  split; [| split; [| split]].
  - split; [apply WebhookEvent_of_returns |].
    intros ->. destruct event; vm_compute; reflexivity.
  - apply value_inj.
  - apply event_value_not_reserved.
  - destruct request as [url events description].
    exists (List.map (fun event => PStr (types.value event)) events).
    split; [reflexivity |].
    cbn [CreateWebhookRequest.events].
    apply comprehension_returns.
    induction events as [| e events IH]; constructor; [| exact IH].
    destruct e; vm_compute; reflexivity.
Qed.

End HandlerProperties.

(** ** Decoding the body *)



Lemma decoded_returns (c : N) (r : exn pystr) :
  (exists t, r = Return t) -> exists t, decoded c r = Return t.
Proof. intros [t ->]. eexists. reflexivity. Qed.

Lemma utf8_decode_replace_returns (n : nat) :
  forall (pos : nat) (whole bs : pybytes),
    (length bs <= n)%nat ->
    exists t, utf8_decode_from Replace pos whole bs = Return t.
Proof.
  induction n as [| n IH]; intros pos whole bs Hlen;
    destruct bs as [| b rest]; cbn [length] in Hlen; try lia;
    try (eexists; reflexivity).
  cbn [utf8_decode_from].
  destruct (b <? 128); [apply decoded_returns, IH; lia |].
  destruct (lead_byte b) as [[k [lo hi]] |];
    [| apply decoded_returns, IH; lia].
  destruct rest as [| c1 rest1]; [eexists; reflexivity |].
  destruct (negb ((lo <=? c1) && (c1 <=? hi)));
    [apply decoded_returns, IH; cbn [length] in *; lia |].
  cbn [length] in Hlen.
  destruct k as [| [| k]].
  - destruct rest1 as [| c2 rest2]; [eexists; reflexivity |].
    destruct (negb (is_continuation c2));
      [apply decoded_returns, IH; cbn [length] in *; lia |].
    cbn [length] in Hlen.
    destruct rest2 as [| c3 rest3]; [eexists; reflexivity |].
    destruct (negb (is_continuation c3));
      apply decoded_returns, IH; cbn [length] in *; lia.
  - apply decoded_returns, IH; lia.
  - destruct rest1 as [| c2 rest2]; [eexists; reflexivity |].
    destruct (negb (is_continuation c2));
      [apply decoded_returns, IH; cbn [length] in *; lia |].
    cbn [length] in Hlen.
    destruct k as [| k]; [apply decoded_returns, IH; lia |].
    destruct rest2 as [| c3 rest3]; [eexists; reflexivity |].
    destruct (negb (is_continuation c3));
      apply decoded_returns, IH; cbn [length] in *; lia.
Qed.




Lemma get_data_as_text_returns (raw : pybytes) :
  utf8_decode_from Replace 0 raw raw = Return (get_data_as_text raw).
Proof.
  unfold get_data_as_text.
  destruct (utf8_decode_replace_returns (length raw) 0 raw raw (le_n _))
    as [t ->].
  reflexivity.
Qed.


Section Adapters.

Context {World : Type}.
Context `{Interpreter}.

Implicit Types (self : WebhookHandler World) (s : Env World).

Lemma process_webhook_true self payload signature s b s' :
  process_webhook self payload signature s = (Return b, s') -> b = true.
Proof.
  unfold process_webhook, eff_bind, lift, eff_try_except, eff_raise.
  destruct (verify_signature_returns self payload signature) as [-> | ->];
    [| discriminate].
  cbn [negb].
  destruct (json_loads payload) as [d | e1].
  2: { destruct (caught e1); discriminate. }
  destruct (WebhookPayload_of d) as [w | e2].
  2: { destruct (caught e2); discriminate. }
  fold (call_specific self w). fold (call_generic self w).
  change (match dispatch self w s with
          | (Return a, s0) => (Return a, s0)
          | (Raise e, s0) =>
              if caught e then (Raise (invalid_payload e), s0)
              else (Raise e, s0)
          end = (Return b, s') -> b = true).
  destruct (dispatch self w s) as [[b0 | e] s0] eqn:Hd.
  - intros [= <- <-]. eapply dispatch_returns_true; eauto.
  - destruct (caught e); discriminate.
Qed.

(** How the three adapters answer an outcome of [process_webhook]. *)
Lemma flask_handler_eq self (sg body : pystr) s :
  sg <> [] ->
  flask_handler self (mkFlaskRequest (Some sg) body) s
  = match process_webhook self (PStr body) (PStr sg) s with
    | (Return _, s') => (Return received_response, s')
    | (Raise e, s') =>
        if isinstance e BitFlowError then
          match message e with
          | Some msg => (Return (error_response msg 400), s')
          | None =>
              (Raise (builtin_exc AttributeError
                        "object has no attribute 'message'"), s')
          end
        else if isinstance e Exception then
          (Return (error_response (PStr (u "Internal server error")) 500), s')
        else (Raise e, s')
    end.
Proof.
  intros Hsg. unfold flask_handler, flask_handle_webhook.
  cbn [signature_header body_text].
  destruct sg as [| c sg]; [contradiction |]. cbn [str_truthy negb].
  unfold eff_try_except, eff_bind.
  destruct (process_webhook self (PStr body) (PStr (c :: sg)) s)
    as [[b | e] s'] eqn:Hp.
  - rewrite (process_webhook_true _ _ _ _ _ _ Hp). reflexivity.
  - destruct (isinstance e BitFlowError); cbn [orb].
    + unfold message_of. destruct (message e); reflexivity.
    + destruct (isinstance e Exception); reflexivity.
Qed.

Lemma invalid_signature_BitFlowError :
  isinstance invalid_signature BitFlowError = true
  /\ message invalid_signature = Some (PStr (u "Invalid webhook signature")).
Proof. split; reflexivity. Qed.

(** The Flask view on a request that carries a signature. It answers 200
    exactly when [process_webhook] returned; every answer has status 200,
    400 or 500, and the world after the view is the world after
    [process_webhook]. A signature that does not verify is answered with
    400 and the message of the error, before any callback is invoked; an
    exception that is an [Exception] but no [BitFlowError] (what a callback
    raised, or a [TypeError] of the envelope) is answered with 500 and a
    fixed message that shows nothing of the exception. *)
Theorem flask_handler_status self (sg body : pystr) s :
  sg <> [] ->
  let request := mkFlaskRequest (Some sg) body in
  let processed := process_webhook self (PStr body) (PStr sg) s in
  snd (flask_handler self request s) = snd processed
  /\ (forall response,
        fst (flask_handler self request s) = Return response ->
        (response_status response = 200%Z
         \/ response_status response = 400%Z
         \/ response_status response = 500%Z)
        /\ (response_status response = 200%Z
            <-> fst processed = Return true))
  /\ (verify_signature self (PStr body) (PStr sg) = Return false ->
      flask_handler self request s
      = (Return (error_response (PStr (u "Invalid webhook signature")) 400),
         s))
  /\ (forall e,
        fst processed = Raise e ->
        isinstance e BitFlowError = false ->
        isinstance e Exception = true ->
        fst (flask_handler self request s)
        = Return (error_response (PStr (u "Internal server error")) 500)).
Proof.
  intros Hsg. cbn zeta. rewrite (flask_handler_eq _ _ _ _ Hsg).
  split; [| split; [| split]].
  - destruct (process_webhook self (PStr body) (PStr sg) s)
      as [[b | e] s']; [reflexivity |].
    destruct (isinstance e BitFlowError);
      [destruct (message e); reflexivity |].
    destruct (isinstance e Exception); reflexivity.
  - intros response.
    destruct (process_webhook self (PStr body) (PStr sg) s)
      as [[b | e] s'] eqn:Hp; cbn [fst].
    + intros [= <-]. rewrite (process_webhook_true _ _ _ _ _ _ Hp).
      split; [left; reflexivity |]. split; reflexivity.
    + destruct (isinstance e BitFlowError).
      * destruct (message e); [| discriminate].
        intros [= <-]. cbn [error_response response_status].
        split; [right; left; reflexivity |]. split; discriminate.
      * destruct (isinstance e Exception); [| discriminate].
        intros [= <-]. cbn [error_response response_status].
        split; [right; right; reflexivity |]. split; discriminate.
  - intros Hv. unfold process_webhook, eff_bind, lift. rewrite Hv.
    reflexivity.
  - intros e. destruct (process_webhook self (PStr body) (PStr sg) s)
      as [[b | e0] s']; cbn [fst]; [discriminate |].
    intros [= ->] -> ->. reflexivity.
Qed.


(** Where Django and FastAPI differ from Flask. A Django request that is
    no POST is answered by [HttpResponseNotAllowed] for POST, whatever its
    headers and body. A body that cannot be decoded as UTF-8 is, under a
    signature header, an internal error: Django answers 500 and FastAPI
    raises an [HTTPException] of status 500, and [process_webhook] is not
    reached, so the signature is not looked at. *)
Theorem undecodable_body_is_internal_error self (method sg : pystr)
    (header : option pystr) (decoded : exn pystr) (e : PyExc) s :
  (method <> u "POST" ->
   django_handler self (mkDjangoRequest method header decoded) s
   = (Return (HttpResponseNotAllowed [u "POST"]), s))
  /\ (sg <> [] ->
      exc_type e = UnicodeDecodeError ->
      django_handler self
        (mkDjangoRequest (u "POST") (Some sg) (Raise e)) s
      = (Return (DjangoJson
                   (error_response (PStr (u "Internal server error")) 500)),
         s)
      /\ fastapi_handler self (mkFastAPIRequest (Some sg) (Raise e)) s
         = (Raise (new_HTTPException 500 (PStr (u "Internal server error"))),
            s)).
Proof.
  split.
  - intros Hmethod. unfold django_handler, django_webhook_view.
    cbn [django_method]. unfold pystr_eqb.
    rewrite bool_decide_eq_false_2 by exact Hmethod. reflexivity.
  - intros Hsg Htype.
    unfold django_handler, django_webhook_view, fastapi_handler,
      fastapi_handle_webhook.
    cbn [django_method meta_signature django_body_decoded fastapi_signature
         fastapi_body_decoded].
    change (pystr_eqb (u "POST") (u "POST")) with true. cbn [negb].
    destruct sg as [| c sg]; [contradiction |]. cbn [str_truthy negb].
    unfold eff_try_except, eff_bind, lift, isinstance. rewrite Htype.
    split; reflexivity.
Qed.


End Adapters.

(** * The properties on the sample requests *)

Section Samples.

Local Existing Instance reference.interpreter.

(** The sample body parses to the sample envelope, and its signature is
    the one Python's [hmac] gives. *)
Example sample_body_parses :
  json_loads (PStr sample.body)
  ≫= WebhookPayload_of = Return sample.envelope.
Proof. vm_compute. reflexivity. Qed.

Example sample_signature :
  sample.signature
  = PStr (u "4bcb9140751c2639f906223bc7ac3604602458e1f64dccf51b375fc942ea254f").
Proof. vm_compute. reflexivity. Qed.

(** The scenario of the test suite's [test_event_handlers]: callbacks for
    [stream.created] and [payment.received] and a generic one; the first
    and the last are invoked. *)
Example test_event_handlers :
  process_webhook
    (on_webhook
       (on_payment_received
          (on_stream_created sample.handler (sample.returns 1))
          (sample.returns 2))
       (sample.returns 3))
    (PStr sample.body) sample.signature sample.start
  = (Return true,
     mkEnv 2%nat
       [mkInvocation (sample.returns 1)
          [ArgVal (types.data sample.envelope); ArgPayload sample.envelope];
        mkInvocation (sample.returns 3) [ArgPayload sample.envelope]]).
Proof. vm_compute. reflexivity. Qed.

(** C1 on the sample: a wrong signature, with both callbacks registered. *)
Lemma process_webhook_invalid_signature_sample :
  verify_signature (sample.registered (sample.returns 1) (sample.returns 2))
    (PStr sample.body) (PStr (u "invalid")) = Return false
  /\ process_webhook (sample.registered (sample.returns 1) (sample.returns 2))
       (PStr sample.body) (PStr (u "invalid")) sample.start
     = (Raise invalid_signature, sample.start).
Proof.
  assert (Hv : verify_signature
                 (sample.registered (sample.returns 1) (sample.returns 2))
                 (PStr sample.body) (PStr (u "invalid")) = Return false)
    by (vm_compute; reflexivity).
  split; [exact Hv |].
  exact (proj1 (process_webhook_invalid_signature _ _ _ sample.start Hv)).
Defined.

(** C2 on the sample: the digest of the body verifies; the digest with one
    bit of its first digit flipped ([4] to [5]) does not; and the body with
    one bit of its first character flipped (the brace to [z]) has another
    digest, so that the digest of the body does not verify it. *)
Lemma verify_signature_iff_hmac_sample :
  hmac_sha256_hex sample.secret sample.body
  = Some (u "4bcb9140751c2639f906223bc7ac3604602458e1f64dccf51b375fc942ea254f")
  /\ verify_signature sample.handler (PStr sample.body) sample.signature
     = Return true
  /\ verify_signature sample.handler (PStr sample.body)
       (PStr (u "5bcb9140751c2639f906223bc7ac3604602458e1f64dccf51b375fc942ea254f"))
     = Return false
  /\ verify_signature sample.handler (PStr (122 :: tail sample.body))
       sample.signature
     = Return false.
Proof.
  assert (Hhex : hmac_sha256_hex sample.secret sample.body
                 = Some (u "4bcb9140751c2639f906223bc7ac3604602458e1f64dccf51b375fc942ea254f"))
    by (vm_compute; reflexivity).
  assert (Hhex' : hmac_sha256_hex sample.secret (122 :: tail sample.body)
                  = Some (u "4d46db96d27bd33e6d9a7f572d8c2a3d0aa119ace75ba150855ceb759f7143f7"))
    by (vm_compute; reflexivity).
  destruct (proj2 (verify_signature_iff_hmac (World := nat) ∅
                     sample.secret sample.body sample.signature) _ Hhex)
    as (_ & _ & Hok & Hother).
  destruct (proj2 (verify_signature_iff_hmac (World := nat) ∅
                     sample.secret (122 :: tail sample.body)
                     sample.signature) _ Hhex')
    as (_ & _ & _ & Hmutated).
  split; [exact Hhex |]. unfold sample.handler, new_WebhookHandler.
  rewrite sample_signature.
  split; [exact Hok |].
  split; [apply Hother | apply Hmutated]; vm_compute; discriminate.
Defined.

(** C8 on samples: a secret that is not text, and a payload holding a lone
    surrogate, make the [try] block raise; the result is [False]. *)
Lemma verify_signature_fails_closed_sample :
  verify_signature_try (new_WebhookHandler (World := nat) PNone)
    (PStr sample.body) sample.signature
  = Raise (builtin_exc AttributeError
             "'NoneType' object has no attribute 'encode'")
  /\ verify_signature (new_WebhookHandler (World := nat) PNone)
       (PStr sample.body) sample.signature = Return false
  /\ verify_signature_try sample.handler (PStr [0xD800]) sample.signature
     = Raise (mkExc UnicodeEncodeError
                [PStr (u "utf-8"); PStr [0xD800]; PInt 0; PInt 1;
                 PStr (u "surrogates not allowed")] None None None None None)
  /\ verify_signature sample.handler (PStr [0xD800]) sample.signature
     = Return false.
Proof.
  assert (Hnone : verify_signature_try (new_WebhookHandler (World := nat) PNone)
                    (PStr sample.body) sample.signature
                  = Raise (builtin_exc AttributeError
                             "'NoneType' object has no attribute 'encode'"))
    by (vm_compute; reflexivity).
  assert (Hsurrogate :
            verify_signature_try sample.handler (PStr [0xD800])
              sample.signature
            = Raise (mkExc UnicodeEncodeError
                       [PStr (u "utf-8"); PStr [0xD800]; PInt 0; PInt 1;
                        PStr (u "surrogates not allowed")]
                       None None None None None))
    by (vm_compute; reflexivity).
  split; [exact Hnone |].
  split; [exact (proj2 (verify_signature_fails_closed _ _ _) _ Hnone) |].
  split; [exact Hsurrogate |].
  exact (proj2 (verify_signature_fails_closed _ _ _) _ Hsurrogate).
Defined.

(** C10 on the sample: the call returns, and what it returns is [True]. *)
Lemma process_webhook_returns_true_sample :
  process_webhook (sample.registered (sample.returns 1) (sample.returns 2))
    (PStr sample.body) sample.signature sample.start
  = (Return true,
     mkEnv 2%nat
       [mkInvocation (sample.returns 1)
          [ArgVal (types.data sample.envelope); ArgPayload sample.envelope];
        mkInvocation (sample.returns 2) [ArgPayload sample.envelope]])
  /\ true = true.
Proof.
  assert (Hrun :
    process_webhook (sample.registered (sample.returns 1) (sample.returns 2))
      (PStr sample.body) sample.signature sample.start
    = (Return true,
       mkEnv 2%nat
         [mkInvocation (sample.returns 1)
            [ArgVal (types.data sample.envelope); ArgPayload sample.envelope];
          mkInvocation (sample.returns 2) [ArgPayload sample.envelope]]))
    by (vm_compute; reflexivity).
  split; [exact Hrun |].
  exact (proj1 (process_webhook_returns_true _) _ _ _ _ _ Hrun).
Defined.

Example sample_body_loads :
  json_loads (PStr sample.body) = Return sample.parsed.
Proof. vm_compute. reflexivity. Qed.

Example sample_envelope :
  WebhookPayload_of sample.parsed = Return sample.envelope.
Proof. vm_compute. reflexivity. Qed.

Example sample_signature_valid (specific generic : Callback nat) :
  verify_signature (sample.registered specific generic)
    (PStr sample.body) sample.signature = Return true.
Proof. vm_compute. reflexivity. Qed.

(** C3 on a callback the code mishandles: the payload is validly signed
    and is an envelope, the callback for [stream.created] raises a
    [KeyError] of its own, and what leaves [process_webhook] is not that
    exception but an error that calls the payload invalid. *)
Lemma callback_key_error_becomes_invalid_payload :
  verify_signature
    (sample.registered (sample.raises 1 sample.key_error) (sample.returns 2))
    (PStr sample.body) sample.signature = Return true
  /\ call_specific
       (sample.registered (sample.raises 1 sample.key_error)
          (sample.returns 2))
       sample.envelope sample.start
     = (Raise sample.key_error,
        mkEnv 1%nat
          [mkInvocation (sample.raises 1 sample.key_error)
             [ArgVal (types.data sample.envelope);
              ArgPayload sample.envelope]])
  /\ process_webhook
       (sample.registered (sample.raises 1 sample.key_error)
          (sample.returns 2))
       (PStr sample.body) sample.signature sample.start
     = (Raise (exceptions.new_BitFlowError
                 (PStr (u "Invalid webhook payload: 'amount'"))
                 (PStr (u "INVALID_PAYLOAD")) PNone),
        mkEnv 1%nat
          [mkInvocation (sample.raises 1 sample.key_error)
             [ArgVal (types.data sample.envelope);
              ArgPayload sample.envelope]])
  /\ exceptions.new_BitFlowError
       (PStr (u "Invalid webhook payload: 'amount'"))
       (PStr (u "INVALID_PAYLOAD")) PNone
     <> sample.key_error.
Proof.
  split; [vm_compute; reflexivity |].
  split; [vm_compute; reflexivity |].
  split; [vm_compute; reflexivity |].
  vm_compute. discriminate.
Qed.

(** On the sample: a [RuntimeError] raised by the callback for
    [stream.created] leaves [process_webhook] as it is. *)
Lemma callback_exception_propagates_sample :
  dispatch
    (sample.registered (sample.raises 1 sample.runtime_error)
       (sample.returns 2))
    sample.envelope sample.start
  = (Raise sample.runtime_error,
     mkEnv 1%nat
       [mkInvocation (sample.raises 1 sample.runtime_error)
          [ArgVal (types.data sample.envelope); ArgPayload sample.envelope]])
  /\ process_webhook
       (sample.registered (sample.raises 1 sample.runtime_error)
          (sample.returns 2))
       (PStr sample.body) sample.signature sample.start
     = (Raise sample.runtime_error,
        mkEnv 1%nat
          [mkInvocation (sample.raises 1 sample.runtime_error)
             [ArgVal (types.data sample.envelope);
              ArgPayload sample.envelope]]).
Proof.
  assert (Hd : dispatch
                 (sample.registered (sample.raises 1 sample.runtime_error)
                    (sample.returns 2))
                 sample.envelope sample.start
               = (Raise sample.runtime_error,
                  mkEnv 1%nat
                    [mkInvocation (sample.raises 1 sample.runtime_error)
                       [ArgVal (types.data sample.envelope);
                        ArgPayload sample.envelope]]))
    by (vm_compute; reflexivity).
  split; [exact Hd |].
  exact (proj1 (callback_exception_propagates _ _ _ _ _ _ _ _
                  (sample_signature_valid _ _) sample_body_loads
                  sample_envelope Hd eq_refl eq_refl)).
Defined.

(** C5 on a body the code mishandles: [[]] is JSON, it has none of the four
    fields, it is validly signed, and [process_webhook] raises a
    [TypeError] instead of the invalid-payload error. *)
Lemma process_webhook_array_body_type_error :
  verify_signature (sample.registered (sample.returns 1) (sample.returns 2))
    (PStr (u "[]")) (reference.sign sample.secret (u "[]")) = Return true
  /\ json_loads (PStr (u "[]")) = Return (PList [])
  /\ process_webhook
       (sample.registered (sample.returns 1) (sample.returns 2))
       (PStr (u "[]")) (reference.sign sample.secret (u "[]")) sample.start
     = (Raise (builtin_exc TypeError
                 "list indices must be integers or slices, not str"),
        sample.start).
Proof.
  split; [vm_compute; reflexivity |].
  split; [vm_compute; reflexivity |].
  vm_compute. reflexivity.
Qed.

(** The refusal of malformed bodies, on samples: text that is not JSON, and
    an object whose [event] names no member. *)
Lemma process_webhook_invalid_payload_sample :
  (exists e,
     process_webhook
       (sample.registered (sample.returns 1) (sample.returns 2))
       (PStr (u "not json")) (reference.sign sample.secret (u "not json"))
       sample.start
     = (Raise (invalid_payload e), sample.start)
     /\ exc_type (invalid_payload e) = BitFlowError
     /\ code (invalid_payload e) = Some (PStr (u "INVALID_PAYLOAD")))
  /\ (exists e,
        process_webhook
          (sample.registered (sample.returns 1) (sample.returns 2))
          (PStr (reference.dq "{'id': 1, 'event': 'stream.paused', 'data': {}, 'timestamp': 2}"))
          (reference.sign sample.secret
             (reference.dq "{'id': 1, 'event': 'stream.paused', 'data': {}, 'timestamp': 2}"))
          sample.start
        = (Raise (invalid_payload e), sample.start)
        /\ exc_type (invalid_payload e) = BitFlowError
        /\ code (invalid_payload e) = Some (PStr (u "INVALID_PAYLOAD"))).
Proof.
  split.
  - apply process_webhook_invalid_payload; [vm_compute; reflexivity |].
    left. eexists. split; vm_compute; reflexivity.
  - apply process_webhook_invalid_payload; [vm_compute; reflexivity |].
    right.
    exists [(u "id", PInt 1); (u "event", PStr (u "stream.paused"));
            (u "data", PDict []); (u "timestamp", PInt 2)].
    split; [vm_compute; reflexivity |].
    do 4 right. exists (PStr (u "stream.paused")).
    split; [vm_compute; reflexivity |].
    intros []; vm_compute; discriminate.
Defined.

(** C6 fails on the code: the callback for [stream.created] raises, and the
    registered generic callback is not invoked: the log holds the one
    invocation. *)
Lemma generic_callback_skipped_after_raise :
  verify_signature
    (sample.registered (sample.raises 1 sample.runtime_error)
       (sample.returns 2))
    (PStr sample.body) sample.signature = Return true
  /\ (json_loads (PStr sample.body) ≫= WebhookPayload_of)
     = Return sample.envelope
  /\ _event_handlers
       (sample.registered (sample.raises 1 sample.runtime_error)
          (sample.returns 2)) !! u "webhook"
     = Some (sample.returns 2)
  /\ invoked
       (snd (process_webhook
               (sample.registered (sample.raises 1 sample.runtime_error)
                  (sample.returns 2))
               (PStr sample.body) sample.signature sample.start))
     = [mkInvocation (sample.raises 1 sample.runtime_error)
          [ArgVal (types.data sample.envelope); ArgPayload sample.envelope]].
Proof.
  split; [vm_compute; reflexivity |].
  split; [vm_compute; reflexivity |].
  split; vm_compute; reflexivity.
Qed.

(** C6 as amended, on the sample: both callbacks return, and the generic
    one is invoked with the envelope after the specific one. *)
Lemma generic_callback_invoked_sample :
  call_specific (sample.registered (sample.returns 1) (sample.returns 2))
    sample.envelope sample.start
  = (Return tt,
     mkEnv 1%nat
       [mkInvocation (sample.returns 1)
          [ArgVal (types.data sample.envelope); ArgPayload sample.envelope]])
  /\ invoked
       (snd (process_webhook
               (sample.registered (sample.returns 1) (sample.returns 2))
               (PStr sample.body) sample.signature sample.start))
     = [mkInvocation (sample.returns 1)
          [ArgVal (types.data sample.envelope); ArgPayload sample.envelope]]
       ++ [mkInvocation (sample.returns 2) [ArgPayload sample.envelope]].
Proof.
  assert (Hspec :
    call_specific (sample.registered (sample.returns 1) (sample.returns 2))
      sample.envelope sample.start
    = (Return tt,
       mkEnv 1%nat
         [mkInvocation (sample.returns 1)
            [ArgVal (types.data sample.envelope);
             ArgPayload sample.envelope]]))
    by (vm_compute; reflexivity).
  assert (Hg : _event_handlers
                 (sample.registered (sample.returns 1) (sample.returns 2))
                 !! u "webhook" = Some (sample.returns 2))
    by (vm_compute; reflexivity).
  split; [exact Hspec |].
  exact (proj1 (generic_callback_invoked _ _ _ _ _ _ _ _
                  (sample_signature_valid _ _) sample_body_loads
                  sample_envelope Hg Hspec)).
Defined.

(** C7 on the sample: two registrations for [stream.created], no generic
    callback; the one invocation is of the second. *)
Lemma on_event_last_registration_wins_sample :
  invoked
    (snd (process_webhook
            (on_event
               (on_event sample.handler types.STREAM_CREATED
                  (sample.returns 1))
               types.STREAM_CREATED (sample.returns 3))
            (PStr sample.body) sample.signature sample.start))
  = [mkInvocation (sample.returns 3)
       [ArgVal (types.data sample.envelope); ArgPayload sample.envelope]].
Proof.
  assert (Hv : verify_signature sample.handler (PStr sample.body)
                 sample.signature = Return true)
    by (vm_compute; reflexivity).
  exact (proj2 (proj2 (proj2 (proj2
           (on_event_last_registration_wins sample.handler
              types.STREAM_CREATED (sample.returns 1) (sample.returns 3)
              (sample.returns 2)))))
           _ _ sample.start _ _ Hv sample_body_loads sample_envelope eq_refl).
Defined.

(** C4 on the filters of the claim: with [status=active], [limit=10] and
    [offset=0], the parameters [get_streams] sends are [status] and [limit]
    only, for zero is false; the query reads [status=active&limit=10], not
    [status=active&limit=10&offset=0]. *)
Lemma get_streams_drops_offset_zero :
  get_streams_params
    (Some (types.mkStreamFilters (Some 10%Z) (Some 0%Z) (Some types.ACTIVE)))
  = [(u "status", PStr (u "active")); (u "limit", PInt 10)]
  /\ get_streams sample.echo_client
       (Some (types.mkStreamFilters (Some 10%Z) (Some 0%Z)
                (Some types.ACTIVE)))
     = Return (types.mkStreamsResponse []
                 (PDict [(u "status", PStr (u "active"));
                         (u "limit", PInt 10)]))
  /\ urlencode
       (get_streams_params
          (Some (types.mkStreamFilters (Some 10%Z) (Some 0%Z)
                   (Some types.ACTIVE))))
     = Some (u "status=active&limit=10")
  /\ urlencode [(u "status", PStr (u "active")); (u "limit", PInt 10);
                (u "offset", PInt 0)]
     = Some (u "status=active&limit=10&offset=0").
Proof.
  split; [vm_compute; reflexivity |].
  split; [vm_compute; reflexivity |].
  split; vm_compute; reflexivity.
Qed.

(** C9 on a response the code mishandles: status 429 with a [Retry-After]
    that is an HTTP date. [int] raises a [ValueError], and that is what
    leaves [_request], not a [RateLimitError]. *)
Lemma request_429_http_date_value_error :
  _request
    (sample.client
       (sample.too_many_requests
          [(u "Retry-After", u "Wed, 21 Oct 2015 07:28:00 GMT")]))
    (u "POST") (u "/api/streams") None None
  = Raise (mkExc ValueError
             [PStr (u "invalid literal for int() with base 10: 'Wed, 21 Oct 2015 07:28:00 GMT'")]
             None None None None None).
Proof. vm_compute. reflexivity. Qed.

(** The rate-limit error on the two responses of the specification:
    [Retry-After: 30], and no such header. *)
Lemma request_429_rate_limit_sample :
  (exists e,
     _request
       (sample.client (sample.too_many_requests [(u "Retry-After", u "30")]))
       (u "POST") (u "/api/streams") None None = Raise e
     /\ exc_type e = RateLimitError
     /\ retry_after e = Some (PInt 30))
  /\ (exists e,
        _request (sample.client (sample.too_many_requests []))
          (u "POST") (u "/api/streams") None None = Raise e
        /\ exc_type e = RateLimitError
        /\ retry_after e = Some PNone).
Proof.
  split.
  - apply (proj1 (request_429_rate_limit
                    (sample.client
                       (sample.too_many_requests [(u "Retry-After", u "30")]))
                    (u "POST") (u "/api/streams") None None
                    (sample.too_many_requests [(u "Retry-After", u "30")])
                    eq_refl eq_refl) (u "30") 30%Z).
    + vm_compute. reflexivity.
    + vm_compute. discriminate.
    + vm_compute. reflexivity.
  - apply (proj2 (request_429_rate_limit
                    (sample.client (sample.too_many_requests []))
                    (u "POST") (u "/api/streams") None None
                    (sample.too_many_requests []) eq_refl eq_refl)).
    left. reflexivity.
Defined.

End Samples.

(** * The further properties on sample requests *)

Section FurtherSamples.

Local Existing Instance reference.interpreter.

Example fixture_signature_valid (specific generic : Callback nat) :
  verify_signature (sample.registered specific generic)
    (PStr sample.body) (PStr fixture.signature_text) = Return true.
Proof. vm_compute. reflexivity. Qed.

(** A 404 with an error object is a [NotFoundError] that carries the
    message of the server. *)
Lemma request_error_of_status_sample :
  exists e,
    _request (sample.client fixture.not_found) (u "GET")
      (u "/api/streams/nonexistent") None None = Raise e
    /\ isinstance e BitFlowError = true
    /\ status_code e = Some (PInt 404)
    /\ exc_type e = NotFoundError
    /\ message e = Some (PStr (u "Stream not found")).
Proof.
  destruct (request_error_of_status
              (sample.client fixture.not_found) (u "GET")
              (u "/api/streams/nonexistent") None None fixture.not_found)
    as [e [Hr [Hb [Hs [Ht [_ Hm]]]]]].
  - reflexivity.
  - vm_compute. discriminate.
  - vm_compute. discriminate.
  - right. eexists. split; [reflexivity |]. right. eexists.
    vm_compute. reflexivity.
  - exists e. split; [exact Hr |]. split; [exact Hb |].
    split; [exact Hs |]. split; [exact Ht |].
    exact (Hm _ ltac:(vm_compute; discriminate) eq_refl).
Defined.

(** A 502 whose body is no JSON is reported as a [NetworkError]; a 500
    whose [error] is a text leaves as an [AttributeError]. *)
Lemma request_unexpected_body_sample :
  _request (sample.client fixture.bad_gateway) (u "GET") (u "/api/streams")
    None None
  = Raise (exceptions.new_NetworkError
             (PStr (u "Network request failed: "
                    ++ exc_str fixture.not_json)))
  /\ exists e,
       _request (sample.client fixture.error_text) (u "GET")
         (u "/api/streams") None None = Raise e
       /\ exc_type e = AttributeError
       /\ isinstance e BitFlowError = false.
Proof.
  split.
  - apply (proj1 (request_unexpected_body
                    (sample.client fixture.bad_gateway) (u "GET")
                    (u "/api/streams") None None fixture.bad_gateway
                    eq_refl ltac:(vm_compute; discriminate)
                    ltac:(vm_compute; discriminate))
             fixture.not_json eq_refl).
  - apply (proj2 (request_unexpected_body
                    (sample.client fixture.error_text) (u "GET")
                    (u "/api/streams") None None fixture.error_text
                    eq_refl ltac:(vm_compute; discriminate)
                    ltac:(vm_compute; discriminate))
             (PDict [(u "error", PStr (u "Internal Server Error"))])).
    + vm_compute. discriminate.
    + reflexivity.
    + right. eexists. eexists. split; [reflexivity |].
      split; [vm_compute; reflexivity | discriminate].
Defined.

(** The page of the tests is read as its one stream; a page with a stream
    that lacks [endTime] behind it gives no stream at all but the
    [KeyError] of that item. *)
Lemma get_streams_all_or_nothing_sample :
  get_streams (sample.client (fixture.ok (PDict (fixture.page
                                                   [fixture.stream_data]))))
    None
  = Return (types.mkStreamsResponse [fixture.stream] fixture.pagination)
  /\ get_streams
       (sample.client
          (fixture.ok (PDict (fixture.page [fixture.stream_data;
                                            fixture.running_stream_data]))))
       None
     = Raise (new_KeyError (u "endTime")).
Proof.
  split.
  - apply (proj1 (get_streams_all_or_nothing
                    (sample.client
                       (fixture.ok (PDict (fixture.page
                                             [fixture.stream_data]))))
                    None (fixture.page [fixture.stream_data])
                    [fixture.stream_data]
                    ltac:(vm_compute; reflexivity)
                    ltac:(vm_compute; reflexivity))).
    split; [| vm_compute; reflexivity].
    constructor; [vm_compute; reflexivity | constructor].
  - apply (proj2 (get_streams_all_or_nothing
                    (sample.client
                       (fixture.ok
                          (PDict (fixture.page
                                    [fixture.stream_data;
                                     fixture.running_stream_data]))))
                    None
                    (fixture.page [fixture.stream_data;
                                   fixture.running_stream_data])
                    [fixture.stream_data; fixture.running_stream_data]
                    ltac:(vm_compute; reflexivity)
                    ltac:(vm_compute; reflexivity))
             [fixture.stream_data] fixture.running_stream_data []).
    + reflexivity.
    + constructor; [| constructor]. exists fixture.stream.
      vm_compute. reflexivity.
    + vm_compute. reflexivity.
Defined.

(** A listing of one endpoint without secret is read as that endpoint with
    an empty secret. *)
Lemma listings_all_or_nothing_sample :
  get_webhooks (sample.client (fixture.ok (PDict fixture.endpoints)))
  = Return [fixture.endpoint].
Proof.
  apply (proj2 (proj2 (listings_all_or_nothing
                         (sample.client
                            (fixture.ok (PDict fixture.endpoints)))
                         None fixture.endpoints
                         [(u "endpoints", PList [PDict fixture.endpoint_data])]
                         [PDict fixture.endpoint_data]
                         ltac:(vm_compute; reflexivity)))
           ltac:(vm_compute; reflexivity) ltac:(vm_compute; reflexivity)).
  constructor; [vm_compute; reflexivity | constructor].
Defined.


Lemma on_event_commutes_sample :
  on_event (on_event sample.handler types.STREAM_CREATED (sample.returns 1))
    types.STREAM_CANCELLED (sample.returns 2)
  = on_event (on_event sample.handler types.STREAM_CANCELLED (sample.returns 2))
      types.STREAM_CREATED (sample.returns 1).
Proof.
  apply (proj1 (on_event_commutes sample.handler types.STREAM_CREATED
                  types.STREAM_CANCELLED (sample.returns 1) (sample.returns 2)
                  (sample.returns 3) (sample.returns 4)
                  ltac:(discriminate))).
Defined.

(** The Flask view on the sample body under its signature: the world after
    it is the world after [process_webhook], which returned. *)
Lemma flask_handler_status_sample :
  snd (flask_handler (sample.registered (sample.returns 1) (sample.returns 2))
         (mkFlaskRequest (Some fixture.signature_text) sample.body)
         sample.start)
  = snd (process_webhook
           (sample.registered (sample.returns 1) (sample.returns 2))
           (PStr sample.body) (PStr fixture.signature_text) sample.start)
  /\ fst (process_webhook
            (sample.registered (sample.returns 1) (sample.returns 2))
            (PStr sample.body) (PStr fixture.signature_text) sample.start)
     = Return true.
Proof.
  split.
  - apply (proj1 (flask_handler_status
                    (sample.registered (sample.returns 1) (sample.returns 2))
                    fixture.signature_text sample.body sample.start
                    ltac:(vm_compute; discriminate))).
  - vm_compute. reflexivity.
Defined.

(** An unreachable server is a [NetworkError]. *)
Lemma request_wraps_transport_errors_sample :
  _request fixture.offline (u "GET") (u "/api/streams") None None
  = Raise (exceptions.new_NetworkError
             (PStr (u "Network request failed: "
                    ++ exc_str fixture.connection_error))).
Proof.
  apply (proj1 (proj2 (request_wraps_transport_errors fixture.offline
                         (u "GET") (u "/api/streams") None None))
           fixture.connection_error eq_refl).
Defined.

(** Cancelling a stream against a server that answers 204 with no body. *)
Lemma no_content_operations_sample :
  cancel_stream (sample.client fixture.no_content) (u "stream_123")
  = Raise (exceptions.new_NetworkError
             (PStr (u "Network request failed: "
                    ++ exc_str fixture.not_json))).
Proof.
  apply (proj2 (proj1 (no_content_operations
                         (sample.client fixture.no_content)
                         (u "stream_123")))
           fixture.no_content fixture.not_json eq_refl
           ltac:(vm_compute; reflexivity) eq_refl eq_refl).
Defined.

(** A Django POST whose body is no UTF-8 is answered with 500. *)
Lemma undecodable_body_is_internal_error_sample :
  django_handler sample.handler
    (mkDjangoRequest (u "POST") (Some fixture.signature_text)
       (Raise fixture.decode_error))
    sample.start
  = (Return (DjangoJson
               (error_response (PStr (u "Internal server error")) 500)),
     sample.start).
Proof.
  apply (proj1 (proj2 (undecodable_body_is_internal_error sample.handler
                         (u "POST") fixture.signature_text None
                         (Raise fixture.decode_error) fixture.decode_error
                         sample.start)
                  ltac:(vm_compute; discriminate) eq_refl)).
Defined.


End FurtherSamples.
